(** * Graph memory layer: a shallow embedding of [mem0/memory/graph_memory.py]

    The class [MemoryGraph] orchestrates three external collaborators (an LLM
    client, an embedding client and a graph-store driver) and a lexical
    reranker.  The embedding below keeps the Python control flow of every
    method: dynamic values are a small universe [pyval], exceptions are an
    explicit error type, and the effects (driver state, the calls made to the
    collaborators, log records) are threaded through a state-and-error monad
    whose state survives an exception. *)

From Stdlib Require Import List String Ascii ZArith QArith Bool Lia Arith.
Import ListNotations.
Close Scope Q_scope.
Open Scope string_scope.

Set Implicit Arguments.
Set Warnings "-register-all".

(* ================================================================= *)
(** ** Python values *)

(** The values that flow through the module: JSON-like data returned by the
    LLM client, parameter dictionaries, rows returned by the driver.  Floats
    are never computed with here; they are carried as rationals. *)
Inductive pyval : Type :=
| PNone
| PBool (b : bool)
| PInt (z : Z)
| PFloat (q : Q)
| PStr (s : string)
| PList (l : list pyval)
| PDict (d : list (string * pyval)).

(** Exceptions raised by the module or crossing it. *)
Inductive exn : Type :=
| KeyError (key : pyval)
| IndexError
| TypeError
| AttributeError
| ValueError (msg : string)
| FailedUpdate (source target : pyval)
    (* Exception(f"Failed to update or create relationship between {source} and {target}") *)
| ExternalError (who msg : string).
    (* raised inside a collaborator (driver, LLM client, embedder, reranker) *)

Inductive result (A : Type) : Type :=
| Ok (a : A)
| Err (e : exn).
Arguments Ok {A} a.
Arguments Err {A} e.

Definition unsupported_provider_msg : string :=
  "Unsupported graph database provider for querying".

(* ----------------------------------------------------------------- *)
(** *** Strings: code points, [str.lower], [str.replace(" ", "_")], [str.split(" ")] *)

(** A Python [str] is a sequence of Unicode code points; it is modelled by its
    UTF-8 encoding, a [string] of bytes (a surrogate is encoded like any other
    code point).  Operations that Python defines on code points (case
    mapping, indexing, iteration, length) go through [codepoints] and
    [text]; a space is the single byte 32 and nothing else contains that
    byte, so replacing and splitting at spaces work on the bytes. *)

Definition space : ascii := " "%char.
Definition underscore : ascii := "_"%char.

Definition is_space (c : ascii) : bool := Ascii.eqb c space.

Fixpoint str_map (f : ascii -> ascii) (s : string) : string :=
  match s with
  | EmptyString => EmptyString
  | String c r => String (f c) (str_map f r)
  end.

Fixpoint str_forall (p : ascii -> bool) (s : string) : bool :=
  match s with
  | EmptyString => true
  | String c r => p c && str_forall p r
  end.

Fixpoint bytes (s : string) : list N :=
  match s with
  | EmptyString => []
  | String c r => N_of_ascii c :: bytes r
  end.

Fixpoint of_bytes (l : list N) : string :=
  match l with
  | [] => EmptyString
  | b :: r => String (ascii_of_N b) (of_bytes r)
  end.

(** U+FFFD, standing for a byte that starts no well-formed sequence. *)
Definition replacement : N := 65533%N.

(** The code points of Unicode: below U+110000. *)
Definition in_unicode (c : N) : bool := (c <? 1114112)%N.

Definition is_continuation (b : N) : bool := ((128 <=? b) && (b <? 192))%N.

Definition lead2 (b : N) : bool := ((192 <=? b) && (b <? 224))%N.
Definition lead3 (b : N) : bool := ((224 <=? b) && (b <? 240))%N.
Definition lead4 (b : N) : bool := ((240 <=? b) && (b <? 248))%N.

Definition cp2 (b0 b1 : N) : N := ((b0 - 192) * 64 + (b1 - 128))%N.
Definition cp3 (b0 b1 b2 : N) : N := ((b0 - 224) * 4096 + (b1 - 128) * 64 + (b2 - 128))%N.
Definition cp4 (b0 b1 b2 b3 : N) : N :=
  ((b0 - 240) * 262144 + (b1 - 128) * 4096 + (b2 - 128) * 64 + (b3 - 128))%N.

(** The code points of a UTF-8 byte sequence. *)
Fixpoint decode_utf8 (l : list N) : list N :=
  match l with
  | [] => []
  | b0 :: r0 =>
      if (b0 <? 128)%N then b0 :: decode_utf8 r0
      else
        match r0 with
        | [] => [replacement]
        | b1 :: r1 =>
            if lead2 b0 && is_continuation b1 then cp2 b0 b1 :: decode_utf8 r1
            else
              match r1 with
              | [] => replacement :: decode_utf8 r0
              | b2 :: r2 =>
                  if lead3 b0 && is_continuation b1 && is_continuation b2
                  then cp3 b0 b1 b2 :: decode_utf8 r2
                  else
                    match r2 with
                    | [] => replacement :: decode_utf8 r0
                    | b3 :: r3 =>
                        if lead4 b0 && is_continuation b1 && is_continuation b2
                           && is_continuation b3 && (cp4 b0 b1 b2 b3 <? 1114112)%N
                        then cp4 b0 b1 b2 b3 :: decode_utf8 r3
                        else replacement :: decode_utf8 r0
                    end
              end
        end
  end.

(** The UTF-8 bytes of one code point. *)
Definition encode_codepoint (c : N) : list N :=
  if (c <? 128)%N then [c]
  else if (c <? 2048)%N then [192 + c / 64; 128 + c mod 64]%N
  else if (c <? 65536)%N then [224 + c / 4096; 128 + (c / 64) mod 64; 128 + c mod 64]%N
  else if (c <? 1114112)%N
       then [240 + c / 262144; 128 + (c / 4096) mod 64; 128 + (c / 64) mod 64; 128 + c mod 64]%N
       else [239; 191; 189]%N.

Definition codepoints (s : string) : list N := decode_utf8 (bytes s).

Definition text (l : list N) : string := of_bytes (flat_map encode_codepoint l).

(** The code points that [str.lower] changes, with what it puts in their
    place (Unicode 14.0.0, the data of CPython 3.11). *)
Definition lower_table : list (N * list N) :=
  [(65, [97]); (66, [98]); (67, [99]); (68, [100]); (69, [101]); (70, [102]); (71, [103]);
   (72, [104]); (73, [105]); (74, [106]); (75, [107]); (76, [108]); (77, [109]); (78, [110]);
   (79, [111]); (80, [112]); (81, [113]); (82, [114]); (83, [115]); (84, [116]); (85, [117]);
   (86, [118]); (87, [119]); (88, [120]); (89, [121]); (90, [122]); (192, [224]); (193, [225]);
   (194, [226]); (195, [227]); (196, [228]); (197, [229]); (198, [230]); (199, [231]);
   (200, [232]); (201, [233]); (202, [234]); (203, [235]); (204, [236]); (205, [237]);
   (206, [238]); (207, [239]); (208, [240]); (209, [241]); (210, [242]); (211, [243]);
   (212, [244]); (213, [245]); (214, [246]); (216, [248]); (217, [249]); (218, [250]);
   (219, [251]); (220, [252]); (221, [253]); (222, [254]); (256, [257]); (258, [259]);
   (260, [261]); (262, [263]); (264, [265]); (266, [267]); (268, [269]); (270, [271]);
   (272, [273]); (274, [275]); (276, [277]); (278, [279]); (280, [281]); (282, [283]);
   (284, [285]); (286, [287]); (288, [289]); (290, [291]); (292, [293]); (294, [295]);
   (296, [297]); (298, [299]); (300, [301]); (302, [303]); (304, [105; 775]); (306, [307]);
   (308, [309]); (310, [311]); (313, [314]); (315, [316]); (317, [318]); (319, [320]);
   (321, [322]); (323, [324]); (325, [326]); (327, [328]); (330, [331]); (332, [333]);
   (334, [335]); (336, [337]); (338, [339]); (340, [341]); (342, [343]); (344, [345]);
   (346, [347]); (348, [349]); (350, [351]); (352, [353]); (354, [355]); (356, [357]);
   (358, [359]); (360, [361]); (362, [363]); (364, [365]); (366, [367]); (368, [369]);
   (370, [371]); (372, [373]); (374, [375]); (376, [255]); (377, [378]); (379, [380]);
   (381, [382]); (385, [595]); (386, [387]); (388, [389]); (390, [596]); (391, [392]);
   (393, [598]); (394, [599]); (395, [396]); (398, [477]); (399, [601]); (400, [603]);
   (401, [402]); (403, [608]); (404, [611]); (406, [617]); (407, [616]); (408, [409]);
   (412, [623]); (413, [626]); (415, [629]); (416, [417]); (418, [419]); (420, [421]);
   (422, [640]); (423, [424]); (425, [643]); (428, [429]); (430, [648]); (431, [432]);
   (433, [650]); (434, [651]); (435, [436]); (437, [438]); (439, [658]); (440, [441]);
   (444, [445]); (452, [454]); (453, [454]); (455, [457]); (456, [457]); (458, [460]);
   (459, [460]); (461, [462]); (463, [464]); (465, [466]); (467, [468]); (469, [470]);
   (471, [472]); (473, [474]); (475, [476]); (478, [479]); (480, [481]); (482, [483]);
   (484, [485]); (486, [487]); (488, [489]); (490, [491]); (492, [493]); (494, [495]);
   (497, [499]); (498, [499]); (500, [501]); (502, [405]); (503, [447]); (504, [505]);
   (506, [507]); (508, [509]); (510, [511]); (512, [513]); (514, [515]); (516, [517]);
   (518, [519]); (520, [521]); (522, [523]); (524, [525]); (526, [527]); (528, [529]);
   (530, [531]); (532, [533]); (534, [535]); (536, [537]); (538, [539]); (540, [541]);
   (542, [543]); (544, [414]); (546, [547]); (548, [549]); (550, [551]); (552, [553]);
   (554, [555]); (556, [557]); (558, [559]); (560, [561]); (562, [563]); (570, [11365]);
   (571, [572]); (573, [410]); (574, [11366]); (577, [578]); (579, [384]); (580, [649]);
   (581, [652]); (582, [583]); (584, [585]); (586, [587]); (588, [589]); (590, [591]);
   (880, [881]); (882, [883]); (886, [887]); (895, [1011]); (902, [940]); (904, [941]);
   (905, [942]); (906, [943]); (908, [972]); (910, [973]); (911, [974]); (913, [945]);
   (914, [946]); (915, [947]); (916, [948]); (917, [949]); (918, [950]); (919, [951]);
   (920, [952]); (921, [953]); (922, [954]); (923, [955]); (924, [956]); (925, [957]);
   (926, [958]); (927, [959]); (928, [960]); (929, [961]); (931, [963]); (932, [964]);
   (933, [965]); (934, [966]); (935, [967]); (936, [968]); (937, [969]); (938, [970]);
   (939, [971]); (975, [983]); (984, [985]); (986, [987]); (988, [989]); (990, [991]);
   (992, [993]); (994, [995]); (996, [997]); (998, [999]); (1000, [1001]); (1002, [1003]);
   (1004, [1005]); (1006, [1007]); (1012, [952]); (1015, [1016]); (1017, [1010]);
   (1018, [1019]); (1021, [891]); (1022, [892]); (1023, [893]); (1024, [1104]); (1025, [1105]);
   (1026, [1106]); (1027, [1107]); (1028, [1108]); (1029, [1109]); (1030, [1110]);
   (1031, [1111]); (1032, [1112]); (1033, [1113]); (1034, [1114]); (1035, [1115]);
   (1036, [1116]); (1037, [1117]); (1038, [1118]); (1039, [1119]); (1040, [1072]);
   (1041, [1073]); (1042, [1074]); (1043, [1075]); (1044, [1076]); (1045, [1077]);
   (1046, [1078]); (1047, [1079]); (1048, [1080]); (1049, [1081]); (1050, [1082]);
   (1051, [1083]); (1052, [1084]); (1053, [1085]); (1054, [1086]); (1055, [1087]);
   (1056, [1088]); (1057, [1089]); (1058, [1090]); (1059, [1091]); (1060, [1092]);
   (1061, [1093]); (1062, [1094]); (1063, [1095]); (1064, [1096]); (1065, [1097]);
   (1066, [1098]); (1067, [1099]); (1068, [1100]); (1069, [1101]); (1070, [1102]);
   (1071, [1103]); (1120, [1121]); (1122, [1123]); (1124, [1125]); (1126, [1127]);
   (1128, [1129]); (1130, [1131]); (1132, [1133]); (1134, [1135]); (1136, [1137]);
   (1138, [1139]); (1140, [1141]); (1142, [1143]); (1144, [1145]); (1146, [1147]);
   (1148, [1149]); (1150, [1151]); (1152, [1153]); (1162, [1163]); (1164, [1165]);
   (1166, [1167]); (1168, [1169]); (1170, [1171]); (1172, [1173]); (1174, [1175]);
   (1176, [1177]); (1178, [1179]); (1180, [1181]); (1182, [1183]); (1184, [1185]);
   (1186, [1187]); (1188, [1189]); (1190, [1191]); (1192, [1193]); (1194, [1195]);
   (1196, [1197]); (1198, [1199]); (1200, [1201]); (1202, [1203]); (1204, [1205]);
   (1206, [1207]); (1208, [1209]); (1210, [1211]); (1212, [1213]); (1214, [1215]);
   (1216, [1231]); (1217, [1218]); (1219, [1220]); (1221, [1222]); (1223, [1224]);
   (1225, [1226]); (1227, [1228]); (1229, [1230]); (1232, [1233]); (1234, [1235]);
   (1236, [1237]); (1238, [1239]); (1240, [1241]); (1242, [1243]); (1244, [1245]);
   (1246, [1247]); (1248, [1249]); (1250, [1251]); (1252, [1253]); (1254, [1255]);
   (1256, [1257]); (1258, [1259]); (1260, [1261]); (1262, [1263]); (1264, [1265]);
   (1266, [1267]); (1268, [1269]); (1270, [1271]); (1272, [1273]); (1274, [1275]);
   (1276, [1277]); (1278, [1279]); (1280, [1281]); (1282, [1283]); (1284, [1285]);
   (1286, [1287]); (1288, [1289]); (1290, [1291]); (1292, [1293]); (1294, [1295]);
   (1296, [1297]); (1298, [1299]); (1300, [1301]); (1302, [1303]); (1304, [1305]);
   (1306, [1307]); (1308, [1309]); (1310, [1311]); (1312, [1313]); (1314, [1315]);
   (1316, [1317]); (1318, [1319]); (1320, [1321]); (1322, [1323]); (1324, [1325]);
   (1326, [1327]); (1329, [1377]); (1330, [1378]); (1331, [1379]); (1332, [1380]);
   (1333, [1381]); (1334, [1382]); (1335, [1383]); (1336, [1384]); (1337, [1385]);
   (1338, [1386]); (1339, [1387]); (1340, [1388]); (1341, [1389]); (1342, [1390]);
   (1343, [1391]); (1344, [1392]); (1345, [1393]); (1346, [1394]); (1347, [1395]);
   (1348, [1396]); (1349, [1397]); (1350, [1398]); (1351, [1399]); (1352, [1400]);
   (1353, [1401]); (1354, [1402]); (1355, [1403]); (1356, [1404]); (1357, [1405]);
   (1358, [1406]); (1359, [1407]); (1360, [1408]); (1361, [1409]); (1362, [1410]);
   (1363, [1411]); (1364, [1412]); (1365, [1413]); (1366, [1414]); (4256, [11520]);
   (4257, [11521]); (4258, [11522]); (4259, [11523]); (4260, [11524]); (4261, [11525]);
   (4262, [11526]); (4263, [11527]); (4264, [11528]); (4265, [11529]); (4266, [11530]);
   (4267, [11531]); (4268, [11532]); (4269, [11533]); (4270, [11534]); (4271, [11535]);
   (4272, [11536]); (4273, [11537]); (4274, [11538]); (4275, [11539]); (4276, [11540]);
   (4277, [11541]); (4278, [11542]); (4279, [11543]); (4280, [11544]); (4281, [11545]);
   (4282, [11546]); (4283, [11547]); (4284, [11548]); (4285, [11549]); (4286, [11550]);
   (4287, [11551]); (4288, [11552]); (4289, [11553]); (4290, [11554]); (4291, [11555]);
   (4292, [11556]); (4293, [11557]); (4295, [11559]); (4301, [11565]); (5024, [43888]);
   (5025, [43889]); (5026, [43890]); (5027, [43891]); (5028, [43892]); (5029, [43893]);
   (5030, [43894]); (5031, [43895]); (5032, [43896]); (5033, [43897]); (5034, [43898]);
   (5035, [43899]); (5036, [43900]); (5037, [43901]); (5038, [43902]); (5039, [43903]);
   (5040, [43904]); (5041, [43905]); (5042, [43906]); (5043, [43907]); (5044, [43908]);
   (5045, [43909]); (5046, [43910]); (5047, [43911]); (5048, [43912]); (5049, [43913]);
   (5050, [43914]); (5051, [43915]); (5052, [43916]); (5053, [43917]); (5054, [43918]);
   (5055, [43919]); (5056, [43920]); (5057, [43921]); (5058, [43922]); (5059, [43923]);
   (5060, [43924]); (5061, [43925]); (5062, [43926]); (5063, [43927]); (5064, [43928]);
   (5065, [43929]); (5066, [43930]); (5067, [43931]); (5068, [43932]); (5069, [43933]);
   (5070, [43934]); (5071, [43935]); (5072, [43936]); (5073, [43937]); (5074, [43938]);
   (5075, [43939]); (5076, [43940]); (5077, [43941]); (5078, [43942]); (5079, [43943]);
   (5080, [43944]); (5081, [43945]); (5082, [43946]); (5083, [43947]); (5084, [43948]);
   (5085, [43949]); (5086, [43950]); (5087, [43951]); (5088, [43952]); (5089, [43953]);
   (5090, [43954]); (5091, [43955]); (5092, [43956]); (5093, [43957]); (5094, [43958]);
   (5095, [43959]); (5096, [43960]); (5097, [43961]); (5098, [43962]); (5099, [43963]);
   (5100, [43964]); (5101, [43965]); (5102, [43966]); (5103, [43967]); (5104, [5112]);
   (5105, [5113]); (5106, [5114]); (5107, [5115]); (5108, [5116]); (5109, [5117]);
   (7312, [4304]); (7313, [4305]); (7314, [4306]); (7315, [4307]); (7316, [4308]);
   (7317, [4309]); (7318, [4310]); (7319, [4311]); (7320, [4312]); (7321, [4313]);
   (7322, [4314]); (7323, [4315]); (7324, [4316]); (7325, [4317]); (7326, [4318]);
   (7327, [4319]); (7328, [4320]); (7329, [4321]); (7330, [4322]); (7331, [4323]);
   (7332, [4324]); (7333, [4325]); (7334, [4326]); (7335, [4327]); (7336, [4328]);
   (7337, [4329]); (7338, [4330]); (7339, [4331]); (7340, [4332]); (7341, [4333]);
   (7342, [4334]); (7343, [4335]); (7344, [4336]); (7345, [4337]); (7346, [4338]);
   (7347, [4339]); (7348, [4340]); (7349, [4341]); (7350, [4342]); (7351, [4343]);
   (7352, [4344]); (7353, [4345]); (7354, [4346]); (7357, [4349]); (7358, [4350]);
   (7359, [4351]); (7680, [7681]); (7682, [7683]); (7684, [7685]); (7686, [7687]);
   (7688, [7689]); (7690, [7691]); (7692, [7693]); (7694, [7695]); (7696, [7697]);
   (7698, [7699]); (7700, [7701]); (7702, [7703]); (7704, [7705]); (7706, [7707]);
   (7708, [7709]); (7710, [7711]); (7712, [7713]); (7714, [7715]); (7716, [7717]);
   (7718, [7719]); (7720, [7721]); (7722, [7723]); (7724, [7725]); (7726, [7727]);
   (7728, [7729]); (7730, [7731]); (7732, [7733]); (7734, [7735]); (7736, [7737]);
   (7738, [7739]); (7740, [7741]); (7742, [7743]); (7744, [7745]); (7746, [7747]);
   (7748, [7749]); (7750, [7751]); (7752, [7753]); (7754, [7755]); (7756, [7757]);
   (7758, [7759]); (7760, [7761]); (7762, [7763]); (7764, [7765]); (7766, [7767]);
   (7768, [7769]); (7770, [7771]); (7772, [7773]); (7774, [7775]); (7776, [7777]);
   (7778, [7779]); (7780, [7781]); (7782, [7783]); (7784, [7785]); (7786, [7787]);
   (7788, [7789]); (7790, [7791]); (7792, [7793]); (7794, [7795]); (7796, [7797]);
   (7798, [7799]); (7800, [7801]); (7802, [7803]); (7804, [7805]); (7806, [7807]);
   (7808, [7809]); (7810, [7811]); (7812, [7813]); (7814, [7815]); (7816, [7817]);
   (7818, [7819]); (7820, [7821]); (7822, [7823]); (7824, [7825]); (7826, [7827]);
   (7828, [7829]); (7838, [223]); (7840, [7841]); (7842, [7843]); (7844, [7845]);
   (7846, [7847]); (7848, [7849]); (7850, [7851]); (7852, [7853]); (7854, [7855]);
   (7856, [7857]); (7858, [7859]); (7860, [7861]); (7862, [7863]); (7864, [7865]);
   (7866, [7867]); (7868, [7869]); (7870, [7871]); (7872, [7873]); (7874, [7875]);
   (7876, [7877]); (7878, [7879]); (7880, [7881]); (7882, [7883]); (7884, [7885]);
   (7886, [7887]); (7888, [7889]); (7890, [7891]); (7892, [7893]); (7894, [7895]);
   (7896, [7897]); (7898, [7899]); (7900, [7901]); (7902, [7903]); (7904, [7905]);
   (7906, [7907]); (7908, [7909]); (7910, [7911]); (7912, [7913]); (7914, [7915]);
   (7916, [7917]); (7918, [7919]); (7920, [7921]); (7922, [7923]); (7924, [7925]);
   (7926, [7927]); (7928, [7929]); (7930, [7931]); (7932, [7933]); (7934, [7935]);
   (7944, [7936]); (7945, [7937]); (7946, [7938]); (7947, [7939]); (7948, [7940]);
   (7949, [7941]); (7950, [7942]); (7951, [7943]); (7960, [7952]); (7961, [7953]);
   (7962, [7954]); (7963, [7955]); (7964, [7956]); (7965, [7957]); (7976, [7968]);
   (7977, [7969]); (7978, [7970]); (7979, [7971]); (7980, [7972]); (7981, [7973]);
   (7982, [7974]); (7983, [7975]); (7992, [7984]); (7993, [7985]); (7994, [7986]);
   (7995, [7987]); (7996, [7988]); (7997, [7989]); (7998, [7990]); (7999, [7991]);
   (8008, [8000]); (8009, [8001]); (8010, [8002]); (8011, [8003]); (8012, [8004]);
   (8013, [8005]); (8025, [8017]); (8027, [8019]); (8029, [8021]); (8031, [8023]);
   (8040, [8032]); (8041, [8033]); (8042, [8034]); (8043, [8035]); (8044, [8036]);
   (8045, [8037]); (8046, [8038]); (8047, [8039]); (8072, [8064]); (8073, [8065]);
   (8074, [8066]); (8075, [8067]); (8076, [8068]); (8077, [8069]); (8078, [8070]);
   (8079, [8071]); (8088, [8080]); (8089, [8081]); (8090, [8082]); (8091, [8083]);
   (8092, [8084]); (8093, [8085]); (8094, [8086]); (8095, [8087]); (8104, [8096]);
   (8105, [8097]); (8106, [8098]); (8107, [8099]); (8108, [8100]); (8109, [8101]);
   (8110, [8102]); (8111, [8103]); (8120, [8112]); (8121, [8113]); (8122, [8048]);
   (8123, [8049]); (8124, [8115]); (8136, [8050]); (8137, [8051]); (8138, [8052]);
   (8139, [8053]); (8140, [8131]); (8152, [8144]); (8153, [8145]); (8154, [8054]);
   (8155, [8055]); (8168, [8160]); (8169, [8161]); (8170, [8058]); (8171, [8059]);
   (8172, [8165]); (8184, [8056]); (8185, [8057]); (8186, [8060]); (8187, [8061]);
   (8188, [8179]); (8486, [969]); (8490, [107]); (8491, [229]); (8498, [8526]); (8544, [8560]);
   (8545, [8561]); (8546, [8562]); (8547, [8563]); (8548, [8564]); (8549, [8565]);
   (8550, [8566]); (8551, [8567]); (8552, [8568]); (8553, [8569]); (8554, [8570]);
   (8555, [8571]); (8556, [8572]); (8557, [8573]); (8558, [8574]); (8559, [8575]);
   (8579, [8580]); (9398, [9424]); (9399, [9425]); (9400, [9426]); (9401, [9427]);
   (9402, [9428]); (9403, [9429]); (9404, [9430]); (9405, [9431]); (9406, [9432]);
   (9407, [9433]); (9408, [9434]); (9409, [9435]); (9410, [9436]); (9411, [9437]);
   (9412, [9438]); (9413, [9439]); (9414, [9440]); (9415, [9441]); (9416, [9442]);
   (9417, [9443]); (9418, [9444]); (9419, [9445]); (9420, [9446]); (9421, [9447]);
   (9422, [9448]); (9423, [9449]); (11264, [11312]); (11265, [11313]); (11266, [11314]);
   (11267, [11315]); (11268, [11316]); (11269, [11317]); (11270, [11318]); (11271, [11319]);
   (11272, [11320]); (11273, [11321]); (11274, [11322]); (11275, [11323]); (11276, [11324]);
   (11277, [11325]); (11278, [11326]); (11279, [11327]); (11280, [11328]); (11281, [11329]);
   (11282, [11330]); (11283, [11331]); (11284, [11332]); (11285, [11333]); (11286, [11334]);
   (11287, [11335]); (11288, [11336]); (11289, [11337]); (11290, [11338]); (11291, [11339]);
   (11292, [11340]); (11293, [11341]); (11294, [11342]); (11295, [11343]); (11296, [11344]);
   (11297, [11345]); (11298, [11346]); (11299, [11347]); (11300, [11348]); (11301, [11349]);
   (11302, [11350]); (11303, [11351]); (11304, [11352]); (11305, [11353]); (11306, [11354]);
   (11307, [11355]); (11308, [11356]); (11309, [11357]); (11310, [11358]); (11311, [11359]);
   (11360, [11361]); (11362, [619]); (11363, [7549]); (11364, [637]); (11367, [11368]);
   (11369, [11370]); (11371, [11372]); (11373, [593]); (11374, [625]); (11375, [592]);
   (11376, [594]); (11378, [11379]); (11381, [11382]); (11390, [575]); (11391, [576]);
   (11392, [11393]); (11394, [11395]); (11396, [11397]); (11398, [11399]); (11400, [11401]);
   (11402, [11403]); (11404, [11405]); (11406, [11407]); (11408, [11409]); (11410, [11411]);
   (11412, [11413]); (11414, [11415]); (11416, [11417]); (11418, [11419]); (11420, [11421]);
   (11422, [11423]); (11424, [11425]); (11426, [11427]); (11428, [11429]); (11430, [11431]);
   (11432, [11433]); (11434, [11435]); (11436, [11437]); (11438, [11439]); (11440, [11441]);
   (11442, [11443]); (11444, [11445]); (11446, [11447]); (11448, [11449]); (11450, [11451]);
   (11452, [11453]); (11454, [11455]); (11456, [11457]); (11458, [11459]); (11460, [11461]);
   (11462, [11463]); (11464, [11465]); (11466, [11467]); (11468, [11469]); (11470, [11471]);
   (11472, [11473]); (11474, [11475]); (11476, [11477]); (11478, [11479]); (11480, [11481]);
   (11482, [11483]); (11484, [11485]); (11486, [11487]); (11488, [11489]); (11490, [11491]);
   (11499, [11500]); (11501, [11502]); (11506, [11507]); (42560, [42561]); (42562, [42563]);
   (42564, [42565]); (42566, [42567]); (42568, [42569]); (42570, [42571]); (42572, [42573]);
   (42574, [42575]); (42576, [42577]); (42578, [42579]); (42580, [42581]); (42582, [42583]);
   (42584, [42585]); (42586, [42587]); (42588, [42589]); (42590, [42591]); (42592, [42593]);
   (42594, [42595]); (42596, [42597]); (42598, [42599]); (42600, [42601]); (42602, [42603]);
   (42604, [42605]); (42624, [42625]); (42626, [42627]); (42628, [42629]); (42630, [42631]);
   (42632, [42633]); (42634, [42635]); (42636, [42637]); (42638, [42639]); (42640, [42641]);
   (42642, [42643]); (42644, [42645]); (42646, [42647]); (42648, [42649]); (42650, [42651]);
   (42786, [42787]); (42788, [42789]); (42790, [42791]); (42792, [42793]); (42794, [42795]);
   (42796, [42797]); (42798, [42799]); (42802, [42803]); (42804, [42805]); (42806, [42807]);
   (42808, [42809]); (42810, [42811]); (42812, [42813]); (42814, [42815]); (42816, [42817]);
   (42818, [42819]); (42820, [42821]); (42822, [42823]); (42824, [42825]); (42826, [42827]);
   (42828, [42829]); (42830, [42831]); (42832, [42833]); (42834, [42835]); (42836, [42837]);
   (42838, [42839]); (42840, [42841]); (42842, [42843]); (42844, [42845]); (42846, [42847]);
   (42848, [42849]); (42850, [42851]); (42852, [42853]); (42854, [42855]); (42856, [42857]);
   (42858, [42859]); (42860, [42861]); (42862, [42863]); (42873, [42874]); (42875, [42876]);
   (42877, [7545]); (42878, [42879]); (42880, [42881]); (42882, [42883]); (42884, [42885]);
   (42886, [42887]); (42891, [42892]); (42893, [613]); (42896, [42897]); (42898, [42899]);
   (42902, [42903]); (42904, [42905]); (42906, [42907]); (42908, [42909]); (42910, [42911]);
   (42912, [42913]); (42914, [42915]); (42916, [42917]); (42918, [42919]); (42920, [42921]);
   (42922, [614]); (42923, [604]); (42924, [609]); (42925, [620]); (42926, [618]);
   (42928, [670]); (42929, [647]); (42930, [669]); (42931, [43859]); (42932, [42933]);
   (42934, [42935]); (42936, [42937]); (42938, [42939]); (42940, [42941]); (42942, [42943]);
   (42944, [42945]); (42946, [42947]); (42948, [42900]); (42949, [642]); (42950, [7566]);
   (42951, [42952]); (42953, [42954]); (42960, [42961]); (42966, [42967]); (42968, [42969]);
   (42997, [42998]); (65313, [65345]); (65314, [65346]); (65315, [65347]); (65316, [65348]);
   (65317, [65349]); (65318, [65350]); (65319, [65351]); (65320, [65352]); (65321, [65353]);
   (65322, [65354]); (65323, [65355]); (65324, [65356]); (65325, [65357]); (65326, [65358]);
   (65327, [65359]); (65328, [65360]); (65329, [65361]); (65330, [65362]); (65331, [65363]);
   (65332, [65364]); (65333, [65365]); (65334, [65366]); (65335, [65367]); (65336, [65368]);
   (65337, [65369]); (65338, [65370]); (66560, [66600]); (66561, [66601]); (66562, [66602]);
   (66563, [66603]); (66564, [66604]); (66565, [66605]); (66566, [66606]); (66567, [66607]);
   (66568, [66608]); (66569, [66609]); (66570, [66610]); (66571, [66611]); (66572, [66612]);
   (66573, [66613]); (66574, [66614]); (66575, [66615]); (66576, [66616]); (66577, [66617]);
   (66578, [66618]); (66579, [66619]); (66580, [66620]); (66581, [66621]); (66582, [66622]);
   (66583, [66623]); (66584, [66624]); (66585, [66625]); (66586, [66626]); (66587, [66627]);
   (66588, [66628]); (66589, [66629]); (66590, [66630]); (66591, [66631]); (66592, [66632]);
   (66593, [66633]); (66594, [66634]); (66595, [66635]); (66596, [66636]); (66597, [66637]);
   (66598, [66638]); (66599, [66639]); (66736, [66776]); (66737, [66777]); (66738, [66778]);
   (66739, [66779]); (66740, [66780]); (66741, [66781]); (66742, [66782]); (66743, [66783]);
   (66744, [66784]); (66745, [66785]); (66746, [66786]); (66747, [66787]); (66748, [66788]);
   (66749, [66789]); (66750, [66790]); (66751, [66791]); (66752, [66792]); (66753, [66793]);
   (66754, [66794]); (66755, [66795]); (66756, [66796]); (66757, [66797]); (66758, [66798]);
   (66759, [66799]); (66760, [66800]); (66761, [66801]); (66762, [66802]); (66763, [66803]);
   (66764, [66804]); (66765, [66805]); (66766, [66806]); (66767, [66807]); (66768, [66808]);
   (66769, [66809]); (66770, [66810]); (66771, [66811]); (66928, [66967]); (66929, [66968]);
   (66930, [66969]); (66931, [66970]); (66932, [66971]); (66933, [66972]); (66934, [66973]);
   (66935, [66974]); (66936, [66975]); (66937, [66976]); (66938, [66977]); (66940, [66979]);
   (66941, [66980]); (66942, [66981]); (66943, [66982]); (66944, [66983]); (66945, [66984]);
   (66946, [66985]); (66947, [66986]); (66948, [66987]); (66949, [66988]); (66950, [66989]);
   (66951, [66990]); (66952, [66991]); (66953, [66992]); (66954, [66993]); (66956, [66995]);
   (66957, [66996]); (66958, [66997]); (66959, [66998]); (66960, [66999]); (66961, [67000]);
   (66962, [67001]); (66964, [67003]); (66965, [67004]); (68736, [68800]); (68737, [68801]);
   (68738, [68802]); (68739, [68803]); (68740, [68804]); (68741, [68805]); (68742, [68806]);
   (68743, [68807]); (68744, [68808]); (68745, [68809]); (68746, [68810]); (68747, [68811]);
   (68748, [68812]); (68749, [68813]); (68750, [68814]); (68751, [68815]); (68752, [68816]);
   (68753, [68817]); (68754, [68818]); (68755, [68819]); (68756, [68820]); (68757, [68821]);
   (68758, [68822]); (68759, [68823]); (68760, [68824]); (68761, [68825]); (68762, [68826]);
   (68763, [68827]); (68764, [68828]); (68765, [68829]); (68766, [68830]); (68767, [68831]);
   (68768, [68832]); (68769, [68833]); (68770, [68834]); (68771, [68835]); (68772, [68836]);
   (68773, [68837]); (68774, [68838]); (68775, [68839]); (68776, [68840]); (68777, [68841]);
   (68778, [68842]); (68779, [68843]); (68780, [68844]); (68781, [68845]); (68782, [68846]);
   (68783, [68847]); (68784, [68848]); (68785, [68849]); (68786, [68850]); (71840, [71872]);
   (71841, [71873]); (71842, [71874]); (71843, [71875]); (71844, [71876]); (71845, [71877]);
   (71846, [71878]); (71847, [71879]); (71848, [71880]); (71849, [71881]); (71850, [71882]);
   (71851, [71883]); (71852, [71884]); (71853, [71885]); (71854, [71886]); (71855, [71887]);
   (71856, [71888]); (71857, [71889]); (71858, [71890]); (71859, [71891]); (71860, [71892]);
   (71861, [71893]); (71862, [71894]); (71863, [71895]); (71864, [71896]); (71865, [71897]);
   (71866, [71898]); (71867, [71899]); (71868, [71900]); (71869, [71901]); (71870, [71902]);
   (71871, [71903]); (93760, [93792]); (93761, [93793]); (93762, [93794]); (93763, [93795]);
   (93764, [93796]); (93765, [93797]); (93766, [93798]); (93767, [93799]); (93768, [93800]);
   (93769, [93801]); (93770, [93802]); (93771, [93803]); (93772, [93804]); (93773, [93805]);
   (93774, [93806]); (93775, [93807]); (93776, [93808]); (93777, [93809]); (93778, [93810]);
   (93779, [93811]); (93780, [93812]); (93781, [93813]); (93782, [93814]); (93783, [93815]);
   (93784, [93816]); (93785, [93817]); (93786, [93818]); (93787, [93819]); (93788, [93820]);
   (93789, [93821]); (93790, [93822]); (93791, [93823]); (125184, [125218]);
   (125185, [125219]); (125186, [125220]); (125187, [125221]); (125188, [125222]);
   (125189, [125223]); (125190, [125224]); (125191, [125225]); (125192, [125226]);
   (125193, [125227]); (125194, [125228]); (125195, [125229]); (125196, [125230]);
   (125197, [125231]); (125198, [125232]); (125199, [125233]); (125200, [125234]);
   (125201, [125235]); (125202, [125236]); (125203, [125237]); (125204, [125238]);
   (125205, [125239]); (125206, [125240]); (125207, [125241]); (125208, [125242]);
   (125209, [125243]); (125210, [125244]); (125211, [125245]); (125212, [125246]);
   (125213, [125247]); (125214, [125248]); (125215, [125249]); (125216, [125250]);
   (125217, [125251])]%N.

(** Case-ignorable code points, and cased code points that are not
    case-ignorable: the two classes the final-sigma rule looks at. *)
Definition case_ignorable_ranges : list (N * N) :=
  [(39, 39); (46, 46); (58, 58); (94, 94); (96, 96); (168, 168); (173, 173); (175, 175);
   (180, 180); (183, 184); (688, 879); (884, 885); (890, 890); (900, 901); (903, 903);
   (1155, 1161); (1369, 1369); (1375, 1375); (1425, 1469); (1471, 1471); (1473, 1474);
   (1476, 1477); (1479, 1479); (1524, 1524); (1536, 1541); (1552, 1562); (1564, 1564);
   (1600, 1600); (1611, 1631); (1648, 1648); (1750, 1757); (1759, 1768); (1770, 1773);
   (1807, 1807); (1809, 1809); (1840, 1866); (1958, 1968); (2027, 2037); (2042, 2042);
   (2045, 2045); (2070, 2093); (2137, 2139); (2184, 2184); (2192, 2193); (2200, 2207);
   (2249, 2306); (2362, 2362); (2364, 2364); (2369, 2376); (2381, 2381); (2385, 2391);
   (2402, 2403); (2417, 2417); (2433, 2433); (2492, 2492); (2497, 2500); (2509, 2509);
   (2530, 2531); (2558, 2558); (2561, 2562); (2620, 2620); (2625, 2626); (2631, 2632);
   (2635, 2637); (2641, 2641); (2672, 2673); (2677, 2677); (2689, 2690); (2748, 2748);
   (2753, 2757); (2759, 2760); (2765, 2765); (2786, 2787); (2810, 2815); (2817, 2817);
   (2876, 2876); (2879, 2879); (2881, 2884); (2893, 2893); (2901, 2902); (2914, 2915);
   (2946, 2946); (3008, 3008); (3021, 3021); (3072, 3072); (3076, 3076); (3132, 3132);
   (3134, 3136); (3142, 3144); (3146, 3149); (3157, 3158); (3170, 3171); (3201, 3201);
   (3260, 3260); (3263, 3263); (3270, 3270); (3276, 3277); (3298, 3299); (3328, 3329);
   (3387, 3388); (3393, 3396); (3405, 3405); (3426, 3427); (3457, 3457); (3530, 3530);
   (3538, 3540); (3542, 3542); (3633, 3633); (3636, 3642); (3654, 3662); (3761, 3761);
   (3764, 3772); (3782, 3782); (3784, 3789); (3864, 3865); (3893, 3893); (3895, 3895);
   (3897, 3897); (3953, 3966); (3968, 3972); (3974, 3975); (3981, 3991); (3993, 4028);
   (4038, 4038); (4141, 4144); (4146, 4151); (4153, 4154); (4157, 4158); (4184, 4185);
   (4190, 4192); (4209, 4212); (4226, 4226); (4229, 4230); (4237, 4237); (4253, 4253);
   (4348, 4348); (4957, 4959); (5906, 5908); (5938, 5939); (5970, 5971); (6002, 6003);
   (6068, 6069); (6071, 6077); (6086, 6086); (6089, 6099); (6103, 6103); (6109, 6109);
   (6155, 6159); (6211, 6211); (6277, 6278); (6313, 6313); (6432, 6434); (6439, 6440);
   (6450, 6450); (6457, 6459); (6679, 6680); (6683, 6683); (6742, 6742); (6744, 6750);
   (6752, 6752); (6754, 6754); (6757, 6764); (6771, 6780); (6783, 6783); (6823, 6823);
   (6832, 6862); (6912, 6915); (6964, 6964); (6966, 6970); (6972, 6972); (6978, 6978);
   (7019, 7027); (7040, 7041); (7074, 7077); (7080, 7081); (7083, 7085); (7142, 7142);
   (7144, 7145); (7149, 7149); (7151, 7153); (7212, 7219); (7222, 7223); (7288, 7293);
   (7376, 7378); (7380, 7392); (7394, 7400); (7405, 7405); (7412, 7412); (7416, 7417);
   (7468, 7530); (7544, 7544); (7579, 7679); (8125, 8125); (8127, 8129); (8141, 8143);
   (8157, 8159); (8173, 8175); (8189, 8190); (8203, 8207); (8216, 8217); (8228, 8228);
   (8231, 8231); (8234, 8238); (8288, 8292); (8294, 8303); (8305, 8305); (8319, 8319);
   (8336, 8348); (8400, 8432); (11388, 11389); (11503, 11505); (11631, 11631); (11647, 11647);
   (11744, 11775); (11823, 11823); (12293, 12293); (12330, 12333); (12337, 12341);
   (12347, 12347); (12441, 12446); (12540, 12542); (40981, 40981); (42232, 42237);
   (42508, 42508); (42607, 42610); (42612, 42621); (42623, 42623); (42652, 42655);
   (42736, 42737); (42752, 42785); (42864, 42864); (42888, 42890); (42994, 42996);
   (43000, 43001); (43010, 43010); (43014, 43014); (43019, 43019); (43045, 43046);
   (43052, 43052); (43204, 43205); (43232, 43249); (43263, 43263); (43302, 43309);
   (43335, 43345); (43392, 43394); (43443, 43443); (43446, 43449); (43452, 43453);
   (43471, 43471); (43493, 43494); (43561, 43566); (43569, 43570); (43573, 43574);
   (43587, 43587); (43596, 43596); (43632, 43632); (43644, 43644); (43696, 43696);
   (43698, 43700); (43703, 43704); (43710, 43711); (43713, 43713); (43741, 43741);
   (43756, 43757); (43763, 43764); (43766, 43766); (43867, 43871); (43881, 43883);
   (44005, 44005); (44008, 44008); (44013, 44013); (64286, 64286); (64434, 64450);
   (65024, 65039); (65043, 65043); (65056, 65071); (65106, 65106); (65109, 65109);
   (65279, 65279); (65287, 65287); (65294, 65294); (65306, 65306); (65342, 65342);
   (65344, 65344); (65392, 65392); (65438, 65439); (65507, 65507); (65529, 65531);
   (66045, 66045); (66272, 66272); (66422, 66426); (67456, 67461); (67463, 67504);
   (67506, 67514); (68097, 68099); (68101, 68102); (68108, 68111); (68152, 68154);
   (68159, 68159); (68325, 68326); (68900, 68903); (69291, 69292); (69446, 69456);
   (69506, 69509); (69633, 69633); (69688, 69702); (69744, 69744); (69747, 69748);
   (69759, 69761); (69811, 69814); (69817, 69818); (69821, 69821); (69826, 69826);
   (69837, 69837); (69888, 69890); (69927, 69931); (69933, 69940); (70003, 70003);
   (70016, 70017); (70070, 70078); (70089, 70092); (70095, 70095); (70191, 70193);
   (70196, 70196); (70198, 70199); (70206, 70206); (70367, 70367); (70371, 70378);
   (70400, 70401); (70459, 70460); (70464, 70464); (70502, 70508); (70512, 70516);
   (70712, 70719); (70722, 70724); (70726, 70726); (70750, 70750); (70835, 70840);
   (70842, 70842); (70847, 70848); (70850, 70851); (71090, 71093); (71100, 71101);
   (71103, 71104); (71132, 71133); (71219, 71226); (71229, 71229); (71231, 71232);
   (71339, 71339); (71341, 71341); (71344, 71349); (71351, 71351); (71453, 71455);
   (71458, 71461); (71463, 71467); (71727, 71735); (71737, 71738); (71995, 71996);
   (71998, 71998); (72003, 72003); (72148, 72151); (72154, 72155); (72160, 72160);
   (72193, 72202); (72243, 72248); (72251, 72254); (72263, 72263); (72273, 72278);
   (72281, 72283); (72330, 72342); (72344, 72345); (72752, 72758); (72760, 72765);
   (72767, 72767); (72850, 72871); (72874, 72880); (72882, 72883); (72885, 72886);
   (73009, 73014); (73018, 73018); (73020, 73021); (73023, 73029); (73031, 73031);
   (73104, 73105); (73109, 73109); (73111, 73111); (73459, 73460); (78896, 78904);
   (92912, 92916); (92976, 92982); (92992, 92995); (94031, 94031); (94095, 94111);
   (94176, 94177); (94179, 94180); (110576, 110579); (110581, 110587); (110589, 110590);
   (113821, 113822); (113824, 113827); (118528, 118573); (118576, 118598); (119143, 119145);
   (119155, 119170); (119173, 119179); (119210, 119213); (119362, 119364); (121344, 121398);
   (121403, 121452); (121461, 121461); (121476, 121476); (121499, 121503); (121505, 121519);
   (122880, 122886); (122888, 122904); (122907, 122913); (122915, 122916); (122918, 122922);
   (123184, 123197); (123566, 123566); (123628, 123631); (125136, 125142); (125252, 125259);
   (127995, 127999); (917505, 917505); (917536, 917631); (917760, 917999)]%N.

Definition cased_ranges : list (N * N) :=
  [(65, 90); (97, 122); (170, 170); (181, 181); (186, 186); (192, 214); (216, 246); (248, 442);
   (444, 447); (452, 659); (661, 687); (880, 883); (886, 887); (891, 893); (895, 895);
   (902, 902); (904, 906); (908, 908); (910, 929); (931, 1013); (1015, 1153); (1162, 1327);
   (1329, 1366); (1376, 1416); (4256, 4293); (4295, 4295); (4301, 4301); (4304, 4346);
   (4349, 4351); (5024, 5109); (5112, 5117); (7296, 7304); (7312, 7354); (7357, 7359);
   (7424, 7467); (7531, 7543); (7545, 7578); (7680, 7957); (7960, 7965); (7968, 8005);
   (8008, 8013); (8016, 8023); (8025, 8025); (8027, 8027); (8029, 8029); (8031, 8061);
   (8064, 8116); (8118, 8124); (8126, 8126); (8130, 8132); (8134, 8140); (8144, 8147);
   (8150, 8155); (8160, 8172); (8178, 8180); (8182, 8188); (8450, 8450); (8455, 8455);
   (8458, 8467); (8469, 8469); (8473, 8477); (8484, 8484); (8486, 8486); (8488, 8488);
   (8490, 8493); (8495, 8500); (8505, 8505); (8508, 8511); (8517, 8521); (8526, 8526);
   (8544, 8575); (8579, 8580); (9398, 9449); (11264, 11387); (11390, 11492); (11499, 11502);
   (11506, 11507); (11520, 11557); (11559, 11559); (11565, 11565); (42560, 42605);
   (42624, 42651); (42786, 42863); (42865, 42887); (42891, 42894); (42896, 42954);
   (42960, 42961); (42963, 42963); (42965, 42969); (42997, 42998); (43002, 43002);
   (43824, 43866); (43872, 43880); (43888, 43967); (64256, 64262); (64275, 64279);
   (65313, 65338); (65345, 65370); (66560, 66639); (66736, 66771); (66776, 66811);
   (66928, 66938); (66940, 66954); (66956, 66962); (66964, 66965); (66967, 66977);
   (66979, 66993); (66995, 67001); (67003, 67004); (68736, 68786); (68800, 68850);
   (71840, 71903); (93760, 93823); (119808, 119892); (119894, 119964); (119966, 119967);
   (119970, 119970); (119973, 119974); (119977, 119980); (119982, 119993); (119995, 119995);
   (119997, 120003); (120005, 120069); (120071, 120074); (120077, 120084); (120086, 120092);
   (120094, 120121); (120123, 120126); (120128, 120132); (120134, 120134); (120138, 120144);
   (120146, 120485); (120488, 120512); (120514, 120538); (120540, 120570); (120572, 120596);
   (120598, 120628); (120630, 120654); (120656, 120686); (120688, 120712); (120714, 120744);
   (120746, 120770); (120772, 120779); (122624, 122633); (122635, 122654); (125184, 125251);
   (127280, 127305); (127312, 127337); (127344, 127369)]%N.

Fixpoint lookup (c : N) (t : list (N * list N)) : option (list N) :=
  match t with
  | [] => None
  | (k, v) :: r => if (c =? k)%N then Some v else lookup c r
  end.

Definition to_lower_full (c : N) : list N :=
  match lookup c lower_table with
  | Some l => l
  | None => [c]
  end.

Definition in_ranges (c : N) (rs : list (N * N)) : bool :=
  existsb (fun r => (fst r <=? c) && (c <=? snd r))%N rs.

Definition is_case_ignorable (c : N) : bool := in_ranges c case_ignorable_ranges.
Definition is_cased (c : N) : bool := in_ranges c cased_ranges.

Fixpoint first_not_ignorable (l : list N) : option N :=
  match l with
  | [] => None
  | c :: r => if is_case_ignorable c then first_not_ignorable r else Some c
  end.

(** U+03A3 is in final position: a cased letter before it (case-ignorable
    ones skipped), none after it. *)
Definition final_sigma (before_rev after : list N) : bool :=
  match first_not_ignorable before_rev with
  | None => false
  | Some c =>
      is_cased c
      && match first_not_ignorable after with
         | None => true
         | Some d => negb (is_cased d)
         end
  end.

Definition capital_sigma : N := 931%N.

Fixpoint lower_from (before_rev : list N) (l : list N) : list N :=
  match l with
  | [] => []
  | c :: r =>
      ((if (c =? capital_sigma)%N
        then [if final_sigma before_rev r then 962 else 963]%N
        else to_lower_full c)
       ++ lower_from (c :: before_rev) r)%list
  end.

(** [s.lower()] *)
Definition lower (s : string) : string := text (lower_from [] (codepoints s)).

(** A code point that [str.lower] leaves alone wherever it stands. *)
Definition is_stable (c : N) : bool :=
  in_unicode c && negb (c =? capital_sigma)%N
  && match lookup c lower_table with Some _ => false | None => true end.

(** The ASCII part of the case mapping. *)
Definition is_upper (c : ascii) : bool :=
  let n := nat_of_ascii c in (65 <=? n)%nat && (n <=? 90)%nat.

Definition lower_ascii (c : ascii) : ascii :=
  if is_upper c then ascii_of_nat (nat_of_ascii c + 32) else c.

Definition is_ascii (s : string) : bool :=
  str_forall (fun c => (N_of_ascii c <? 128)%N) s.

(** [s.replace(" ", "_")] : only the one-character pattern the module uses. *)
Definition replace_space (s : string) : string :=
  str_map (fun c => if is_space c then underscore else c) s.

(** The same on one code point: U+0020 becomes U+005F. *)
Definition replace_space_codepoint (c : N) : N := if (c =? 32)%N then 95%N else c.

(** [s.lower().replace(" ", "_")], the normalisation applied to names and labels. *)
Definition normalize (s : string) : string := replace_space (lower s).

(** Lowercase: [s.lower() == s]. *)
Definition is_lowercase (s : string) : bool := String.eqb (lower s) s.

(** Lowercase, no space. *)
Definition is_normalized (s : string) : bool :=
  is_lowercase s && str_forall (fun c => negb (is_space c)) s.

(** [s.split(" ")] : every single space separates, empty pieces are kept. *)
Fixpoint split_space_aux (cur : string) (s : string) : list string :=
  match s with
  | EmptyString => [cur]
  | String c r =>
      if is_space c then cur :: split_space_aux EmptyString r
      else split_space_aux (cur ++ String c EmptyString) r
  end.

Definition split_space (s : string) : list string := split_space_aux EmptyString s.

(* ----------------------------------------------------------------- *)
(** *** Subscripting, iteration, truth value *)

Definition hashable (v : pyval) : bool :=
  match v with
  | PList _ | PDict _ => false
  | _ => true
  end.

Definition num_of (v : pyval) : option Q :=
  match v with
  | PBool b => Some (if b then 1 else 0)%Q
  | PInt z => Some (inject_Z z)
  | PFloat q => Some q
  | _ => None
  end.

(** Equality of dictionary keys ([True == 1 == 1.0]). *)
Definition key_eqb (a b : pyval) : bool :=
  match num_of a, num_of b with
  | Some x, Some y => Qeq_bool x y
  | _, _ =>
      match a, b with
      | PNone, PNone => true
      | PStr s, PStr t => String.eqb s t
      | _, _ => false
      end
  end.

Fixpoint assoc {A : Type} (k : string) (d : list (string * A)) : option A :=
  match d with
  | [] => None
  | (k', v) :: r => if String.eqb k k' then Some v else assoc k r
  end.

(** Index of a sequence of length [n], with Python's negative indices. *)
Definition seq_index (n : nat) (i : Z) : option nat :=
  let len := Z.of_nat n in
  let j := if (i <? 0)%Z then (i + len)%Z else i in
  if ((0 <=? j) && (j <? len))%Z then Some (Z.to_nat j) else None.

Definition as_index (k : pyval) : option Z :=
  match k with
  | PInt z => Some z
  | PBool b => Some (if b then 1 else 0)%Z
  | _ => None
  end.

(** The [n]-th character of a [str], a one-character [str]. *)
Definition str_nth (n : nat) (s : string) : option string :=
  match nth_error (codepoints s) n with
  | Some c => Some (text [c])
  | None => None
  end.

(** [v[k]] *)
Definition getitem (v k : pyval) : result pyval :=
  match v with
  | PDict d =>
      match k with
      | PStr s => match assoc s d with Some x => Ok x | None => Err (KeyError k) end
      | _ => if hashable k then Err (KeyError k) else Err TypeError
      end
  | PList l =>
      match as_index k with
      | Some i =>
          match seq_index (List.length l) i with
          | Some j => match nth_error l j with Some x => Ok x | None => Err IndexError end
          | None => Err IndexError
          end
      | None => Err TypeError
      end
  | PStr s =>
      match as_index k with
      | Some i =>
          match seq_index (List.length (codepoints s)) i with
          | Some j =>
              match str_nth j s with
              | Some c => Ok (PStr c)
              | None => Err IndexError
              end
          | None => Err IndexError
          end
      | None => Err TypeError
      end
  | _ => Err TypeError
  end.

Definition getkey (v : pyval) (k : string) : result pyval := getitem v (PStr k).
Definition getidx (v : pyval) (i : Z) : result pyval := getitem v (PInt i).

Definition chars (s : string) : list pyval :=
  map (fun c => PStr (text [c])) (codepoints s).

(** The items a [for] loop visits. *)
Definition py_iter (v : pyval) : result (list pyval) :=
  match v with
  | PList l => Ok l
  | PDict d => Ok (map (fun kv => PStr (fst kv)) d)
  | PStr s => Ok (chars s)
  | _ => Err TypeError
  end.

(** Truth value, as tested by [if x:] and [not x]. *)
Definition truthy (v : pyval) : bool :=
  match v with
  | PNone => false
  | PBool b => b
  | PInt z => negb (z =? 0)%Z
  | PFloat q => negb (Qeq_bool q 0%Q)
  | PStr s => negb (String.eqb s "")
  | PList l => match l with [] => false | _ => true end
  | PDict d => match d with [] => false | _ => true end
  end.

(** [v == "literal"] *)
Definition eq_str (v : pyval) (s : string) : bool :=
  match v with
  | PStr t => String.eqb t s
  | _ => false
  end.

(** [v.lower().replace(" ", "_")]: only [str] has these methods. *)
Definition py_normalize (v : pyval) : result string :=
  match v with
  | PStr s => Ok (normalize s)
  | _ => Err AttributeError
  end.

(** [list(d.values())] *)
Definition dict_values (v : pyval) : result pyval :=
  match v with
  | PDict d => Ok (PList (map snd d))
  | _ => Err AttributeError
  end.

(** A dictionary keyed by arbitrary hashable values, in insertion order
    ([entity_type_map]). *)
Definition pydict : Type := list (pyval * pyval).

Fixpoint dict_set (k v : pyval) (d : pydict) : pydict :=
  match d with
  | [] => [(k, v)]
  | (k', v') :: r => if key_eqb k k' then (k', v) :: r else (k', v') :: dict_set k v r
  end.

(** [d[k] = v] *)
Definition setitem (d : pydict) (k v : pyval) : result pydict :=
  if hashable k then Ok (dict_set k v d) else Err TypeError.

Definition dict_keys (d : pydict) : list pyval := map fst d.

(** The dictionary literal [{"source": a, "relationship": b, "target": c}]. *)
Definition triple (a b c : pyval) : pyval :=
  PDict [("source", a); ("relationship", b); ("target", c)].

(* ================================================================= *)
(** ** Collaborators *)

(** The Cypher statements the module sends, one constructor per query text of
    the source; the labels spliced into the text by f-strings are arguments.
    The two similarity templates [FALKORDB_QUERY] and [NEO4J_QUERY] are
    imported constants. *)
Inductive cypher : Type :=
| MergeTriple (source_type relation destination_type : string)
    (* add: MERGE (n:source_type {name: $source_name, user_id: $user_id}) ...
            MERGE (m:destination_type {name: $dest_name, user_id: $user_id}) ...
            MERGE (n)-[rel:relation]->(m) ... RETURN n, rel, m *)
| SimilarityFalkor
| SimilarityNeo4j
| DeleteAll
    (* MATCH (n {user_id: $user_id}) DETACH DELETE n *)
| GetAll
    (* MATCH (n {user_id: $user_id})-[r]->(m {user_id: $user_id})
       RETURN n.name AS source, type(r) AS relationship, m.name AS target
       LIMIT $limit *)
| CheckAndCreate
    (* MERGE (n1 {name: $source, user_id: $user_id})
       MERGE (n2 {name: $target, user_id: $user_id}) *)
| DeleteRel
    (* MATCH (n1 {name: $source, user_id: $user_id})-[r]->(n2 {name: $target, user_id: $user_id})
       DELETE r *)
| CreateRel (relationship : string).
    (* MATCH (n1 {name: $source, user_id: $user_id}), (n2 {name: $target, user_id: $user_id})
       CREATE (n1)-[r:relationship]->(n2) RETURN n1, r, n2 *)

(** A parameter dictionary (string keys). *)
Definition params : Type := list (string * pyval).

(** What the LLM client is asked.  The prompt texts are imported constants and
    the serialisation helpers ([format_entities], [get_update_memory_messages])
    are imported functions; a request records the tool set chosen and the data
    spliced into the messages. *)
Inductive llm_request : Type :=
| ExtractEntities (structured : bool) (user_id query : pyval)
| ExtractRelationsCustom (structured : bool) (user_id : string) (custom_prompt data : pyval)
| ExtractRelationsPlain (structured : bool) (user_id : string) (entities : list pyval) (data : pyval)
| UpdateMemory (structured : bool) (search_output : list pyval) (extracted_relations : pyval).

Inductive log_record : Type :=
| LogAdded (n : nat)                       (* info: Added {n} new memories to the graph *)
| LogSearchToolError (e : exn)             (* error: Error in search tool: {e} *)
| LogEntityTypeMap (m : pydict)            (* debug: Entity type map: {m} *)
| LogReturned (n : nat)                    (* info: Returned {n} search results *)
| LogRetrieved (n : nat)                   (* info: Retrieved {n} relationships *)
| LogExtracted (v : pyval)                 (* debug: Extracted entities: {v} *)
| LogUpdating (source relationship target : pyval).
                                           (* info: Updating relationship: ... *)

(** Every call that leaves the module, in the order it is made. *)
Inductive event : Type :=
| EvLLM (req : llm_request)
| EvEmbed (text : pyval)
| EvSelect (name : pyval)
| EvQuery (q : cypher) (ps : params)
| EvIndex (corpus : list (list pyval))
| EvRank (query : list string)
| EvLog (r : log_record).

(** The graph-store adapter [self.graph]: [run_query] is [self.graph.query],
    [select_graph] is the assignment
    [self.graph._graph = self.graph._driver.select_graph(name)].
    Both may fail, and both return the store they leave behind. *)
Record Driver : Type := {
  store : Type;
  run_query : cypher -> params -> store -> result (list pyval) * store;
  select_graph : pyval -> store -> result unit * store
}.

(** The lexical reranker [rank_bm25.BM25Okapi]: building the index over a
    corpus, and the order of the documents by decreasing score
    ([argsort(scores)[::-1]]); the floating-point scores stay inside. *)
Record Reranker : Type := {
  bm25_index : Type;
  BM25Okapi : list (list pyval) -> result bm25_index;
  ranking : bm25_index -> list string -> result (list nat)
}.

(** The fields of [self] and [self.config] that the methods read. *)
Record MemoryGraph : Type := {
  provider : string;        (* self.config.graph_store.provider *)
  custom_prompt : pyval;    (* self.config.graph_store.custom_prompt *)
  llm_provider : string;    (* self.llm_provider *)
  threshold : pyval         (* self.threshold *)
}.

(** [__init__]: the choice of [self.llm_provider], and the fixed threshold. *)
Definition init_llm_provider (llm_cfg graph_store_llm : option string) : string :=
  let p := "openai_structured" in
  let p := match llm_cfg with
           | Some s => if String.eqb s "" then p else s
           | None => p
           end in
  match graph_store_llm with
  | Some s => s
  | None => p
  end.

Definition init_threshold : pyval := PFloat (7 # 10)%Q.

Definition default_limit : pyval := PInt 100.

(* ================================================================= *)
(** ** The effect monad *)

Section Monad.

Variable D : Driver.

(** The world a method runs in: the driver's store and the calls made so far. *)
Record world : Type := {
  w_store : store D;
  w_trace : list event
}.

(** A computation returns a value or raises; the world it leaves is kept in
    both cases. *)
Definition M (A : Type) : Type := world -> result A * world.

Definition ret {A} (a : A) : M A := fun w => (Ok a, w).

Definition raise {A} (e : exn) : M A := fun w => (Err e, w).

Definition bind {A B} (c : M A) (k : A -> M B) : M B :=
  fun w =>
    match c w with
    | (Ok a, w') => k a w'
    | (Err e, w') => (Err e, w')
    end.

Definition lift {A} (r : result A) : M A :=
  match r with
  | Ok a => ret a
  | Err e => raise e
  end.

Definition emit (e : event) : M unit :=
  fun w => (Ok tt, {| w_store := w_store w; w_trace := w_trace w ++ [e] |}).

Definition log (r : log_record) : M unit := emit (EvLog r).

End Monad.

Arguments ret {D A} a.
Arguments emit {D} e.
Arguments log {D} r.
Arguments raise {D A} e.
Arguments lift {D A} r.

Declare Scope py_scope.
Delimit Scope py_scope with py.
Notation "x <- c ;; k" := (bind c (fun x => k))
  (at level 61, c at next level, right associativity) : py_scope.
Notation "c ;;; k" := (bind c (fun _ => k))
  (at level 61, right associativity) : py_scope.
Open Scope py_scope.

(** [for x in l: s = body(s, x)] *)
Fixpoint for_each {D : Driver} {A S : Type} (l : list A) (body : S -> A -> M D S) (s : S)
  : M D S :=
  match l with
  | [] => ret s
  | x :: r => s' <- body s x ;; for_each r body s'
  end.

(** [[f(x) for x in l]] for a pure, fallible [f]. *)
Fixpoint map_result {A B : Type} (f : A -> result B) (l : list A) : result (list B) :=
  match l with
  | [] => Ok []
  | x :: r =>
      match f x with
      | Err e => Err e
      | Ok y =>
          match map_result f r with
          | Err e => Err e
          | Ok ys => Ok (y :: ys)
          end
      end
  end.

(* ================================================================= *)
(** ** The methods of [MemoryGraph] *)

Section Methods.

Variable D : Driver.
Variable R : Reranker.
(** [self.llm.generate_response], together with the imported helpers that
    assemble its messages. *)
Variable llm : llm_request -> result pyval.
(** [self.embedding_model.embed] *)
Variable embed : pyval -> result pyval.
Variable self : MemoryGraph.

#[local] Abbreviation M := (M D).

(* --------------------------------------------------------------- *)
(** *** Calls to the collaborators *)

Definition call_llm (req : llm_request) : M pyval :=
  emit (EvLLM req) ;;; lift (llm req).

Definition call_embed (text : pyval) : M pyval :=
  emit (EvEmbed text) ;;; lift (embed text).

Definition call_select (name : pyval) : M unit :=
  fun w =>
    let (r, st) := select_graph D name (w_store w) in
    (r, {| w_store := st; w_trace := w_trace w ++ [EvSelect name] |}).

Definition call_query (q : cypher) (ps : params) : M (list pyval) :=
  fun w =>
    let (r, st) := run_query D q ps (w_store w) in
    (r, {| w_store := st; w_trace := w_trace w ++ [EvQuery q ps] |}).

Definition call_index (corpus : list (list pyval)) : M (bm25_index R) :=
  emit (EvIndex corpus) ;;; lift (BM25Okapi R corpus).

Definition call_ranking (idx : bm25_index R) (query : list string) : M (list nat) :=
  emit (EvRank query) ;;; lift (ranking R idx query).

(** [self.llm_provider in ["azure_openai_structured", "openai_structured"]] *)
Definition structured : bool :=
  String.eqb (llm_provider self) "azure_openai_structured"
  || String.eqb (llm_provider self) "openai_structured".

Definition param_lookup (ps : params) (k : string) : result pyval :=
  match assoc k ps with
  | Some v => Ok v
  | None => Err (KeyError (PStr k))
  end.

(* --------------------------------------------------------------- *)
(** *** [graph_query] *)

Definition graph_query (query : cypher) (ps : params) : M (list pyval) :=
  (if String.eqb (provider self) "falkordb"
   then name <- lift (param_lookup ps "user_id") ;; call_select name
   else ret tt) ;;;
  query_output <- call_query query ps ;;
  if String.eqb (provider self) "neo4j"
  then lift (map_result dict_values query_output)
  else ret query_output.

(* --------------------------------------------------------------- *)
(** *** [_search] *)

(** The body of the [try] block, one loop iteration:
    [entity_type_map[item["entity"]] = item["entity_type"]]
    (right-hand side first, then the key, then the store). *)
Definition record_entity (m : pydict) (item : pyval) : result pydict :=
  match getkey item "entity_type" with
  | Err e => Err e
  | Ok ty =>
      match getkey item "entity" with
      | Err e => Err e
      | Ok name => setitem m name ty
      end
  end.

(** The loop of the [try] block: the map built so far stays as it is when an
    iteration raises. *)
Fixpoint record_entities (items : list pyval) (m : pydict) : pydict * option exn :=
  match items with
  | [] => (m, None)
  | item :: rest =>
      match record_entity m item with
      | Err e => (m, Some e)
      | Ok m' => record_entities rest m'
      end
  end.

(** [search_results["tool_calls"][0]["arguments"]["entities"]], iterated. *)
Definition entity_items (search_results : pyval) : result (list pyval) :=
  match getkey search_results "tool_calls" with
  | Err e => Err e
  | Ok calls =>
      match getidx calls 0 with
      | Err e => Err e
      | Ok call =>
          match getkey call "arguments" with
          | Err e => Err e
          | Ok args =>
              match getkey args "entities" with
              | Err e => Err e
              | Ok ents => py_iter ents
              end
          end
      end
  end.

(** The whole [try ... except Exception as e: logger.error(...)]. *)
Definition extract_entity_type_map (search_results : pyval) : pydict * option exn :=
  match entity_items search_results with
  | Err e => ([], Some e)
  | Ok items => record_entities items []
  end.

(** The branch on the provider name inside the retrieval loop. *)
Definition similarity_query : result cypher :=
  if String.eqb (provider self) "falkordb" then Ok SimilarityFalkor
  else if String.eqb (provider self) "neo4j" then Ok SimilarityNeo4j
  else Err (ValueError unsupported_provider_msg).

(** One iteration of [for node in list(entity_type_map.keys())]. *)
Definition retrieve_node (filters limit : pyval) (result_relations : list pyval)
           (node : pyval) : M (list pyval) :=
  n_embedding <- call_embed node ;;
  cypher_query <- lift similarity_query ;;
  user_id <- lift (getkey filters "user_id") ;;
  let ps := [("n_embedding", n_embedding); ("threshold", threshold self);
             ("user_id", user_id); ("limit", limit)] in
  ans <- graph_query cypher_query ps ;;
  ret (result_relations ++ ans)%list.

Definition retrieve (filters limit : pyval) (entity_type_map : pydict) : M (list pyval) :=
  for_each (dict_keys entity_type_map) (retrieve_node filters limit) [].

Definition _search (query filters limit : pyval) : M (list pyval * pydict) :=
  user_id <- lift (getkey filters "user_id") ;;
  search_results <- call_llm (ExtractEntities structured user_id query) ;;
  let (entity_type_map, failure) := extract_entity_type_map search_results in
  match failure with
  | Some e => log (LogSearchToolError e)
  | None => ret tt
  end ;;;
  log (LogEntityTypeMap entity_type_map) ;;;
  result_relations <- retrieve filters limit entity_type_map ;;
  ret (result_relations, entity_type_map).

(* --------------------------------------------------------------- *)
(** *** [search] *)

(** [[item[0], item[2], item[4]]] *)
Definition candidate_tokens (item : pyval) : result (list pyval) :=
  match getidx item 0 with
  | Err e => Err e
  | Ok a =>
      match getidx item 2 with
      | Err e => Err e
      | Ok b =>
          match getidx item 4 with
          | Err e => Err e
          | Ok c => Ok [a; b; c]
          end
      end
  end.

(** [query.split(" ")] *)
Definition py_split (query : pyval) : result (list string) :=
  match query with
  | PStr s => Ok (split_space s)
  | _ => Err AttributeError
  end.

Definition document_at (documents : list (list pyval)) (i : nat) : result (list pyval) :=
  match nth_error documents i with
  | Some d => Ok d
  | None => Err IndexError
  end.

(** [bm25.get_top_n(query, documents, n)]:
    [top_n = argsort(scores)[::-1][:n]; return [documents[i] for i in top_n]]. *)
Definition get_top_n (idx : bm25_index R) (query : list string)
           (documents : list (list pyval)) (n : nat) : M (list (list pyval)) :=
  order <- call_ranking idx query ;;
  lift (map_result (document_at documents) (firstn n order)).

(** [{"source": item[0], "relationship": item[1], "target": item[2]}] for a
    reranked three-token document. *)
Definition triple_of_tokens (item : list pyval) : result pyval :=
  match item with
  | a :: b :: c :: _ => Ok (triple a b c)
  | _ => Err IndexError
  end.

Definition search (query filters limit : pyval) : M (list pyval) :=
  out <- _search query filters limit ;;
  let search_output := fst out in
  match search_output with
  | [] => ret []
  | _ =>
      search_outputs_sequence <- lift (map_result candidate_tokens search_output) ;;
      bm25 <- call_index search_outputs_sequence ;;
      tokenized_query <- lift (py_split query) ;;
      reranked_results <- get_top_n bm25 tokenized_query search_outputs_sequence 5 ;;
      search_results <- lift (map_result triple_of_tokens reranked_results) ;;
      log (LogReturned (List.length search_results)) ;;;
      ret search_results
  end.

(* --------------------------------------------------------------- *)
(** *** [delete_all], [get_all] *)

Definition delete_all (filters : pyval) : M unit :=
  user_id <- lift (getkey filters "user_id") ;;
  graph_query DeleteAll [("user_id", user_id)] ;;;
  ret tt.

(** [{"source": result[0], "relationship": result[1], "target": result[2]}] *)
Definition triple_of_row (row : pyval) : result pyval :=
  match getidx row 0 with
  | Err e => Err e
  | Ok a =>
      match getidx row 1 with
      | Err e => Err e
      | Ok b =>
          match getidx row 2 with
          | Err e => Err e
          | Ok c => Ok (triple a b c)
          end
      end
  end.

(** The argument [limit] is accepted and not used by the body: the
    parameter dictionary handed to [graph_query] holds [user_id] only. *)
Definition get_all (filters limit : pyval) : M (list pyval) :=
  user_id <- lift (getkey filters "user_id") ;;
  results <- graph_query GetAll [("user_id", user_id)] ;;
  final_results <- lift (map_result triple_of_row results) ;;
  log (LogRetrieved (List.length final_results)) ;;;
  ret final_results.

(* --------------------------------------------------------------- *)
(** *** [_extract_relations] *)

(** The second argument of [str.replace] must be a [str]. *)
Definition as_str (v : pyval) : result string :=
  match v with
  | PStr s => Ok s
  | _ => Err TypeError
  end.

Definition _extract_relations (data filters : pyval) (entity_type_map : pydict) : M pyval :=
  user_id <- lift (getkey filters "user_id") ;;
  uid <- lift (as_str user_id) ;;
  let request :=
    if truthy (custom_prompt self)
    then ExtractRelationsCustom structured uid (custom_prompt self) data
    else ExtractRelationsPlain structured uid (dict_keys entity_type_map) data in
  extracted_entities <- call_llm request ;;
  calls <- lift (getkey extracted_entities "tool_calls") ;;
  extracted_entities <-
    (if truthy calls
     then
       call <- lift (getidx calls 0) ;;
       args <- lift (getkey call "arguments") ;;
       lift (getkey args "entities")
     else ret (PList [])) ;;
  log (LogExtracted extracted_entities) ;;;
  ret extracted_entities.

(* --------------------------------------------------------------- *)
(** *** [_update_relationship] *)

Definition update_params (source target user_id : pyval) : params :=
  [("source", source); ("target", target); ("user_id", user_id)].

Definition _update_relationship (source target relationship filters : pyval) : M unit :=
  log (LogUpdating source relationship target) ;;;
  relationship <- lift (py_normalize relationship) ;;
  user_id <- lift (getkey filters "user_id") ;;
  graph_query CheckAndCreate (update_params source target user_id) ;;;
  user_id <- lift (getkey filters "user_id") ;;
  graph_query DeleteRel (update_params source target user_id) ;;;
  user_id <- lift (getkey filters "user_id") ;;
  result <- graph_query (CreateRel relationship) (update_params source target user_id) ;;
  match result with
  | [] => raise (FailedUpdate source target)
  | _ => ret tt
  end.

(* --------------------------------------------------------------- *)
(** *** [add] *)

(** One iteration of [for item in memory_updates["tool_calls"]].  The tests
    [item["name"] == ...] read the same key of the same item; it is read
    once here. *)
Definition apply_decision (filters : pyval) (to_be_added : list pyval) (item : pyval)
  : M (list pyval) :=
  name <- lift (getkey item "name") ;;
  if eq_str name "add_graph_memory" then
    args <- lift (getkey item "arguments") ;;
    ret (to_be_added ++ [args])%list
  else if eq_str name "update_graph_memory" then
    args <- lift (getkey item "arguments") ;;
    source <- lift (getkey args "source") ;;
    destination <- lift (getkey args "destination") ;;
    relationship <- lift (getkey args "relationship") ;;
    _update_relationship source destination relationship filters ;;;
    ret to_be_added
  else
    ret to_be_added.

(** [item[k].lower().replace(" ", "_")] *)
Definition norm_field (item : pyval) (k : string) : result string :=
  match getkey item k with
  | Err e => Err e
  | Ok v => py_normalize v
  end.

Definition merge_params (source destination source_embedding dest_embedding user_id : pyval)
  : params :=
  [("source_name", source); ("dest_name", destination);
   ("source_embedding", source_embedding); ("dest_embedding", dest_embedding);
   ("user_id", user_id)].

(** One iteration of [for item in to_be_added]. *)
Definition write_addition (filters : pyval) (returned_entities : list pyval) (item : pyval)
  : M (list pyval) :=
  source <- lift (norm_field item "source") ;;
  source_type <- lift (norm_field item "source_type") ;;
  relation <- lift (norm_field item "relationship") ;;
  destination <- lift (norm_field item "destination") ;;
  destination_type <- lift (norm_field item "destination_type") ;;
  let returned_entities :=
    (returned_entities ++ [triple (PStr source) (PStr relation) (PStr destination)])%list in
  source_embedding <- call_embed (PStr source) ;;
  dest_embedding <- call_embed (PStr destination) ;;
  user_id <- lift (getkey filters "user_id") ;;
  graph_query (MergeTriple source_type relation destination_type)
    (merge_params (PStr source) (PStr destination) source_embedding dest_embedding user_id) ;;;
  ret returned_entities.

(** The first loop of [add]. *)
Definition apply_decisions (filters : pyval) (items : list pyval) : M (list pyval) :=
  for_each items (apply_decision filters) [].

(** The second loop of [add]. *)
Definition write_additions (filters : pyval) (to_be_added : list pyval) : M (list pyval) :=
  for_each to_be_added (write_addition filters) [].

(** [add], up to the head of its first loop: retrieval, relation extraction,
    the reconciliation request, and the tool calls it answers with. *)
Definition decisions (data filters : pyval) : M (list pyval) :=
  out <- _search data filters default_limit ;;
  let search_output := fst out in
  let entity_type_map := snd out in
  extracted_relations <- _extract_relations data filters entity_type_map ;;
  memory_updates <- call_llm (UpdateMemory structured search_output extracted_relations) ;;
  calls <- lift (getkey memory_updates "tool_calls") ;;
  lift (py_iter calls).

Definition add (data filters : pyval) : M (list pyval) :=
  items <- decisions data filters ;;
  to_be_added <- apply_decisions filters items ;;
  returned_entities <- write_additions filters to_be_added ;;
  log (LogAdded (List.length to_be_added)) ;;;
  ret returned_entities.

End Methods.

(* ================================================================= *)
(** ** A reference graph store

    A property graph with the meaning of the Cypher statements the module
    sends, used to run the methods end to end.  It stands for the database
    behind the driver: statements referring to a parameter that the caller did
    not supply are rejected, as Cypher engines do.  Creation timestamps are
    left out. *)

Module RefStore.

Record node : Type := {
  n_id : nat;
  n_label : option string;
  n_name : pyval;
  n_user : pyval;
  n_embedding : pyval
}.

Record edge : Type := {
  e_id : nat;
  e_src : nat;
  e_type : string;
  e_dst : nat
}.

Record pgraph : Type := {
  g_nodes : list node;
  g_edges : list edge;
  g_next : nat
}.

Definition empty_graph : pgraph := {| g_nodes := []; g_edges := []; g_next := 0 |}.

(** A result row: named columns, in the order of the RETURN clause. *)
Definition row : Type := list (string * pyval).

(** Equality of property values in a pattern; [null] equals nothing. *)
Definition prop_eqb (a b : pyval) : bool :=
  match a, b with
  | PStr s, PStr t => String.eqb s t
  | PBool x, PBool y => Bool.eqb x y
  | PInt x, PInt y => (x =? y)%Z
  | PInt x, PFloat y => Qeq_bool (inject_Z x) y
  | PFloat x, PInt y => Qeq_bool x (inject_Z y)
  | PFloat x, PFloat y => Qeq_bool x y
  | _, _ => false
  end.

Definition is_null (v : pyval) : bool :=
  match v with
  | PNone => true
  | _ => false
  end.

Definition label_ok (lbl : option string) (n : node) : bool :=
  match lbl, n_label n with
  | None, _ => true
  | Some l, Some l' => String.eqb l l'
  | Some _, None => false
  end.

(** The nodes matched by [(x:lbl {name: name, user_id: user})]. *)
Definition node_matches (lbl : option string) (name user : pyval) (n : node) : bool :=
  label_ok lbl n && prop_eqb (n_name n) name && prop_eqb (n_user n) user.

Definition match_nodes (lbl : option string) (name user : pyval) (g : pgraph) : list node :=
  filter (node_matches lbl name user) (g_nodes g).

Definition owned_by (user : pyval) (n : node) : bool := prop_eqb (n_user n) user.

Definition set_embedding (emb : option pyval) (n : node) : node :=
  match emb with
  | None => n
  | Some e =>
      {| n_id := n_id n; n_label := n_label n; n_name := n_name n;
         n_user := n_user n; n_embedding := e |}
  end.

(** [MERGE (x:lbl {name: name, user_id: user}) ON CREATE SET x.embedding = emb
    ON MATCH SET x.embedding = emb]; without the SET clauses when [emb] is
    [None].  Returns the identifiers bound to [x]. *)
Definition merge_node (lbl : option string) (name user : pyval) (emb : option pyval)
           (g : pgraph) : pgraph * list nat :=
  match match_nodes lbl name user g with
  | [] =>
      let n := {| n_id := g_next g; n_label := lbl; n_name := name; n_user := user;
                  n_embedding := match emb with Some e => e | None => PNone end |} in
      ({| g_nodes := g_nodes g ++ [n]; g_edges := g_edges g; g_next := S (g_next g) |},
       [g_next g])
  | found =>
      ({| g_nodes := map (fun n => if node_matches lbl name user n
                                   then set_embedding emb n else n) (g_nodes g);
          g_edges := g_edges g; g_next := g_next g |},
       map n_id found)
  end.

Definition edge_between (src dst : nat) (e : edge) : bool :=
  (e_src e =? src)%nat && (e_dst e =? dst)%nat.

(** [MERGE (n)-[rel:r]->(m)] for one bound pair. *)
Definition merge_edge (r : string) (g : pgraph) (nm : nat * nat) : pgraph * list edge :=
  match filter (fun e => edge_between (fst nm) (snd nm) e && String.eqb (e_type e) r)
               (g_edges g) with
  | [] =>
      let e := {| e_id := g_next g; e_src := fst nm; e_type := r; e_dst := snd nm |} in
      ({| g_nodes := g_nodes g; g_edges := g_edges g ++ [e]; g_next := S (g_next g) |}, [e])
  | found => (g, found)
  end.

(** [CREATE (n1)-[r:r]->(n2)] for one bound pair. *)
Definition create_edge (r : string) (g : pgraph) (nm : nat * nat) : pgraph * list edge :=
  let e := {| e_id := g_next g; e_src := fst nm; e_type := r; e_dst := snd nm |} in
  ({| g_nodes := g_nodes g; g_edges := g_edges g ++ [e]; g_next := S (g_next g) |}, [e]).

Fixpoint over_pairs (f : pgraph -> nat * nat -> pgraph * list edge) (pairs : list (nat * nat))
         (g : pgraph) : pgraph * list edge :=
  match pairs with
  | [] => (g, [])
  | p :: rest =>
      let (g1, es) := f g p in
      let (g2, es') := over_pairs f rest g1 in
      (g2, es ++ es')%list
  end.

Definition find_node (id : nat) (g : pgraph) : option node :=
  find (fun n => (n_id n =? id)%nat) (g_nodes g).

Definition node_value (id : nat) (g : pgraph) : pyval :=
  match find_node id g with
  | Some n => PDict [("id", PInt (Z.of_nat id)); ("name", n_name n); ("user_id", n_user n)]
  | None => PNone
  end.

Definition edge_value (e : edge) : pyval :=
  PDict [("id", PInt (Z.of_nat (e_id e))); ("type", PStr (e_type e))].

Definition edge_row (a r b : string) (g : pgraph) (e : edge) : row :=
  [(a, node_value (e_src e) g); (r, edge_value e); (b, node_value (e_dst e) g)].

Definition name_of (id : nat) (g : pgraph) : pyval :=
  match find_node id g with
  | Some n => n_name n
  | None => PNone
  end.

Definition user_of (id : nat) (g : pgraph) : pyval :=
  match find_node id g with
  | Some n => n_user n
  | None => PNone
  end.

(** The edges matched by [(n {user_id: u})-[r]->(m {user_id: u})]. *)
Definition user_edges (user : pyval) (g : pgraph) : list edge :=
  filter (fun e => prop_eqb (user_of (e_src e) g) user && prop_eqb (user_of (e_dst e) g) user)
         (g_edges g).

Definition get_all_row (g : pgraph) (e : edge) : row :=
  [("source", name_of (e_src e) g); ("relationship", PStr (e_type e));
   ("target", name_of (e_dst e) g)].

(** [DETACH DELETE] of the nodes owned by [user]. *)
Definition detach_delete (user : pyval) (g : pgraph) : pgraph :=
  {| g_nodes := filter (fun n => negb (owned_by user n)) (g_nodes g);
     g_edges := filter (fun e => negb (prop_eqb (user_of (e_src e) g) user)
                                 && negb (prop_eqb (user_of (e_dst e) g) user))
                       (g_edges g);
     g_next := g_next g |}.

Definition in_ids (ids : list nat) (i : nat) : bool := existsb (Nat.eqb i) ids.

(** The [$name] placeholders of each statement. *)
Definition placeholders (q : cypher) : list string :=
  match q with
  | MergeTriple _ _ _ =>
      ["source_name"; "user_id"; "source_embedding"; "dest_name"; "dest_embedding"]
  | SimilarityFalkor | SimilarityNeo4j => ["n_embedding"; "threshold"; "user_id"; "limit"]
  | DeleteAll => ["user_id"]
  | GetAll => ["user_id"; "limit"]
  | CheckAndCreate | DeleteRel | CreateRel _ => ["source"; "target"; "user_id"]
  end.

Definition bound (ps : params) (k : string) : bool :=
  match assoc k ps with
  | Some _ => true
  | None => false
  end.

Definition missing_parameters : exn := ExternalError "graph" "Missing parameters".
Definition null_merge : exn :=
  ExternalError "graph" "Cannot merge node using null property value".
Definition bad_limit : exn := ExternalError "graph" "LIMIT must be a non-negative integer".

Definition arg (ps : params) (k : string) : pyval :=
  match assoc k ps with
  | Some v => v
  | None => PNone
  end.

Section Exec.

(** The rows of the two similarity templates, whose text and floating-point
    scoring are outside the module. *)
Variable similarity_rows : pgraph -> params -> list row.

Definition exec_bound (q : cypher) (ps : params) (g : pgraph) : result (list row) * pgraph :=
  match q with
  | MergeTriple st rel dt =>
      let user := arg ps "user_id" in
      if is_null (arg ps "source_name") || is_null (arg ps "dest_name") || is_null user
      then (Err null_merge, g)
      else
        let (g1, ns) := merge_node (Some st) (arg ps "source_name") user
                                   (Some (arg ps "source_embedding")) g in
        let (g2, ms) := merge_node (Some dt) (arg ps "dest_name") user
                                   (Some (arg ps "dest_embedding")) g1 in
        let (g3, es) := over_pairs (merge_edge rel) (list_prod ns ms) g2 in
        (Ok (map (edge_row "n" "rel" "m" g3) es), g3)
  | SimilarityFalkor | SimilarityNeo4j => (Ok (similarity_rows g ps), g)
  | DeleteAll => (Ok [], detach_delete (arg ps "user_id") g)
  | GetAll =>
      match arg ps "limit" with
      | PInt z =>
          if (z <? 0)%Z then (Err bad_limit, g)
          else (Ok (firstn (Z.to_nat z)
                           (map (get_all_row g) (user_edges (arg ps "user_id") g))), g)
      | _ => (Err bad_limit, g)
      end
  | CheckAndCreate =>
      let user := arg ps "user_id" in
      if is_null (arg ps "source") || is_null (arg ps "target") || is_null user
      then (Err null_merge, g)
      else
        let (g1, _) := merge_node None (arg ps "source") user None g in
        let (g2, _) := merge_node None (arg ps "target") user None g1 in
        (Ok [], g2)
  | DeleteRel =>
      let user := arg ps "user_id" in
      let n1 := map n_id (match_nodes None (arg ps "source") user g) in
      let n2 := map n_id (match_nodes None (arg ps "target") user g) in
      (Ok [],
       {| g_nodes := g_nodes g;
          g_edges := filter (fun e => negb (in_ids n1 (e_src e) && in_ids n2 (e_dst e)))
                            (g_edges g);
          g_next := g_next g |})
  | CreateRel rel =>
      let user := arg ps "user_id" in
      let n1 := map n_id (match_nodes None (arg ps "source") user g) in
      let n2 := map n_id (match_nodes None (arg ps "target") user g) in
      let (g1, es) := over_pairs (create_edge rel) (list_prod n1 n2) g in
      (Ok (map (edge_row "n1" "r" "n2" g1) es), g1)
  end.

(** A statement runs only when every placeholder it mentions is bound. *)
Definition exec (q : cypher) (ps : params) (g : pgraph) : result (list row) * pgraph :=
  if forallb (bound ps) (placeholders q) then exec_bound q ps g
  else (Err missing_parameters, g).

Definition map_rows (f : row -> pyval) (r : result (list row)) : result (list pyval) :=
  match r with
  | Ok rows => Ok (map f rows)
  | Err e => Err e
  end.

(** A single-graph store whose driver returns records (name to value). *)
Definition neo4j : Driver := {|
  store := pgraph;
  run_query := fun q ps g => let (r, g') := exec q ps g in (map_rows PDict r, g');
  select_graph := fun _ g => (Err AttributeError, g)
|}.

(** A multi-graph store: one graph per name, one of them selected; rows come
    back as plain lists of values. *)
Record multi : Type := {
  graphs : list (string * pgraph);
  selected : string
}.

Definition graph_named (name : string) (m : multi) : pgraph :=
  match assoc name (graphs m) with
  | Some g => g
  | None => empty_graph
  end.

Fixpoint put_graph (name : string) (g : pgraph) (gs : list (string * pgraph))
  : list (string * pgraph) :=
  match gs with
  | [] => [(name, g)]
  | (k, g') :: rest =>
      if String.eqb name k then (k, g) :: rest else (k, g') :: put_graph name g rest
  end.

Definition falkordb : Driver := {|
  store := multi;
  run_query := fun q ps m =>
    let (r, g') := exec q ps (graph_named (selected m) m) in
    (map_rows (fun fields => PList (map snd fields)) r,
     {| graphs := put_graph (selected m) g' (graphs m); selected := selected m |});
  select_graph := fun name m =>
    match name with
    | PStr s => (Ok tt, {| graphs := graphs m; selected := s |})
    | _ => (Err (ExternalError "graph" "invalid graph name"), m)
    end
|}.

End Exec.

End RefStore.

(* ================================================================= *)
(** ** Test doubles and sample data *)

Module Sample.

(** A driver that journals every statement it is given and returns no rows. *)
Definition journal : Driver := {|
  store := list (cypher * params);
  run_query := fun q ps st => (Ok [], st ++ [(q, ps)])%list;
  select_graph := fun _ st => (Ok tt, st)
|}.

Definition is_create (q : cypher) : bool :=
  match q with
  | CreateRel _ => true
  | _ => false
  end.

(** A journalling driver whose first edge creation returns a record and whose
    later ones return no row. *)
Definition flaky : Driver := {|
  store := list (cypher * params);
  run_query := fun q ps st =>
    (if is_create q && negb (existsb is_create (map fst st))
     then Ok [PDict [("n1", PNone); ("r", PNone); ("n2", PNone)]]
     else Ok [],
     st ++ [(q, ps)])%list;
  select_graph := fun _ st => (Ok tt, st)
|}.

(** A driver that answers every statement with the same rows. *)
Definition canned (rows : list pyval) : Driver := {|
  store := unit;
  run_query := fun _ _ st => (Ok rows, st);
  select_graph := fun _ st => (Ok tt, st)
|}.

(** A reranker that keeps the corpus order. *)
Definition in_order : Reranker := {|
  bm25_index := list (list pyval);
  BM25Okapi := fun corpus => Ok corpus;
  ranking := fun corpus _ => Ok (seq 0 (List.length corpus))
|}.

Definition embed_const (_ : pyval) : result pyval := Ok (PList [PFloat 1%Q; PFloat 0%Q]).

Definition tool_call (name : string) (args : pyval) : pyval :=
  PDict [("name", PStr name); ("arguments", args)].

Definition response (calls : list pyval) : pyval := PDict [("tool_calls", PList calls)].

Definition entity (name type : string) : pyval :=
  PDict [("entity", PStr name); ("entity_type", PStr type)].

Definition relation (source source_type relationship destination destination_type : string)
  : pyval :=
  PDict [("source", PStr source); ("source_type", PStr source_type);
         ("relationship", PStr relationship);
         ("destination", PStr destination); ("destination_type", PStr destination_type)].

(** An LLM client answering each kind of request with a fixed response. *)
Definition scripted (entities relations updates : pyval) (req : llm_request) : result pyval :=
  match req with
  | ExtractEntities _ _ _ => Ok entities
  | ExtractRelationsCustom _ _ _ _ | ExtractRelationsPlain _ _ _ _ => Ok relations
  | UpdateMemory _ _ _ => Ok updates
  end.

Definition config (provider_name : string) : MemoryGraph := {|
  provider := provider_name;
  custom_prompt := PNone;
  llm_provider := init_llm_provider None None;
  threshold := init_threshold
|}.

Definition u1 : pyval := PDict [("user_id", PStr "u1")].

Definition start (D : Driver) (st : store D) : world D := {| w_store := st; w_trace := [] |}.

Definition after (D : Driver) (st : store D) (tr : list event) : world D :=
  {| w_store := st; w_trace := tr |}.

Definition no_similar (_ : RefStore.pgraph) (_ : params) : list RefStore.row := [].

(** Two entities, the second entry lacking its type. *)
Definition entities_broken : pyval :=
  response [tool_call "extract_entities"
              (PDict [("entities", PList [entity "Alice" "person";
                                          PDict [("entity", PStr "Bob")];
                                          entity "Carol" "person"])])].

Definition entities_alice_acme : pyval :=
  response [tool_call "extract_entities"
              (PDict [("entities", PList [entity "u1" "person"; entity "Acme" "organization"])])].

(** The same entity named twice, with two types. *)
Definition entities_duplicate : pyval :=
  response [tool_call "extract_entities"
              (PDict [("entities", PList [entity "u1" "person"; entity "Acme" "organization";
                                          entity "u1" "user"])])].

Definition no_relations : pyval := response [].

(** One addition, one update, one no-op, in this order. *)
Definition mixed_updates : pyval :=
  response [tool_call "add_graph_memory" (relation "u1" "Person" "Works At" "Acme Corp" "Organization");
            tool_call "update_graph_memory"
              (PDict [("source", PStr "Alice Smith"); ("destination", PStr "New York");
                      ("relationship", PStr "Lives In")]);
            tool_call "noop" (PDict []);
            tool_call "add_graph_memory" (relation "Bob" "person" "knows" "u1" "person")].

Definition update_bob : pyval :=
  tool_call "update_graph_memory"
    (PDict [("source", PStr "Bob Jones"); ("destination", PStr "Paris");
            ("relationship", PStr "Lives In")]).

Definition decisions_before_bob : list pyval :=
  [tool_call "add_graph_memory" (relation "u1" "Person" "Works At" "Acme Corp" "Organization");
   tool_call "update_graph_memory"
     (PDict [("source", PStr "Alice Smith"); ("destination", PStr "New York");
             ("relationship", PStr "Lives In")]);
   tool_call "noop" (PDict [])].

(** An addition, an update, a no-op, then a second update. *)
Definition two_updates : pyval := response (decisions_before_bob ++ [update_bob]).

Definition one_addition : pyval :=
  response [tool_call "add_graph_memory" (relation "u1" "Person" "Works At" "Acme Corp" "Organization")].

(** Four candidate rows in the layout [search] indexes (columns 0, 2 and 4). *)
Definition four_rows : list pyval :=
  map (fun name => PList [PStr "u1"; PInt 0; PStr "knows"; PInt 1; PStr name; PInt 2])
      ["alice"; "bob"; "carol"; "dave"].

(** Three rows in the layout of [get_all]'s RETURN clause. *)
Definition three_rows : list pyval :=
  map (fun name => PList [PStr "alice"; PStr "knows"; PStr name]) ["bob"; "carol"; "dave"].

(** A graph of user [u1] with two edges, and a node of another user. *)
Definition two_edges : RefStore.pgraph :=
  let n (i : nat) (name user : string) :=
    {| RefStore.n_id := i; RefStore.n_label := Some "person";
       RefStore.n_name := PStr name; RefStore.n_user := PStr user;
       RefStore.n_embedding := PNone |} in
  {| RefStore.g_nodes := [n 0%nat "alice" "u1"; n 1%nat "bob" "u1"; n 2%nat "carol" "u1";
                          n 3%nat "dave" "u2"];
     RefStore.g_edges :=
       [{| RefStore.e_id := 4; RefStore.e_src := 0; RefStore.e_type := "knows";
           RefStore.e_dst := 1 |};
        {| RefStore.e_id := 5; RefStore.e_src := 0; RefStore.e_type := "likes";
           RefStore.e_dst := 2 |};
        {| RefStore.e_id := 6; RefStore.e_src := 3; RefStore.e_type := "knows";
           RefStore.e_dst := 0 |}];
     RefStore.g_next := 7 |}.

(** A well-formed addition followed by one without destination. *)
Definition good_then_bad : pyval :=
  response [tool_call "add_graph_memory" (relation "u1" "Person" "Works At" "Acme Corp" "Organization");
            tool_call "add_graph_memory"
              (PDict [("source", PStr "Bob"); ("source_type", PStr "person");
                      ("relationship", PStr "knows")])].

(** A multi-graph store holding the graphs of two users. *)
Definition two_tenants : RefStore.multi :=
  {| RefStore.graphs := [("u1", two_edges); ("u2", two_edges)];
     RefStore.selected := "u2" |}.

(** Decisions with a no-op and an unknown tag among them. *)
Definition decisions_with_noise : list pyval :=
  [tool_call "noop" (PDict []);
   tool_call "add_graph_memory" (relation "u1" "Person" "Works At" "Acme Corp" "Organization");
   PDict [("name", PStr "delete_graph_memory")];
   tool_call "update_graph_memory"
     (PDict [("source", PStr "Alice Smith"); ("destination", PStr "New York");
             ("relationship", PStr "Lives In")])].

End Sample.

(* ================================================================= *)
(** ** Vocabulary for the properties *)

(** [emits P c]: whatever [c] does, the calls it adds to the trace all
    satisfy [P], and it leaves the earlier trace alone. *)
Definition emits {D : Driver} {A : Type} (P : event -> Prop) (c : M D A) : Prop :=
  forall w r w', c w = (r, w') ->
  exists tr, w_trace w' = (w_trace w ++ tr)%list /\ Forall P tr.

(** The graph statements among a list of calls, in order. *)
Definition queries_of (tr : list event) : list (cypher * params) :=
  flat_map (fun ev => match ev with EvQuery q ps => [(q, ps)] | _ => [] end) tr.

Definition is_graph_call (ev : event) : bool :=
  match ev with
  | EvQuery _ _ | EvSelect _ => true
  | _ => false
  end.

Definition is_rerank_call (ev : event) : bool :=
  match ev with
  | EvIndex _ | EvRank _ => true
  | _ => false
  end.

(** The calls of [_search]: LLM, log, embedder and graph store. *)
Definition search_call (ev : event) : Prop :=
  match ev with
  | EvIndex _ | EvRank _ => False
  | _ => True
  end.

(** A reconciliation decision tagged [add_graph_memory]. *)
Definition is_addition (item : pyval) : bool :=
  match getkey item "name" with
  | Ok name => eq_str name "add_graph_memory"
  | Err _ => false
  end.

(** The triple [add] returns for the arguments of one addition. *)
Definition added_triple (args : pyval) : result pyval :=
  match norm_field args "source" with
  | Err e => Err e
  | Ok source =>
      match norm_field args "relationship" with
      | Err e => Err e
      | Ok relation =>
          match norm_field args "destination" with
          | Err e => Err e
          | Ok destination => Ok (triple (PStr source) (PStr relation) (PStr destination))
          end
      end
  end.

Definition is_merge (q : cypher) : bool :=
  match q with
  | MergeTriple _ _ _ => true
  | _ => false
  end.

Definition normalized_param (ps : params) (k : string) : bool :=
  match assoc k ps with
  | Some (PStr s) => is_normalized s
  | _ => false
  end.

(** A statement of the addition path writes normalised labels and names. *)
Definition statement_normalized (qp : cypher * params) : bool :=
  match fst qp with
  | MergeTriple source_type relation destination_type =>
      is_normalized source_type && is_normalized relation && is_normalized destination_type
      && normalized_param (snd qp) "source_name" && normalized_param (snd qp) "dest_name"
  | _ => true
  end.

Definition param_or_none (ps : params) (k : string) : pyval :=
  match assoc k ps with
  | Some v => v
  | None => PNone
  end.

(** The triple a statement of the addition path writes. *)
Definition triple_written (qp : cypher * params) : list pyval :=
  match fst qp with
  | MergeTriple _ relation _ =>
      [triple (param_or_none (snd qp) "source_name") (PStr relation)
              (param_or_none (snd qp) "dest_name")]
  | _ => []
  end.

(** Calls other than a statement of the addition path. *)
Definition not_merge (ev : event) : Prop :=
  match ev with
  | EvQuery (MergeTriple _ _ _) _ => False
  | _ => True
  end.

(** The world [w] after the calls [tr], the store being [st]. *)
Definition extend {D : Driver} (w : world D) (st : store D) (tr : list event) : world D :=
  {| w_store := st; w_trace := w_trace w ++ tr |}.

(** All entries recorded, or the first failure. *)
Fixpoint record_all (items : list pyval) (m : pydict) : result pydict :=
  match items with
  | [] => Ok m
  | item :: rest =>
      match record_entity m item with
      | Err e => Err e
      | Ok m' => record_all rest m'
      end
  end.

(** The requests made to the LLM client among a list of calls, in order. *)
Definition llm_requests_of (tr : list event) : list llm_request :=
  flat_map (fun ev => match ev with EvLLM req => [req] | _ => [] end) tr.

Definition not_llm (ev : event) : Prop :=
  match ev with
  | EvLLM _ => False
  | _ => True
  end.

(** A call that is a statement of the addition path, or no statement at all. *)
Definition merge_or_no_statement (ev : event) : Prop :=
  match ev with
  | EvQuery q _ => is_merge q = true
  | _ => True
  end.

(** The parameter dictionary built in the retrieval loop of [_search]. *)
Definition similarity_params (self : MemoryGraph) (n_embedding user_id limit : pyval) : params :=
  [("n_embedding", n_embedding); ("threshold", threshold self);
   ("user_id", user_id); ("limit", limit)].

(** A statement as [_search] sends it for the user [user_id] and [limit]. *)
Definition similarity_statement (self : MemoryGraph) (user_id limit : pyval)
           (qp : cypher * params) : Prop :=
  similarity_query self = Ok (fst qp)
  /\ exists e, snd qp = similarity_params self e user_id limit.

(** The request [_extract_relations] makes. *)
Definition relations_request (self : MemoryGraph) (user_id : string)
           (entity_type_map : pydict) (data : pyval) : llm_request :=
  if truthy (custom_prompt self)
  then ExtractRelationsCustom (structured self) user_id (custom_prompt self) data
  else ExtractRelationsPlain (structured self) user_id (dict_keys entity_type_map) data.

(** No key of the dictionary equals an earlier one. *)
Fixpoint keys_distinct (d : pydict) : bool :=
  match d with
  | [] => true
  | (k, _) :: r => forallb (fun kv => negb (key_eqb (fst kv) k)) r && keys_distinct r
  end.

(** [keeps Rel c]: the store [c] leaves is related by [Rel] to the one it found. *)
Definition keeps {D : Driver} {A : Type} (Rel : store D -> store D -> Prop) (c : M D A) : Prop :=
  forall w r w', c w = (r, w') -> Rel (w_store w) (w_store w').

(** In the multi-graph reference store: every graph but the one named [u] is
    the same in both stores. *)
Definition same_elsewhere (u : string) (st st' : RefStore.multi) : Prop :=
  forall name, name <> u -> RefStore.graph_named name st' = RefStore.graph_named name st.

(** The embedding parameters of a statement of the addition path are what the
    embedder returns for the names the statement carries. *)
Definition embeddings_match (embed : pyval -> result pyval) (qp : cypher * params) : Prop :=
  match fst qp with
  | MergeTriple _ _ _ =>
      embed (param_or_none (snd qp) "source_name")
      = Ok (param_or_none (snd qp) "source_embedding")
      /\ embed (param_or_none (snd qp) "dest_name")
         = Ok (param_or_none (snd qp) "dest_embedding")
  | _ => True
  end.

(** A decision whose tag is read and is neither [add_graph_memory] nor
    [update_graph_memory]: [noop], or any other name. *)
Definition is_ignored (item : pyval) : bool :=
  match getkey item "name" with
  | Ok name => negb (eq_str name "add_graph_memory") && negb (eq_str name "update_graph_memory")
  | Err _ => false
  end.

(* ================================================================= *)
(** * Properties *)

(* ----------------------------------------------------------------- *)
(** ** Normalisation of strings *)

(** *** Bytes and code points *)

Lemma decode_utf8_cons (b0 : N) (r0 : list N) :
  decode_utf8 (b0 :: r0) =
  if (b0 <? 128)%N then b0 :: decode_utf8 r0
  else
    match r0 with
    | [] => [replacement]
    | b1 :: r1 =>
        if lead2 b0 && is_continuation b1 then cp2 b0 b1 :: decode_utf8 r1
        else
          match r1 with
          | [] => replacement :: decode_utf8 r0
          | b2 :: r2 =>
              if lead3 b0 && is_continuation b1 && is_continuation b2
              then cp3 b0 b1 b2 :: decode_utf8 r2
              else
                match r2 with
                | [] => replacement :: decode_utf8 r0
                | b3 :: r3 =>
                    if lead4 b0 && is_continuation b1 && is_continuation b2
                       && is_continuation b3 && (cp4 b0 b1 b2 b3 <? 1114112)%N
                    then cp4 b0 b1 b2 b3 :: decode_utf8 r3
                    else replacement :: decode_utf8 r0
                end
          end
    end.
Proof. reflexivity. Qed.

Ltac bools :=
  repeat match goal with
         | H : _ && _ = true |- _ => apply andb_prop in H; destruct H
         | H : (_ <? _)%N = true |- _ => apply N.ltb_lt in H
         | H : (_ <? _)%N = false |- _ => apply N.ltb_ge in H
         | H : (_ <=? _)%N = true |- _ => apply N.leb_le in H
         | H : (_ <=? _)%N = false |- _ => apply N.leb_gt in H
         | H : (_ =? _)%N = true |- _ => apply N.eqb_eq in H
         | H : (_ =? _)%N = false |- _ => apply N.eqb_neq in H
         end.

(** Quotient and remainder by a power of two, as linear facts. *)
Ltac divmod c d :=
  let q := fresh "q" in
  let r := fresh "r" in
  pose proof (N.div_mod c d ltac:(discriminate));
  pose proof (N.mod_upper_bound c d ltac:(discriminate));
  set (q := (c / d)%N) in *; set (r := (c mod d)%N) in *;
  clearbody q r.

(** Every decoded code point is a code point of Unicode. *)
Lemma decode_utf8_in_unicode (l : list N) : forallb in_unicode (decode_utf8 l) = true.
Proof.
  assert (G : forall n l, (List.length l <= n)%nat -> forallb in_unicode (decode_utf8 l) = true).
  { induction n as [|n IH]; intros [|b0 r0] Hl; try reflexivity; simpl in Hl; [lia|].
    assert (H0 : forallb in_unicode (decode_utf8 r0) = true) by (apply IH; lia).
    rewrite decode_utf8_cons.
    destruct (b0 <? 128)%N eqn:E0.
    { cbn [forallb]. rewrite H0, andb_true_r. unfold in_unicode. bools. apply N.ltb_lt. lia. }
    destruct r0 as [|b1 r1]; [reflexivity|].
    destruct (lead2 b0 && is_continuation b1) eqn:E1.
    { cbn [forallb]. rewrite IH by (simpl in Hl; lia). rewrite andb_true_r.
      unfold lead2, is_continuation in E1. bools.
      unfold in_unicode, cp2. apply N.ltb_lt. lia. }
    destruct r1 as [|b2 r2]; [cbn [forallb]; rewrite H0; reflexivity|].
    destruct (lead3 b0 && is_continuation b1 && is_continuation b2) eqn:E2.
    { cbn [forallb]. rewrite IH by (simpl in Hl; lia). rewrite andb_true_r.
      unfold lead3, is_continuation in E2. bools.
      unfold in_unicode, cp3. apply N.ltb_lt. lia. }
    destruct r2 as [|b3 r3]; [cbn [forallb]; rewrite H0; reflexivity|].
    destruct (lead4 b0 && is_continuation b1 && is_continuation b2
              && is_continuation b3 && (cp4 b0 b1 b2 b3 <? 1114112)%N) eqn:E3.
    { cbn [forallb]. rewrite IH by (simpl in Hl; lia). rewrite andb_true_r.
      apply andb_prop in E3. destruct E3 as [_ E3]. exact E3. }
    cbn [forallb]. rewrite H0. reflexivity. }
  apply (G (List.length l)). lia.
Qed.

(** Decoding undoes encoding. *)
Lemma decode_encode (c : N) (rest : list N) :
  in_unicode c = true ->
  decode_utf8 (encode_codepoint c ++ rest) = c :: decode_utf8 rest.
Proof.
  unfold in_unicode, encode_codepoint. intros Hc.
  destruct (c <? 128)%N eqn:E0.
  { cbn [app]. rewrite decode_utf8_cons, E0. reflexivity. }
  destruct (c <? 2048)%N eqn:E1.
  { cbn [app]. rewrite decode_utf8_cons. bools. divmod c 64%N.
    assert (T0 : (192 + q <? 128)%N = false) by (apply N.ltb_ge; lia).
    assert (T1 : lead2 (192 + q) && is_continuation (128 + r) = true)
      by (unfold lead2, is_continuation;
          rewrite !andb_true_iff, !N.leb_le, !N.ltb_lt; lia).
    rewrite T0. cbv beta iota. rewrite T1. cbv beta iota. f_equal. unfold cp2. lia. }
  destruct (c <? 65536)%N eqn:E2.
  { cbn [app]. rewrite decode_utf8_cons. bools.
    divmod c 64%N. divmod q 64%N.
    replace (c / 4096)%N with q0
      by (apply N.div_unique with (r := (r0 * 64 + r)%N); lia).
    assert (T0 : (224 + q0 <? 128)%N = false) by (apply N.ltb_ge; lia).
    assert (T1 : lead2 (224 + q0) = false)
      by (unfold lead2; apply andb_false_iff; right; apply N.ltb_ge; lia).
    assert (T2 : lead3 (224 + q0) && is_continuation (128 + r0) && is_continuation (128 + r)
                 = true)
      by (unfold lead3, is_continuation;
          rewrite !andb_true_iff, !N.leb_le, !N.ltb_lt; lia).
    rewrite T0. cbv beta iota. rewrite T1, andb_false_l. cbv beta iota.
    rewrite T2. cbv beta iota. f_equal. unfold cp3. lia. }
  rewrite Hc. cbn [app]. rewrite decode_utf8_cons. bools.
  divmod c 64%N. divmod q 64%N.
  replace (c / 4096)%N with q0
    by (apply N.div_unique with (r := (r0 * 64 + r)%N); lia).
  divmod q0 64%N.
  replace (c / 262144)%N with q1
    by (apply N.div_unique with (r := (r1 * 4096 + r0 * 64 + r)%N); lia).
  assert (T0 : (240 + q1 <? 128)%N = false) by (apply N.ltb_ge; lia).
  assert (T1 : lead2 (240 + q1) = false)
    by (unfold lead2; apply andb_false_iff; right; apply N.ltb_ge; lia).
  assert (T2 : lead3 (240 + q1) = false)
    by (unfold lead3; apply andb_false_iff; right; apply N.ltb_ge; lia).
  assert (Hcp : cp4 (240 + q1) (128 + r1) (128 + r0) (128 + r) = c) by (unfold cp4; lia).
  assert (T3 : lead4 (240 + q1) && is_continuation (128 + r1) && is_continuation (128 + r0)
               && is_continuation (128 + r) && (c <? 1114112)%N = true)
    by (unfold lead4, is_continuation;
        rewrite !andb_true_iff, !N.leb_le, !N.ltb_lt; lia).
  rewrite T0. cbv beta iota. rewrite T1, andb_false_l. cbv beta iota.
  rewrite T2, !andb_false_l. cbv beta iota. rewrite Hcp, T3. reflexivity.
Qed.

(** The bytes of an encoding are bytes, and none of them is an ASCII
    character unless the code point is that character. *)
Lemma encode_codepoint_bytes (c : N) :
  Forall (fun b => (b < 256)%N /\ ((b < 128)%N -> encode_codepoint c = [b]))
         (encode_codepoint c).
Proof.
  unfold encode_codepoint.
  destruct (c <? 128)%N eqn:E0.
  { bools. repeat constructor. lia. }
  destruct (c <? 2048)%N eqn:E1.
  { bools. divmod c 64%N. repeat constructor; lia. }
  destruct (c <? 65536)%N eqn:E2.
  { bools. divmod c 64%N. divmod q 64%N.
    replace (c / 4096)%N with q0
      by (apply N.div_unique with (r := (r0 * 64 + r)%N); lia).
    repeat constructor; lia. }
  destruct (c <? 1114112)%N eqn:E3.
  { bools. divmod c 64%N. divmod q 64%N.
    replace (c / 4096)%N with q0
      by (apply N.div_unique with (r := (r0 * 64 + r)%N); lia).
    divmod q0 64%N.
    replace (c / 262144)%N with q1
      by (apply N.div_unique with (r := (r1 * 4096 + r0 * 64 + r)%N); lia).
    repeat constructor; lia. }
  repeat constructor; lia.
Qed.

Lemma bytes_of_bytes (l : list N) :
  Forall (fun b => (b < 256)%N) l -> bytes (of_bytes l) = l.
Proof.
  induction 1 as [|b l Hb _ IH]; simpl; [reflexivity|].
  rewrite IH, N_ascii_embedding by exact Hb. reflexivity.
Qed.

Lemma of_bytes_bytes (s : string) : of_bytes (bytes s) = s.
Proof.
  induction s as [|c s IH]; simpl; [reflexivity|].
  rewrite IH, ascii_N_embedding. reflexivity.
Qed.

Lemma encoding_bytes (l : list N) :
  Forall (fun b => (b < 256)%N) (flat_map encode_codepoint l).
Proof.
  induction l as [|c l IH]; simpl; [constructor|].
  apply Forall_app. split; [|exact IH].
  eapply Forall_impl; [|apply encode_codepoint_bytes]. simpl. tauto.
Qed.

Lemma decode_encoding (l : list N) :
  forallb in_unicode l = true -> decode_utf8 (flat_map encode_codepoint l) = l.
Proof.
  induction l as [|c l IH]; simpl; [reflexivity|].
  intros H. apply andb_prop in H. destruct H as [Hc Hl].
  rewrite decode_encode by exact Hc. rewrite IH by exact Hl. reflexivity.
Qed.

(** A text of code points of Unicode has those code points. *)
Lemma codepoints_text (l : list N) :
  forallb in_unicode l = true -> codepoints (text l) = l.
Proof.
  intros H. unfold codepoints, text.
  rewrite bytes_of_bytes by apply encoding_bytes.
  apply decode_encoding, H.
Qed.

(** *** Replacing spaces, on code points *)

Lemma is_space_byte (b : N) : (b < 256)%N -> is_space (ascii_of_N b) = (b =? 32)%N.
Proof.
  intros Hb. unfold is_space, space.
  destruct (N.eqb_spec b 32) as [->|Hne]; [reflexivity|].
  apply Ascii.eqb_neq. intros H. apply Hne.
  apply (f_equal N_of_ascii) in H. rewrite N_ascii_embedding in H by exact Hb.
  exact H.
Qed.

Lemma str_map_of_bytes (l1 l2 : list N) (f : ascii -> ascii) :
  str_map f (of_bytes (l1 ++ l2)) = (str_map f (of_bytes l1) ++ str_map f (of_bytes l2))%string.
Proof.
  induction l1 as [|b l1 IH]; simpl; [reflexivity|]. rewrite IH. reflexivity.
Qed.

Lemma of_bytes_app (l1 l2 : list N) :
  of_bytes (l1 ++ l2) = (of_bytes l1 ++ of_bytes l2)%string.
Proof.
  induction l1 as [|b l1 IH]; simpl; [reflexivity|]. rewrite IH. reflexivity.
Qed.

Lemma replace_space_bytes (l : list N) :
  Forall (fun b => (b < 256)%N /\ (b <> 32)%N) l ->
  replace_space (of_bytes l) = of_bytes l.
Proof.
  unfold replace_space.
  induction 1 as [|b l [Hb Hne] _ IH]; simpl; [reflexivity|].
  rewrite IH, is_space_byte by exact Hb.
  apply N.eqb_neq in Hne. rewrite Hne. reflexivity.
Qed.

Lemma replace_space_encoding (c : N) :
  replace_space (of_bytes (encode_codepoint c))
  = of_bytes (encode_codepoint (replace_space_codepoint c)).
Proof.
  unfold replace_space_codepoint.
  destruct (N.eqb_spec c 32) as [->|Hne]; [reflexivity|].
  apply replace_space_bytes.
  eapply Forall_impl; [|apply encode_codepoint_bytes].
  simpl. intros b [Hb Hone]. split; [exact Hb|].
  intros ->. apply Hne.
  assert (H : encode_codepoint c = [32%N]) by (apply Hone; lia).
  unfold encode_codepoint in H.
  destruct (c <? 128)%N; [congruence|].
  destruct (c <? 2048)%N; [discriminate|].
  destruct (c <? 65536)%N; [discriminate|].
  destruct (c <? 1114112)%N; discriminate.
Qed.

(** Replacing spaces in a text replaces the code point U+0020 by U+005F. *)
Lemma replace_space_text (l : list N) :
  replace_space (text l) = text (map replace_space_codepoint l).
Proof.
  unfold text.
  induction l as [|c l IH]; simpl; [reflexivity|].
  rewrite !of_bytes_app. unfold replace_space in *.
  rewrite <- IH, <- replace_space_encoding.
  rewrite <- !of_bytes_app. apply str_map_of_bytes.
Qed.

Lemma replace_space_no_space (s : string) :
  str_forall (fun c => negb (is_space c)) (replace_space s) = true.
Proof.
  unfold replace_space.
  induction s as [|c s IH]; simpl; [reflexivity|].
  rewrite IH, andb_true_r.
  destruct (is_space c) eqn:E; [reflexivity|]. rewrite E. reflexivity.
Qed.

Lemma replace_space_fixed (s : string) :
  str_forall (fun c => negb (is_space c)) s = true -> replace_space s = s.
Proof.
  unfold replace_space.
  induction s as [|c s IH]; simpl; [reflexivity|].
  intros H. apply andb_prop in H. destruct H as [Hc Hs].
  rewrite IH by exact Hs.
  destruct (is_space c); [discriminate|reflexivity].
Qed.

(** *** Lowercasing *)

Lemma lower_table_stable :
  forallb (fun kv => forallb is_stable (snd kv)) lower_table = true.
Proof. vm_compute. reflexivity. Qed.

Lemma lookup_in (c : N) (t : list (N * list N)) (l : list N) :
  lookup c t = Some l -> In (c, l) t.
Proof.
  induction t as [|[k v] t IH]; simpl; [discriminate|].
  destruct (N.eqb_spec c k) as [->|_].
  - intros H. inversion H. left. reflexivity.
  - intros H. right. apply IH, H.
Qed.

Lemma to_lower_full_stable (c : N) :
  in_unicode c = true -> c <> capital_sigma ->
  forallb is_stable (to_lower_full c) = true.
Proof.
  intros Hc Hs. unfold to_lower_full.
  destruct (lookup c lower_table) as [l|] eqn:E.
  - apply lookup_in in E.
    pose proof lower_table_stable as H.
    rewrite forallb_forall in H. apply (H (c, l) E).
  - simpl. unfold is_stable. rewrite Hc, E.
    apply N.eqb_neq in Hs. rewrite Hs. reflexivity.
Qed.

(** What [str.lower] produces is stable. *)
Lemma lower_from_stable (l before_rev : list N) :
  forallb in_unicode l = true ->
  forallb is_stable (lower_from before_rev l) = true.
Proof.
  revert before_rev.
  induction l as [|c l IH]; intros before_rev H; simpl; [reflexivity|].
  simpl in H. apply andb_prop in H. destruct H as [Hc Hl].
  rewrite forallb_app, IH by exact Hl. rewrite andb_true_r.
  destruct (N.eqb_spec c capital_sigma) as [_|Hne].
  - destruct (final_sigma before_rev l); reflexivity.
  - apply to_lower_full_stable; assumption.
Qed.

(** Stable code points are left alone. *)
Lemma lower_from_fixed (l before_rev : list N) :
  forallb is_stable l = true -> lower_from before_rev l = l.
Proof.
  revert before_rev.
  induction l as [|c l IH]; intros before_rev H; simpl; [reflexivity|].
  simpl in H. apply andb_prop in H. destruct H as [Hc Hl].
  rewrite IH by exact Hl.
  unfold is_stable in Hc. apply andb_prop in Hc. destruct Hc as [Hc Hlk].
  apply andb_prop in Hc. destruct Hc as [_ Hs].
  apply negb_true_iff in Hs. rewrite Hs.
  unfold to_lower_full. destruct (lookup c lower_table); [discriminate|reflexivity].
Qed.

Lemma is_stable_in_unicode (l : list N) :
  forallb is_stable l = true -> forallb in_unicode l = true.
Proof.
  rewrite !forallb_forall. intros H c Hc. specialize (H c Hc).
  unfold is_stable in H. apply andb_prop in H. destruct H as [H _].
  apply andb_prop in H. tauto.
Qed.

Lemma replace_space_stable (l : list N) :
  forallb is_stable l = true -> forallb is_stable (map replace_space_codepoint l) = true.
Proof.
  induction l as [|c l IH]; simpl; [reflexivity|].
  intros H. apply andb_prop in H. destruct H as [Hc Hl].
  rewrite IH by exact Hl. rewrite andb_true_r.
  unfold replace_space_codepoint. destruct (c =? 32)%N; [vm_compute; reflexivity|exact Hc].
Qed.

(** A text of stable code points is lowercase. *)
Lemma stable_text_lowercase (l : list N) :
  forallb is_stable l = true -> lower (text l) = text l.
Proof.
  intros H. unfold lower.
  rewrite codepoints_text by (apply is_stable_in_unicode, H).
  rewrite lower_from_fixed by exact H. reflexivity.
Qed.

(** [s.lower().replace(" ", "_")] as a text of stable code points. *)
Lemma normalize_stable_text (s : string) :
  exists l, forallb is_stable l = true /\ normalize s = text l.
Proof.
  exists (map replace_space_codepoint (lower_from [] (codepoints s))). split.
  - apply replace_space_stable, lower_from_stable, decode_utf8_in_unicode.
  - unfold normalize, lower. apply replace_space_text.
Qed.

(** [str.lower] is idempotent. *)
Lemma lower_idempotent (s : string) : lower (lower s) = lower s.
Proof.
  unfold lower at 2 3. apply stable_text_lowercase, lower_from_stable, decode_utf8_in_unicode.
Qed.

(** A normalised string is lowercase and has no space, whatever the input. *)
Lemma normalize_is_normalized (s : string) : is_normalized (normalize s) = true.
Proof.
  unfold is_normalized. apply andb_true_intro. split.
  - destruct (normalize_stable_text s) as (l & Hl & ->).
    unfold is_lowercase. rewrite stable_text_lowercase by exact Hl.
    apply String.eqb_refl.
  - apply replace_space_no_space.
Qed.

(** *** ASCII text *)

Lemma ascii_codepoints (s : string) : is_ascii s = true -> codepoints s = bytes s.
Proof.
  unfold codepoints.
  induction s as [|c s IH]; simpl bytes; simpl is_ascii; [reflexivity|].
  intros H. apply andb_prop in H. destruct H as [Hc Hs].
  rewrite decode_utf8_cons, Hc, IH by exact Hs. reflexivity.
Qed.

Lemma lower_ascii_codepoint (c : ascii) :
  (N_of_ascii c <? 128)%N = true ->
  (N_of_ascii c =? capital_sigma)%N = false
  /\ to_lower_full (N_of_ascii c) = [N_of_ascii (lower_ascii c)]
  /\ encode_codepoint (N_of_ascii (lower_ascii c)) = [N_of_ascii (lower_ascii c)].
Proof.
  destruct c as [[] [] [] [] [] [] [] []]; intros H;
    try (vm_compute in H; discriminate H); vm_compute; repeat split.
Qed.

(** On ASCII text, [str.lower] maps the letters A..Z and nothing else. *)
Lemma lower_ascii_text (s : string) :
  is_ascii s = true -> lower s = str_map lower_ascii s.
Proof.
  intros H. unfold lower. rewrite ascii_codepoints by exact H.
  generalize (@nil N).
  induction s as [|c s IH]; intros before_rev; [reflexivity|].
  simpl in H. apply andb_prop in H. destruct H as [Hc Hs].
  destruct (lower_ascii_codepoint c Hc) as (H1 & H2 & H3).
  simpl bytes. simpl lower_from. rewrite H1, H2.
  unfold text in *. simpl. rewrite H3. simpl.
  rewrite ascii_N_embedding. f_equal. apply IH, Hs.
Qed.

(** Character by character on ASCII text: a space becomes an underscore, an
    uppercase letter its lowercase, anything else stays. *)
Lemma normalize_pointwise (s : string) :
  is_ascii s = true ->
  normalize s = str_map (fun c => if is_space c then underscore else lower_ascii c) s.
Proof.
  intros H. unfold normalize. rewrite lower_ascii_text by exact H.
  unfold replace_space. clear H.
  induction s as [|c s IH]; simpl; [reflexivity|]. rewrite IH. f_equal.
  destruct c as [[] [] [] [] [] [] [] []]; reflexivity.
Qed.

Example normalize_works_at : normalize "Works At" = "works_at".
Proof. reflexivity. Qed.

(** U+00C9 C O L E and U+00E9 c o l e. *)
Example normalize_beyond_ascii :
  normalize (text [201; 67; 79; 76; 69]%N) = text [233; 99; 111; 108; 101]%N
  /\ is_normalized (text [201; 99; 111; 108; 101]%N) = false.
Proof. split; vm_compute; reflexivity. Qed.

Example split_space_gaps : split_space "a  b " = ["a"; ""; "b"; ""].
Proof. reflexivity. Qed.

Lemma py_normalize_normalized (v : pyval) (s : string) :
  py_normalize v = Ok s -> is_normalized s = true.
Proof.
  destruct v; simpl; try discriminate.
  intros H; inversion H; apply normalize_is_normalized.
Qed.

Lemma norm_field_normalized (item : pyval) (k s : string) :
  norm_field item k = Ok s -> is_normalized s = true.
Proof.
  unfold norm_field. destruct (getkey item k); [|discriminate].
  apply py_normalize_normalized.
Qed.

(* ----------------------------------------------------------------- *)
(** ** Reasoning about computations *)

Section MonadFacts.

Variable D : Driver.

Lemma bind_inv {A B} (c : M D A) (k : A -> M D B) w r w' :
  bind c k w = (r, w') ->
  (exists a w1, c w = (Ok a, w1) /\ k a w1 = (r, w'))
  \/ (exists e, c w = (Err e, w') /\ r = Err e).
Proof.
  unfold bind. destruct (c w) as [[a|e] w1]; intros H.
  - left; eauto.
  - right; inversion H; subst; eauto.
Qed.

Lemma bind_ok {A B} (c : M D A) (k : A -> M D B) w a w1 :
  c w = (Ok a, w1) -> bind c k w = k a w1.
Proof. unfold bind; intros ->; reflexivity. Qed.

Lemma bind_err {A B} (c : M D A) (k : A -> M D B) w e w1 :
  c w = (Err e, w1) -> bind c k w = (Err e, w1).
Proof. unfold bind; intros ->; reflexivity. Qed.

Lemma bind_ret {A B} (a : A) (k : A -> M D B) w : bind (ret a) k w = k a w.
Proof. reflexivity. Qed.

Lemma lift_inv {A} (x : result A) (w : world D) r w' :
  lift x w = (r, w') -> r = x /\ w' = w.
Proof.
  destruct x; simpl; unfold ret, raise; intros H; inversion H; auto.
Qed.

Lemma for_each_app {A S} (l1 l2 : list A) (body : S -> A -> M D S) (s : S) (w : world D) :
  for_each (l1 ++ l2) body s w
  = bind (for_each l1 body s) (fun s' => for_each l2 body s') w.
Proof.
  revert s w; induction l1 as [|x l1 IH]; intros s w; simpl.
  - reflexivity.
  - unfold bind. destruct (body s x w) as [[s'|e] w1]; [|reflexivity].
    rewrite IH. unfold bind. reflexivity.
Qed.

Lemma emits_ret {A} P (a : A) : emits P (ret (D:=D) a).
Proof.
  intros w r w' H; inversion H; subst. exists []. rewrite app_nil_r; auto.
Qed.

Lemma emits_raise {A} P e : emits P (@raise D A e).
Proof.
  intros w r w' H; inversion H; subst. exists []. rewrite app_nil_r; auto.
Qed.

Lemma emits_lift {A} P (x : result A) : emits P (@lift D A x).
Proof. destruct x; [apply emits_ret | apply emits_raise]. Qed.

Lemma emits_emit (P : event -> Prop) e : P e -> emits P (@emit D e).
Proof.
  intros HP w r w' H; inversion H; subst; simpl. exists [e]; auto.
Qed.

Lemma emits_bind {A B} P (c : M D A) (k : A -> M D B) :
  emits P c -> (forall a, emits P (k a)) -> emits P (bind c k).
Proof.
  intros Hc Hk w r w' H.
  destruct (bind_inv _ _ _ H) as [(a & w1 & H1 & H2) | (e & H1 & _)].
  - destruct (Hc _ _ _ H1) as (t1 & E1 & F1).
    destruct (Hk a _ _ _ H2) as (t2 & E2 & F2).
    exists (t1 ++ t2)%list. rewrite E2, E1, app_assoc. split; [reflexivity|].
    apply Forall_app; auto.
  - eauto.
Qed.

Lemma emits_for_each {A S} P (l : list A) (body : S -> A -> M D S) :
  (forall s x, emits P (body s x)) -> forall s, emits P (for_each l body s).
Proof.
  intros Hb. induction l as [|x l IH]; intros s; simpl.
  - apply emits_ret.
  - apply emits_bind; auto.
Qed.

Lemma emits_weaken {A} (P Q : event -> Prop) (c : M D A) :
  (forall e, P e -> Q e) -> emits P c -> emits Q c.
Proof.
  intros HPQ Hc w r w' H. destruct (Hc _ _ _ H) as (tr & E & F).
  exists tr; split; auto. eapply Forall_impl; eauto.
Qed.

Lemma emits_call_query (P : event -> Prop) q ps :
  P (EvQuery q ps) -> emits P (@call_query D q ps).
Proof.
  intros HP w r w'. unfold call_query.
  destruct (run_query D q ps (w_store w)) as [r0 st]. intros H; inversion H; subst; simpl.
  exists [EvQuery q ps]; auto.
Qed.

Lemma emits_call_select (P : event -> Prop) name :
  P (EvSelect name) -> emits P (@call_select D name).
Proof.
  intros HP w r w'. unfold call_select.
  destruct (select_graph D name (w_store w)) as [r0 st]. intros H; inversion H; subst; simpl.
  exists [EvSelect name]; auto.
Qed.

End MonadFacts.


Lemma queries_of_app (t1 t2 : list event) :
  queries_of (t1 ++ t2) = (queries_of t1 ++ queries_of t2)%list.
Proof. unfold queries_of. apply flat_map_app. Qed.

Ltac split_run :=
  repeat match goal with
         | |- context [match ?x with _ => _ end] => destruct x eqn:?
         | H : context [match ?x with _ => _ end] |- _ => destruct x eqn:?
         | H : (_, _) = (_, _) |- _ => inversion H; subst; clear H
         end.

(* ----------------------------------------------------------------- *)
(** ** [graph_query] *)

Section GraphQuery.

Variable D : Driver.
Variable self : MemoryGraph.

(** Under the provider [falkordb], [graph_query] fails on the missing key when
    the parameters hold no [user_id]. *)
Lemma graph_query_falkordb_no_user (q : cypher) (ps : params) (w : world D) :
  provider self = "falkordb" -> assoc "user_id" ps = None ->
  graph_query self q ps w = (Err (KeyError (PStr "user_id")), w).
Proof.
  intros Hp Hu. unfold graph_query, bind, param_lookup. rewrite Hp, Hu. reflexivity.
Qed.

(** The calls [graph_query] makes: selections and the statement itself, and
    exactly one run of the statement whenever it returns. *)
Lemma graph_query_calls (q : cypher) (ps : params) (w : world D) r w' :
  graph_query self q ps w = (r, w') ->
  exists tr, w_trace w' = (w_trace w ++ tr)%list
    /\ Forall (fun ev => ev = EvQuery q ps \/ exists n, ev = EvSelect n) tr
    /\ (forall rows, r = Ok rows -> queries_of tr = [(q, ps)]).
Proof.
  unfold graph_query, bind, call_select, call_query, lift, ret, raise.
  intros H. split_run; simpl.
  all: try (exists []; rewrite app_nil_r; repeat split; auto; intros; discriminate).
  all: try (eexists [EvSelect _; EvQuery q ps]; rewrite <- app_assoc; simpl;
            repeat split; eauto 6; intros; discriminate).
  all: try (eexists [EvSelect _]; repeat split; eauto 6; intros; discriminate).
  all: try (eexists [EvQuery q ps]; repeat split; eauto 6; intros; discriminate).
Qed.

Lemma graph_query_emits (P : event -> Prop) (q : cypher) (ps : params) :
  P (EvQuery q ps) -> (forall n, P (EvSelect n)) -> emits P (graph_query (D:=D) self q ps).
Proof.
  intros HQ HS w r w' H. destruct (graph_query_calls _ _ _ H) as (tr & E & F & _).
  exists tr; split; auto. eapply Forall_impl; [|exact F].
  intros ev [->|[n ->]]; auto.
Qed.

End GraphQuery.

(** Records are turned into the list of their values, field names dropped. *)
Lemma records_to_value_lists (recs : list (list (string * pyval))) :
  map_result dict_values (map PDict recs)
  = Ok (map (fun fields => PList (map snd fields)) recs).
Proof.
  induction recs as [|r recs IH]; simpl; [reflexivity|]. rewrite IH. reflexivity.
Qed.

(** C9. [graph_query] shapes the call by provider.  Under [falkordb] the graph
    named [params["user_id"]] is selected first and the statement runs on the
    store that selection left; a failed selection stops before the statement.
    Under [neo4j] the statement runs directly and every returned record is
    replaced by the list of its values, in field order. *)
Theorem graph_query_by_provider (D : Driver) (self : MemoryGraph)
        (q : cypher) (ps : params) (w : world D) :
  (provider self = "falkordb" ->
   forall name, assoc "user_id" ps = Some name ->
     let sel := select_graph D name (w_store w) in
     let run := run_query D q ps (snd sel) in
     match fst sel with
     | Err e =>
         graph_query self q ps w
         = (Err e, {| w_store := snd sel; w_trace := w_trace w ++ [EvSelect name] |})
     | Ok _ =>
         graph_query self q ps w
         = (fst run, {| w_store := snd run;
                        w_trace := w_trace w ++ [EvSelect name; EvQuery q ps] |})
     end)
  /\
  (provider self = "neo4j" ->
   forall recs st', run_query D q ps (w_store w) = (Ok (map PDict recs), st') ->
     graph_query self q ps w
     = (Ok (map (fun fields => PList (map snd fields)) recs),
        {| w_store := st'; w_trace := w_trace w ++ [EvQuery q ps] |})).
Proof.
  split.
  - intros Hp name Hu. simpl.
    unfold graph_query, bind, param_lookup, call_select, call_query, lift, ret.
    rewrite Hp, Hu; simpl.
    destruct (select_graph D name (w_store w)) as [[[]|e] st1]; simpl; [|reflexivity].
    destruct (run_query D q ps st1) as [r2 st2]; simpl.
    rewrite <- app_assoc; simpl. destruct r2; reflexivity.
  - intros Hp recs st' Hrun.
    unfold graph_query, bind, call_query, lift, ret.
    rewrite Hp; simpl. rewrite Hrun, records_to_value_lists. reflexivity.
Qed.

Lemma graph_query_by_provider_witness :
  graph_query (Sample.config "falkordb") DeleteAll [("user_id", PStr "u1")]
    (Sample.start (RefStore.falkordb Sample.no_similar)
       {| RefStore.graphs := [("u1", Sample.two_edges)]; RefStore.selected := "default" |})
  = (Ok [],
     Sample.after (RefStore.falkordb Sample.no_similar)
       {| RefStore.graphs := [("u1", RefStore.detach_delete (PStr "u1") Sample.two_edges)];
          RefStore.selected := "u1" |}
       [EvSelect (PStr "u1"); EvQuery DeleteAll [("user_id", PStr "u1")]])
  /\
  graph_query (Sample.config "neo4j") CheckAndCreate
    (update_params (PStr "a") (PStr "a") (PStr "u1"))
    (Sample.start (Sample.canned [PDict [("n", PStr "x"); ("m", PInt 3)]]) tt)
  = (Ok [PList [PStr "x"; PInt 3]],
     Sample.after (Sample.canned [PDict [("n", PStr "x"); ("m", PInt 3)]]) tt
       [EvQuery CheckAndCreate (update_params (PStr "a") (PStr "a") (PStr "u1"))]).
Proof.
  split.
  - exact (proj1 (graph_query_by_provider (Sample.config "falkordb") DeleteAll
                    [("user_id", PStr "u1")]
                    (Sample.start (RefStore.falkordb Sample.no_similar)
                       {| RefStore.graphs := [("u1", Sample.two_edges)];
                          RefStore.selected := "default" |}))
                 eq_refl (PStr "u1") eq_refl).
  - exact (proj2 (graph_query_by_provider (Sample.config "neo4j") CheckAndCreate
                    (update_params (PStr "a") (PStr "a") (PStr "u1"))
                    (Sample.start (Sample.canned [PDict [("n", PStr "x"); ("m", PInt 3)]]) tt))
                 eq_refl [[("n", PStr "x"); ("m", PInt 3)]] tt eq_refl).
Defined.

(* ----------------------------------------------------------------- *)
(** ** [get_all] and [delete_all] *)

(** The parameters [get_all] sends never depend on its [limit] argument. *)
Lemma get_all_ignores_limit (D : Driver) (self : MemoryGraph)
      (filters limit limit' : pyval) (w : world D) :
  get_all self filters limit w = get_all self filters limit' w.
Proof. reflexivity. Qed.

(** The only statement [get_all] sends binds [user_id] and nothing else. *)
Lemma get_all_statement (D : Driver) (self : MemoryGraph)
      (filters limit user_id : pyval) (w : world D) r w' :
  getkey filters "user_id" = Ok user_id ->
  get_all self filters limit w = (r, w') ->
  exists tr, w_trace w' = (w_trace w ++ tr)%list
    /\ Forall (fun qp => qp = (GetAll, [("user_id", user_id)])) (queries_of tr).
Proof.
  intros Hu H. unfold get_all in H. rewrite Hu in H. simpl in H.
  rewrite bind_ret in H.
  destruct (bind_inv _ _ _ H) as [(rows & w1 & H1 & H2) | (e & H1 & _)].
  - destruct (graph_query_calls _ _ _ _ H1) as (t1 & E1 & F1 & Q1).
    specialize (Q1 rows eq_refl).
    destruct (bind_inv _ _ _ H2) as [(fin & w2 & H3 & H4) | (e & H3 & _)].
    + apply lift_inv in H3 as [_ ->].
      unfold bind, log, emit, ret in H4. inversion H4; subst; simpl.
      exists (t1 ++ [EvLog (LogRetrieved (List.length fin))])%list.
      rewrite E1, app_assoc. split; [reflexivity|].
      rewrite queries_of_app, Q1. simpl. auto.
    + apply lift_inv in H3 as [_ ->].
      exists t1. split; [assumption|]. rewrite Q1; auto.
  - destruct (graph_query_calls _ _ _ _ H1) as (t1 & E1 & F1 & _).
    exists t1; split; [assumption|].
    clear - F1. induction F1 as [|ev tr Hev _ IH]; simpl; [constructor|].
    destruct Hev as [->|[n ->]]; simpl; auto.
Qed.

Section RefStoreFacts.

Import RefStore.

Variable similarity_rows : pgraph -> params -> list row.

(** The reference store rejects the statement of [get_all] as [get_all] sends
    it: [$limit] is not bound. *)
Lemma exec_get_all_unbound (user_id : pyval) (g : pgraph) :
  exec similarity_rows GetAll [("user_id", user_id)] g = (Err missing_parameters, g).
Proof. reflexivity. Qed.

Lemma get_all_neo4j_raises (self : MemoryGraph) (filters limit user_id : pyval)
      (w : world (neo4j similarity_rows)) :
  provider self = "neo4j" ->
  getkey filters "user_id" = Ok user_id ->
  get_all self filters limit w
  = (Err missing_parameters,
     {| w_store := w_store w;
        w_trace := w_trace w ++ [EvQuery GetAll [("user_id", user_id)]] |}).
Proof.
  intros Hp Hu. unfold get_all, graph_query, bind, call_query, lift, ret.
  rewrite Hu, Hp. reflexivity.
Qed.

Lemma user_of_detach_delete (user : pyval) (g : pgraph) (id : nat) :
  prop_eqb (user_of id (detach_delete user g)) user = false.
Proof.
  unfold user_of, find_node, detach_delete; simpl.
  destruct (find _ _) as [n|] eqn:F.
  - apply find_some in F as [Hin _]. apply filter_In in Hin as [_ Hn].
    unfold owned_by in Hn. now apply negb_true_iff in Hn.
  - destruct user; reflexivity.
Qed.

(** [DETACH DELETE] leaves no node of the user, and no edge that the pattern
    of [get_all] could match. *)
Lemma detach_delete_clears (user : pyval) (g : pgraph) :
  filter (owned_by user) (g_nodes (detach_delete user g)) = []
  /\ user_edges user (detach_delete user g) = [].
Proof.
  split.
  - simpl. induction (g_nodes g) as [|n ns IH]; simpl; [reflexivity|].
    destruct (owned_by user n) eqn:E; simpl; [assumption|].
    rewrite E. assumption.
  - unfold user_edges.
    induction (g_edges (detach_delete user g)) as [|e es IH]; simpl; [reflexivity|].
    rewrite user_of_detach_delete. simpl. assumption.
Qed.

(** With [$limit] bound, the statement of [get_all] finds nothing after the
    statement of [delete_all]. *)
Lemma exec_get_all_after_delete_all (user : pyval) (n : nat) (g : pgraph) :
  let g' := snd (exec similarity_rows DeleteAll [("user_id", user)] g) in
  exec similarity_rows GetAll [("user_id", user); ("limit", PInt (Z.of_nat n))] g'
  = (Ok [], g').
Proof.
  simpl. unfold exec; simpl. unfold arg; simpl.
  destruct (Z.of_nat n <? 0)%Z eqn:E; [apply Z.ltb_lt in E; lia|].
  destruct (detach_delete_clears user g) as [_ ->]. simpl.
  now rewrite firstn_nil.
Qed.

End RefStoreFacts.

(** C1. On the reference store holding two edges of user [u1], [get_all] with
    any [limit] raises the driver's missing-parameter error instead of
    returning triples: the statement mentions [$limit] and the parameters it
    is sent with hold [user_id] only (both providers).  And on a driver that
    answers with three rows whatever it is sent, [get_all] returns the three
    triples for any [limit], [1] and [0] included. *)
Theorem get_all_limit_never_bound (limit : pyval) :
  get_all (Sample.config "neo4j") Sample.u1 limit
    (Sample.start (RefStore.neo4j Sample.no_similar) Sample.two_edges)
  = (Err RefStore.missing_parameters,
     Sample.after (RefStore.neo4j Sample.no_similar) Sample.two_edges
       [EvQuery GetAll [("user_id", PStr "u1")]])
  /\
  fst (get_all (Sample.config "falkordb") Sample.u1 limit
         (Sample.start (RefStore.falkordb Sample.no_similar)
            {| RefStore.graphs := [("u1", Sample.two_edges)];
               RefStore.selected := "u1" |}))
  = Err RefStore.missing_parameters
  /\
  fst (get_all (Sample.config "falkordb") Sample.u1 limit
         (Sample.start (Sample.canned Sample.three_rows) tt))
  = Ok (map (fun name => triple (PStr "alice") (PStr "knows") (PStr name))
            ["bob"; "carol"; "dave"]).
Proof. repeat split; reflexivity. Qed.

(** C5. On the reference store, [delete_all] succeeds and removes the user's
    nodes and edges, and the [get_all] that follows raises the driver's
    missing-parameter error instead of returning the empty list. *)
Theorem get_all_after_delete_all_raises :
  let w0 := Sample.start (RefStore.neo4j Sample.no_similar) Sample.two_edges in
  let w1 := snd (delete_all (Sample.config "neo4j") Sample.u1 w0) in
  fst (delete_all (Sample.config "neo4j") Sample.u1 w0) = Ok tt
  /\ RefStore.user_edges (PStr "u1") (w_store w1) = []
  /\ fst (get_all (Sample.config "neo4j") Sample.u1 default_limit w1)
     = Err RefStore.missing_parameters.
Proof. repeat split. Qed.

(* ----------------------------------------------------------------- *)
(** ** Entity extraction inside [_search] *)

(** The loop of the [try] block either records every entry, or stops at the
    first entry that raises with the map of the entries before it. *)
Lemma record_entities_spec (items : list pyval) (m : pydict) :
  match record_entities items m with
  | (m', None) => record_all items m = Ok m'
  | (m', Some e) =>
      exists done item rest,
        items = (done ++ item :: rest)%list
        /\ record_all done m = Ok m'
        /\ record_entity m' item = Err e
  end.
Proof.
  revert m. induction items as [|item items IH]; intros m; simpl; [reflexivity|].
  destruct (record_entity m item) as [m1|e] eqn:E.
  - specialize (IH m1). destruct (record_entities items m1) as [m' [e|]].
    + destruct IH as (done & it & rest & -> & Hall & Hit).
      exists (item :: done), it, rest. simpl. rewrite E. auto.
    + assumption.
  - exists [], item, items. simpl. auto.
Qed.

Lemma retrieve_nothing (D : Driver) (embed : pyval -> result pyval) (self : MemoryGraph)
      (filters limit : pyval) (w : world D) :
  retrieve embed self filters limit [] w = (Ok [], w).
Proof. reflexivity. Qed.

(* ----------------------------------------------------------------- *)
(** ** Unsupported providers *)

Lemma similarity_query_unsupported (self : MemoryGraph) :
  provider self <> "falkordb" -> provider self <> "neo4j" ->
  similarity_query self = Err (ValueError unsupported_provider_msg).
Proof.
  intros H1 H2. unfold similarity_query.
  apply String.eqb_neq in H1, H2. rewrite H1, H2. reflexivity.
Qed.

(** What [_search] has done when it reaches the retrieval loop. *)
Lemma search_reaches_retrieval (D : Driver)
      (llm : llm_request -> result pyval) (embed : pyval -> result pyval)
      (self : MemoryGraph) (query filters limit : pyval) (w : world D)
      (user_id resp : pyval) (m : pydict) (failure : option exn) :
  getkey filters "user_id" = Ok user_id ->
  llm (ExtractEntities (structured self) user_id query) = Ok resp ->
  extract_entity_type_map resp = (m, failure) ->
  _search llm embed self query filters limit w
  = bind (retrieve embed self filters limit m) (fun rr => ret (rr, m))
         (extend w (w_store w)
            (EvLLM (ExtractEntities (structured self) user_id query)
             :: match failure with
                | Some e => [EvLog (LogSearchToolError e)]
                | None => []
                end ++ [EvLog (LogEntityTypeMap m)])).
Proof.
  intros Hu Hllm Hext.
  unfold _search, bind at 1 2, call_llm, lift. rewrite Hu. simpl.
  unfold bind at 1, emit, ret at 1. simpl. rewrite Hllm. simpl.
  rewrite Hext. unfold bind, log, emit, ret, extend.
  destruct failure; simpl; repeat rewrite <- app_assoc; reflexivity.
Qed.

(** C7 as stated fails: with an unsupported provider and no extracted entity,
    [_search] and [search] return normally, and [add] goes on to write. *)
Lemma unsupported_provider_without_entities :
  let self := Sample.config "memgraph" in
  let llm := Sample.scripted Sample.no_relations Sample.no_relations Sample.one_addition in
  let w := Sample.start Sample.journal [] in
  provider self <> "falkordb" /\ provider self <> "neo4j"
  /\ fst (_search llm Sample.embed_const self (PStr "hello") Sample.u1 default_limit w)
     = Ok ([], [])
  /\ fst (search Sample.in_order llm Sample.embed_const self (PStr "hello") Sample.u1
            default_limit w) = Ok []
  /\ fst (add llm Sample.embed_const self (PStr "hello") Sample.u1 w)
     = Ok [triple (PStr "u1") (PStr "works_at") (PStr "acme_corp")].
Proof.
  repeat split; try reflexivity; discriminate.
Qed.

(** C7, amended. With a provider other than [falkordb] and [neo4j], as soon as
    the entity-type map has a first entry whose embedding is computed,
    [_search] raises the configuration error; nothing was sent to the graph
    store, whose state is untouched; the error leaves [search] and [add]
    unchanged. *)
Theorem unsupported_provider_raises (D : Driver) (R : Reranker)
        (llm : llm_request -> result pyval) (embed : pyval -> result pyval)
        (self : MemoryGraph) (query filters : pyval) (w : world D)
        (user_id resp node ty v : pyval) (rest : pydict) (failure : option exn) :
  provider self <> "falkordb" -> provider self <> "neo4j" ->
  getkey filters "user_id" = Ok user_id ->
  llm (ExtractEntities (structured self) user_id query) = Ok resp ->
  extract_entity_type_map resp = ((node, ty) :: rest, failure) ->
  embed node = Ok v ->
  let tr := (EvLLM (ExtractEntities (structured self) user_id query)
             :: match failure with
                | Some e => [EvLog (LogSearchToolError e)]
                | None => []
                end ++ [EvLog (LogEntityTypeMap ((node, ty) :: rest)); EvEmbed node])%list in
  let w1 := extend w (w_store w) tr in
  let error := ValueError unsupported_provider_msg in
  filter is_graph_call tr = []
  /\ (forall limit, _search llm embed self query filters limit w = (Err error, w1))
  /\ (forall limit, search R llm embed self query filters limit w = (Err error, w1))
  /\ add llm embed self query filters w = (Err error, w1).
Proof.
  intros H1 H2 Hu Hllm Hext Hemb tr w1 error.
  assert (Hs : forall limit,
             _search llm embed self query filters limit w = (Err error, w1)).
  { intros limit. rewrite (search_reaches_retrieval _ _ _ _ _ _ _ Hu Hllm Hext).
    unfold retrieve, dict_keys. simpl.
    unfold retrieve_node, bind, call_embed, emit, lift, ret, raise, extend. simpl.
    rewrite Hemb, (similarity_query_unsupported _ H1 H2).
    unfold w1, error, tr, extend. simpl.
    destruct failure; simpl; repeat rewrite <- app_assoc; reflexivity. }
  split; [|split; [|split]].
  - unfold tr. destruct failure; reflexivity.
  - exact Hs.
  - intros limit. unfold search. rewrite (bind_err _ _ _ (Hs limit)). reflexivity.
  - unfold add, decisions.
    rewrite (bind_err _ _ _ (bind_err _ _ _ (Hs default_limit))). reflexivity.
Qed.

Lemma unsupported_provider_raises_witness :
  _search (Sample.scripted Sample.entities_alice_acme Sample.no_relations Sample.one_addition)
    Sample.embed_const (Sample.config "memgraph") (PStr "hello") Sample.u1 default_limit
    (Sample.start Sample.journal [])
  = (Err (ValueError unsupported_provider_msg),
     Sample.after Sample.journal []
       [EvLLM (ExtractEntities true (PStr "u1") (PStr "hello"));
        EvLog (LogEntityTypeMap [(PStr "u1", PStr "person");
                                 (PStr "Acme", PStr "organization")]);
        EvEmbed (PStr "u1")]).
Proof.
  refine (proj1 (proj2
    (@unsupported_provider_raises Sample.journal Sample.in_order
       (Sample.scripted Sample.entities_alice_acme Sample.no_relations Sample.one_addition)
       Sample.embed_const (Sample.config "memgraph") (PStr "hello") Sample.u1
       (Sample.start Sample.journal [])
       (PStr "u1") Sample.entities_alice_acme (PStr "u1") (PStr "person")
       (PList [PFloat 1%Q; PFloat 0%Q]) [(PStr "Acme", PStr "organization")] None
       _ _ eq_refl eq_refl eq_refl eq_refl)) default_limit); discriminate.
Defined.

(* ----------------------------------------------------------------- *)
(** ** [search] *)

Lemma map_result_length {A B} (f : A -> result B) (l : list A) (l' : list B) :
  map_result f l = Ok l' -> List.length l' = List.length l.
Proof.
  revert l'. induction l as [|x l IH]; intros l'; simpl.
  - intros H; inversion H; reflexivity.
  - destruct (f x); [|discriminate]. destruct (map_result f l); [|discriminate].
    intros H; inversion H; subst; simpl. f_equal. auto.
Qed.

Section SearchFacts.

Variable D : Driver.
Variable R : Reranker.
Variable llm : llm_request -> result pyval.
Variable embed : pyval -> result pyval.
Variable self : MemoryGraph.

Lemma emits_bind_lift {A B} (P : event -> Prop) (x : result A) (k : A -> M D B) :
  (forall a, x = Ok a -> emits P (k a)) -> emits P (bind (lift x) k).
Proof.
  intros Hk. destruct x as [a|e]; simpl.
  - intros w r w' H. rewrite bind_ret in H. eapply Hk; eauto.
  - intros w r w' H. inversion H; subst. exists []. rewrite app_nil_r; auto.
Qed.

Lemma call_llm_emits (P : event -> Prop) (req : llm_request) :
  P (EvLLM req) -> emits (D:=D) P (call_llm llm req).
Proof.
  intros HP. unfold call_llm. apply emits_bind; [apply emits_emit; exact HP|].
  intros _; apply emits_lift.
Qed.

(** The calls of [_search] are LLM requests, log records, embeddings, graph
    selections and similarity statements. *)
Lemma _search_calls (P : event -> Prop) (query filters limit : pyval) :
  (forall req, P (EvLLM req)) -> (forall r, P (EvLog r)) -> (forall t, P (EvEmbed t)) ->
  (forall n, P (EvSelect n)) ->
  (forall ps, P (EvQuery SimilarityFalkor ps)) ->
  (forall ps, P (EvQuery SimilarityNeo4j ps)) ->
  emits (D:=D) P (_search llm embed self query filters limit).
Proof.
  intros Hllm Hlog Hemb Hsel Hf Hn. unfold _search.
  apply emits_bind; [apply emits_lift|]; intros user_id.
  apply emits_bind; [apply call_llm_emits; auto|].
  intros resp. destruct (extract_entity_type_map resp) as [m failure].
  apply emits_bind.
  { destruct failure; [apply emits_emit; auto | apply emits_ret]. }
  intros _. apply emits_bind; [apply emits_emit; auto|].
  intros _. apply emits_bind; [|intros; apply emits_ret].
  unfold retrieve. apply emits_for_each. intros acc node. unfold retrieve_node.
  apply emits_bind.
  { unfold call_embed. apply emits_bind; [apply emits_emit; auto|].
    intros _; apply emits_lift. }
  intros emb. apply emits_bind_lift. intros q Hq.
  apply emits_bind; [apply emits_lift|]. intros uid.
  apply emits_bind; [|intros; apply emits_ret].
  apply graph_query_emits; auto.
  unfold similarity_query in Hq.
  destruct (String.eqb (provider self) "falkordb"); [inversion Hq; auto|].
  destruct (String.eqb (provider self) "neo4j"); [inversion Hq; auto|discriminate].
Qed.

Lemma _search_emits (query filters limit : pyval) :
  emits (D:=D) search_call (_search llm embed self query filters limit).
Proof. apply _search_calls; intros; exact I. Qed.

Lemma no_rerank_calls (tr : list event) :
  Forall search_call tr -> filter is_rerank_call tr = [].
Proof.
  induction 1 as [|ev tr Hev _ IH]; simpl; [reflexivity|].
  destruct ev; simpl in *; auto; contradiction.
Qed.

Lemma search_result_bound (query filters limit : pyval) (w : world D) res w' :
  search R llm embed self query filters limit w = (Ok res, w') ->
  (List.length res <= 5)%nat.
Proof.
  unfold search. intros H.
  destruct (bind_inv _ _ _ H) as [(out & w1 & _ & H2) | (e & _ & He)]; [|discriminate].
  destruct (fst out) as [|c cs].
  { inversion H2; subst; simpl; lia. }
  destruct (bind_inv _ _ _ H2) as [(docs & w2 & _ & H3) | (e & _ & He)]; [|discriminate].
  destruct (bind_inv _ _ _ H3) as [(idx & w3 & _ & H4) | (e & _ & He)]; [|discriminate].
  destruct (bind_inv _ _ _ H4) as [(toks & w4 & _ & H5) | (e & _ & He)]; [|discriminate].
  destruct (bind_inv _ _ _ H5) as [(top & w5 & Htop & H6) | (e & _ & He)]; [|discriminate].
  destruct (bind_inv _ _ _ H6) as [(out5 & w6 & Hout & H7) | (e & _ & He)]; [|discriminate].
  unfold bind, log, emit, ret in H7. inversion H7; subst.
  apply lift_inv in Hout as [Hout _]. symmetry in Hout.
  apply map_result_length in Hout. rewrite Hout.
  unfold get_top_n in Htop.
  destruct (bind_inv _ _ _ Htop) as [(order & w7 & _ & H8) | (e & _ & He)]; [|discriminate].
  apply lift_inv in H8 as [H8 _]. symmetry in H8.
  apply map_result_length in H8. rewrite H8. apply firstn_le_length.
Qed.

End SearchFacts.

(** C6. [search] returns at most five triples; and when retrieval yields no
    candidate it returns the empty list in the very world [_search] left,
    no index built and no ranking asked. *)
Theorem search_bounded_and_short_circuits (D : Driver) (R : Reranker)
        (llm : llm_request -> result pyval) (embed : pyval -> result pyval)
        (self : MemoryGraph) (query filters limit : pyval) (w : world D) :
  (forall res w', search R llm embed self query filters limit w = (Ok res, w') ->
                  (List.length res <= 5)%nat)
  /\ (forall m w1, _search llm embed self query filters limit w = (Ok ([], m), w1) ->
        search R llm embed self query filters limit w = (Ok [], w1)
        /\ filter is_rerank_call (w_trace w1) = filter is_rerank_call (w_trace w)).
Proof.
  split.
  - intros res w'. apply search_result_bound.
  - intros m w1 H. split.
    + unfold search. rewrite (bind_ok _ _ _ H). reflexivity.
    + destruct (_search_emits _ _ _ _ _ _ _ H) as (tr & E & F).
      rewrite E, filter_app, (no_rerank_calls F). apply app_nil_r.
Qed.

Lemma search_bounded_and_short_circuits_witness :
  let llm := Sample.scripted Sample.entities_alice_acme Sample.no_relations Sample.no_relations in
  let run := search Sample.in_order llm Sample.embed_const (Sample.config "falkordb")
               (PStr "who knows bob") Sample.u1 default_limit
               (Sample.start (Sample.canned Sample.four_rows) tt) in
  (List.length match fst run with Ok res => res | Err _ => [] end <= 5)%nat
  /\ fst run
     = Ok (map (fun name => triple (PStr "u1") (PStr "knows") (PStr name))
               ["alice"; "bob"; "carol"; "dave"; "alice"])
  /\ fst (search Sample.in_order llm Sample.embed_const (Sample.config "falkordb")
            (PStr "who knows bob") Sample.u1 default_limit (Sample.start Sample.journal []))
     = Ok [].
Proof.
  intros llm run. split; [|split].
  - exact (proj1 (search_bounded_and_short_circuits Sample.in_order llm Sample.embed_const
                    (Sample.config "falkordb") (PStr "who knows bob") Sample.u1 default_limit
                    (Sample.start (Sample.canned Sample.four_rows) tt))
                 match fst run with Ok res => res | Err _ => [] end (snd run) eq_refl).
  - reflexivity.
  - exact (f_equal fst
             (proj1 (proj2 (search_bounded_and_short_circuits Sample.in_order llm
                              Sample.embed_const (Sample.config "falkordb")
                              (PStr "who knows bob") Sample.u1 default_limit
                              (Sample.start Sample.journal []))
                           _ _ eq_refl))).
Defined.

(* ----------------------------------------------------------------- *)
(** ** [_update_relationship] *)

Section UpdateFacts.

Variable D : Driver.
Variable self : MemoryGraph.

Lemma bind_log {B} (r : log_record) (k : unit -> M D B) (w : world D) :
  bind (log r) k w = k tt (extend w (w_store w) [EvLog r]).
Proof. reflexivity. Qed.

(** [graph_query] runs its statement once, or fails before running it. *)
Lemma graph_query_queries (q : cypher) (ps : params) (w : world D) r w' :
  graph_query self q ps w = (r, w') ->
  exists tr, w_trace w' = (w_trace w ++ tr)%list
    /\ (queries_of tr = [(q, ps)] \/ (queries_of tr = [] /\ exists e, r = Err e)).
Proof.
  unfold graph_query, bind, call_select, call_query, lift, ret, raise.
  intros H. split_run; simpl.
  all: try (exists []; rewrite app_nil_r; split; [reflexivity|]; right; eauto; fail).
  all: try (eexists [EvSelect _; EvQuery q ps]; rewrite <- app_assoc; simpl;
            split; [reflexivity|]; left; reflexivity).
  all: try (eexists [EvSelect _]; split; [reflexivity|]; right; eauto; fail).
  all: try (eexists [EvQuery q ps]; split; [reflexivity|]; left; reflexivity).
Qed.

(** The statements of one update, in the order they are sent. *)
Lemma update_statements (source target filters user_id : pyval) (rel : string)
      (w : world D) r w' :
  getkey filters "user_id" = Ok user_id ->
  _update_relationship self source target (PStr rel) filters w = (r, w') ->
  let ps := update_params source target user_id in
  let sent := [(CheckAndCreate, ps); (DeleteRel, ps); (CreateRel (normalize rel), ps)] in
  exists tr, w_trace w' = (w_trace w ++ tr)%list
    /\ (exists k, queries_of tr = firstn k sent)
    /\ (r = Ok tt -> queries_of tr = sent).
Proof.
  intros Hu H ps sent. unfold _update_relationship in H.
  rewrite bind_log in H. cbn [py_normalize lift] in H. rewrite bind_ret, Hu in H.
  cbn [lift] in H. rewrite bind_ret in H. fold ps in H.
  destruct (bind_inv _ _ _ H) as [(r1 & w1 & G1 & H1) | (e & G1 & ->)];
    destruct (graph_query_queries _ _ _ G1) as (t1 & E1 & Q1); simpl in E1.
  2:{ exists (EvLog (LogUpdating source (PStr rel) target) :: t1).
      rewrite E1, <- app_assoc. split; [reflexivity|]. split; [|discriminate].
      simpl. destruct Q1 as [->|[-> _]]; [exists 1 | exists 0]; reflexivity. }
  destruct Q1 as [Q1|[_ [e He]]]; [|discriminate].
  rewrite bind_ret in H1.
  destruct (bind_inv _ _ _ H1) as [(r2 & w2 & G2 & H2) | (e & G2 & ->)];
    destruct (graph_query_queries _ _ _ G2) as (t2 & E2 & Q2).
  2:{ exists (EvLog (LogUpdating source (PStr rel) target) :: t1 ++ t2)%list.
      rewrite E2, E1. repeat rewrite <- app_assoc. split; [reflexivity|].
      split; [|discriminate].
      change (queries_of (EvLog (LogUpdating source (PStr rel) target) :: t1 ++ t2))
        with (queries_of (t1 ++ t2)).
      rewrite queries_of_app, Q1.
      destruct Q2 as [->|[-> _]]; [exists 2 | exists 1]; reflexivity. }
  destruct Q2 as [Q2|[_ [e He]]]; [|discriminate].
  rewrite bind_ret in H2.
  destruct (bind_inv _ _ _ H2) as [(r3 & w3 & G3 & H3) | (e & G3 & ->)];
    destruct (graph_query_queries _ _ _ G3) as (t3 & E3 & Q3).
  2:{ exists (EvLog (LogUpdating source (PStr rel) target) :: t1 ++ t2 ++ t3)%list.
      rewrite E3, E2, E1. repeat rewrite <- app_assoc. split; [reflexivity|].
      split; [|discriminate].
      change (queries_of (EvLog (LogUpdating source (PStr rel) target) :: t1 ++ t2 ++ t3))
        with (queries_of (t1 ++ t2 ++ t3)).
      rewrite !queries_of_app, Q1, Q2.
      destruct Q3 as [->|[-> _]]; [exists 3 | exists 2]; reflexivity. }
  destruct Q3 as [Q3|[_ [e He]]]; [|discriminate].
  exists (EvLog (LogUpdating source (PStr rel) target) :: t1 ++ t2 ++ t3)%list.
  assert (Hw : w' = w3) by (destruct r3; inversion H3; reflexivity).
  rewrite Hw, E3, E2, E1. repeat rewrite <- app_assoc. split; [reflexivity|].
  change (queries_of (EvLog (LogUpdating source (PStr rel) target) :: t1 ++ t2 ++ t3))
    with (queries_of (t1 ++ t2 ++ t3)).
  rewrite !queries_of_app, Q1, Q2, Q3.
  split; [exists 3|]; reflexivity.
Qed.

End UpdateFacts.

Lemma in_firstn {A} (k : nat) (l : list A) (x : A) : In x (firstn k l) -> In x l.
Proof.
  revert l; induction k as [|k IH]; intros [|y l]; simpl; auto; try contradiction.
  intros [H|H]; auto.
Qed.

(** C10. An update normalises the relationship label only: each of its three
    statements is sent with [source] and [target] exactly as the decision
    supplied them, and the edge label is the normalised relationship. *)
Theorem update_normalizes_label_only (D : Driver) (self : MemoryGraph)
        (source target filters user_id : pyval) (rel : string) (w : world D) r w' :
  getkey filters "user_id" = Ok user_id ->
  _update_relationship self source target (PStr rel) filters w = (r, w') ->
  exists tr, w_trace w' = (w_trace w ++ tr)%list
    /\ (r = Ok tt ->
        queries_of tr
        = [(CheckAndCreate, update_params source target user_id);
           (DeleteRel, update_params source target user_id);
           (CreateRel (normalize rel), update_params source target user_id)])
    /\ Forall (fun qp => assoc "source" (snd qp) = Some source
                         /\ assoc "target" (snd qp) = Some target
                         /\ forall label, fst qp = CreateRel label -> label = normalize rel)
              (queries_of tr).
Proof.
  intros Hu H.
  destruct (update_statements _ _ _ _ _ _ Hu H) as (tr & E & [k Hk] & Hok).
  exists tr. split; [assumption|]. split; [assumption|].
  rewrite Hk. apply Forall_forall. intros qp Hin.
  apply in_firstn in Hin. simpl in Hin.
  destruct Hin as [<-|[<-|[<-|[]]]]; simpl; repeat split; try discriminate.
  intros label Hl; inversion Hl; reflexivity.
Qed.

(** On the reference store an update with the names [Alice Smith] and
    [New York] leaves nodes carrying exactly these names, joined by an edge
    with the normalised label. *)
Lemma update_normalizes_label_only_witness :
  let w := Sample.start (RefStore.neo4j Sample.no_similar) RefStore.empty_graph in
  let run := _update_relationship (Sample.config "neo4j") (PStr "Alice Smith")
               (PStr "New York") (PStr "Lives In") Sample.u1 w in
  fst run = Ok tt
  /\ map RefStore.n_name (RefStore.g_nodes (w_store (snd run)))
     = [PStr "Alice Smith"; PStr "New York"]
  /\ map RefStore.e_type (RefStore.g_edges (w_store (snd run))) = ["lives_in"]
  /\ is_normalized "Alice Smith" = false
  /\ exists tr, w_trace (snd run) = (w_trace w ++ tr)%list
       /\ Forall (fun qp => assoc "source" (snd qp) = Some (PStr "Alice Smith")
                            /\ assoc "target" (snd qp) = Some (PStr "New York")
                            /\ forall label, fst qp = CreateRel label ->
                                             label = normalize "Lives In")
                 (queries_of tr).
Proof.
  intros w run. repeat (split; [reflexivity|]).
  destruct (@update_normalizes_label_only (RefStore.neo4j Sample.no_similar)
              (Sample.config "neo4j") (PStr "Alice Smith") (PStr "New York") Sample.u1
              (PStr "u1") "Lives In" w (fst run) (snd run) eq_refl eq_refl)
    as (tr & E & _ & F).
  exists tr; split; assumption.
Defined.

(* ----------------------------------------------------------------- *)
(** ** [add]: what is returned *)

Ltac step H x Hx H' :=
  let w := fresh "w" in
  let e := fresh "e" in
  let He := fresh "He" in
  destruct (bind_inv _ _ _ H) as [(x & w & Hx & H') | (e & _ & He)];
  [ try (apply lift_inv in Hx as [Hx ->]; symmetry in Hx) | discriminate ].

Section AddFacts.

Variable D : Driver.
Variable llm : llm_request -> result pyval.
Variable embed : pyval -> result pyval.
Variable self : MemoryGraph.

Lemma apply_decision_ok (filters : pyval) (acc : list pyval) (item : pyval)
      (w : world D) acc' w' :
  apply_decision self filters acc item w = (Ok acc', w') ->
  (is_addition item = true
   /\ exists args, getkey item "arguments" = Ok args /\ acc' = (acc ++ [args])%list)
  \/ (is_addition item = false /\ acc' = acc).
Proof.
  unfold apply_decision, is_addition. intros H.
  step H name Hn H1. rewrite Hn.
  destruct (eq_str name "add_graph_memory").
  - left. split; [reflexivity|]. step H1 args Ha H2.
    inversion H2; subst. eauto.
  - right. split; [reflexivity|].
    destruct (eq_str name "update_graph_memory").
    + step H1 args Ha H2. step H2 src Hs H3. step H3 dst Hd H4. step H4 rel Hr H5.
      destruct (bind_inv _ _ _ H5) as [(u & w5 & _ & H6) | (e & _ & He)]; [|discriminate].
      inversion H6; reflexivity.
    + inversion H1; reflexivity.
Qed.

Lemma apply_decisions_ok (filters : pyval) (items : list pyval) :
  forall (acc : list pyval) (w : world D) out w',
    for_each items (apply_decision self filters) acc w = (Ok out, w') ->
    exists added, out = (acc ++ added)%list
      /\ Forall2 (fun item args => getkey item "arguments" = Ok args)
                 (filter is_addition items) added.
Proof.
  induction items as [|item items IH]; intros acc w out w' H; simpl in H.
  - inversion H; subst. exists []. rewrite app_nil_r. split; [reflexivity|constructor].
  - destruct (bind_inv _ _ _ H) as [(acc1 & w1 & H1 & H2) | (e & _ & He)]; [|discriminate].
    destruct (IH _ _ _ _ H2) as (added & -> & F).
    destruct (apply_decision_ok _ _ _ _ H1) as [(Hi & args & Ha & ->) | (Hi & ->)];
      simpl; rewrite Hi.
    + exists (args :: added). rewrite <- app_assoc. split; [reflexivity|].
      constructor; assumption.
    + exists added. split; [reflexivity|assumption].
Qed.

Lemma write_addition_ok (filters : pyval) (acc : list pyval) (item : pyval)
      (w : world D) acc' w' :
  write_addition embed self filters acc item w = (Ok acc', w') ->
  exists t, added_triple item = Ok t /\ acc' = (acc ++ [t])%list.
Proof.
  unfold write_addition, added_triple. intros H.
  step H source Hs H1. step H1 source_type Hst H2. step H2 rl Hr H3.
  step H3 destination Hd H4. step H4 destination_type Hdt H5.
  rewrite Hs, Hr, Hd.
  destruct (bind_inv _ _ _ H5) as [(se & w6 & _ & H6) | (e & _ & He)]; [|discriminate].
  destruct (bind_inv _ _ _ H6) as [(de & w7 & _ & H7) | (e & _ & He)]; [|discriminate].
  step H7 uid Hu H8.
  destruct (bind_inv _ _ _ H8) as [(rows & w9 & _ & H9) | (e & _ & He)]; [|discriminate].
  inversion H9; subst. eauto.
Qed.

Lemma write_additions_ok (filters : pyval) (items : list pyval) :
  forall (acc : list pyval) (w : world D) out w',
    for_each items (write_addition embed self filters) acc w = (Ok out, w') ->
    exists ts, out = (acc ++ ts)%list
      /\ Forall2 (fun args t => added_triple args = Ok t) items ts.
Proof.
  induction items as [|item items IH]; intros acc w out w' H; simpl in H.
  - inversion H; subst. exists []. rewrite app_nil_r. split; [reflexivity|constructor].
  - destruct (bind_inv _ _ _ H) as [(acc1 & w1 & H1 & H2) | (e & _ & He)]; [|discriminate].
    destruct (IH _ _ _ _ H2) as (ts & -> & F).
    destruct (write_addition_ok _ _ _ _ H1) as (t & Ht & ->).
    exists (t :: ts). rewrite <- app_assoc. split; [reflexivity|].
    constructor; assumption.
Qed.

Lemma Forall2_compose {A B C} (P : A -> B -> Prop) (Q : B -> C -> Prop)
      (la : list A) (lb : list B) (lc : list C) :
  Forall2 P la lb -> Forall2 Q lb lc ->
  Forall2 (fun a c => exists b, P a b /\ Q b c) la lc.
Proof.
  intros HP; revert lc. induction HP as [|a b la lb Hab _ IH]; intros lc HQ;
    inversion HQ; subst; constructor; eauto.
Qed.

End AddFacts.

(** C4. The list [add] returns holds, in order, one triple for each decision
    of the reconciliation response tagged [add_graph_memory] (the normalised
    source, relationship and destination of its arguments) and nothing for
    any other decision, updates and no-ops included. *)
Theorem add_returns_additions_only (D : Driver)
        (llm : llm_request -> result pyval) (embed : pyval -> result pyval)
        (self : MemoryGraph) (data filters : pyval) (w : world D) ret w' :
  add llm embed self data filters w = (Ok ret, w') ->
  exists items w2,
    decisions llm embed self data filters w = (Ok items, w2)
    /\ Forall2 (fun item t => exists args, getkey item "arguments" = Ok args
                                           /\ added_triple args = Ok t)
               (filter is_addition items) ret.
Proof.
  unfold add. intros H.
  destruct (bind_inv _ _ _ H) as [(items & w2 & Hd & H1) | (e & _ & He)]; [|discriminate].
  destruct (bind_inv _ _ _ H1) as [(tba & w3 & Ha & H2) | (e & _ & He)]; [|discriminate].
  destruct (bind_inv _ _ _ H2) as [(out & w4 & Hw & H3) | (e & _ & He)]; [|discriminate].
  inversion H3; subst.
  exists items, w2. split; [assumption|].
  destruct (apply_decisions_ok _ _ _ _ _ Ha) as (added & -> & F1).
  destruct (write_additions_ok _ _ _ _ _ _ Hw) as (ts & -> & F2).
  simpl in *. eapply Forall2_compose; eassumption.
Qed.

Lemma add_returns_additions_only_witness :
  let llm := Sample.scripted Sample.entities_alice_acme Sample.no_relations
               Sample.mixed_updates in
  let run := add llm Sample.embed_const (Sample.config "neo4j") (PStr "hi") Sample.u1
               (Sample.start (RefStore.neo4j Sample.no_similar) RefStore.empty_graph) in
  fst run = Ok [triple (PStr "u1") (PStr "works_at") (PStr "acme_corp");
                triple (PStr "bob") (PStr "knows") (PStr "u1")]
  /\ exists items w2,
       decisions llm Sample.embed_const (Sample.config "neo4j") (PStr "hi") Sample.u1
         (Sample.start (RefStore.neo4j Sample.no_similar) RefStore.empty_graph)
       = (Ok items, w2)
       /\ Forall2 (fun item t => exists args, getkey item "arguments" = Ok args
                                              /\ added_triple args = Ok t)
                  (filter is_addition items)
                  [triple (PStr "u1") (PStr "works_at") (PStr "acme_corp");
                   triple (PStr "bob") (PStr "knows") (PStr "u1")].
Proof.
  intros llm run.
  assert (Hf : fst run = Ok [triple (PStr "u1") (PStr "works_at") (PStr "acme_corp");
                             triple (PStr "bob") (PStr "knows") (PStr "u1")])
    by reflexivity.
  split; [exact Hf|].
  apply (@add_returns_additions_only (RefStore.neo4j Sample.no_similar) llm
           Sample.embed_const (Sample.config "neo4j") (PStr "hi") Sample.u1
           (Sample.start (RefStore.neo4j Sample.no_similar) RefStore.empty_graph)
           _ (snd run)).
  change (run = (Ok [triple (PStr "u1") (PStr "works_at") (PStr "acme_corp");
                     triple (PStr "bob") (PStr "knows") (PStr "u1")], snd run)).
  rewrite <- Hf. apply surjective_pairing.
Defined.

(* ----------------------------------------------------------------- *)
(** ** [add]: what is written *)

Section WriteFacts.

Variable D : Driver.
Variable llm : llm_request -> result pyval.
Variable embed : pyval -> result pyval.
Variable self : MemoryGraph.

Lemma call_embed_inv (text : pyval) (w : world D) r w' :
  call_embed embed text w = (r, w') ->
  r = embed text /\ w' = extend w (w_store w) [EvEmbed text].
Proof.
  unfold call_embed, bind, emit, lift, extend. simpl.
  destruct (embed text); intros H; inversion H; auto.
Qed.

Lemma _extract_relations_calls (data filters : pyval) (m : pydict) :
  emits (D:=D) not_merge (_extract_relations llm self data filters m).
Proof.
  unfold _extract_relations.
  apply emits_bind; [apply emits_lift|]; intros user_id.
  apply emits_bind; [apply emits_lift|]; intros uid.
  apply emits_bind; [apply call_llm_emits; exact I|]. intros resp.
  apply emits_bind; [apply emits_lift|]; intros calls.
  apply emits_bind.
  { destruct (truthy calls); [|apply emits_ret].
    apply emits_bind; [apply emits_lift|]; intros call.
    apply emits_bind; [apply emits_lift|]; intros args. apply emits_lift. }
  intros v. apply emits_bind; [apply emits_emit; exact I|].
  intros _; apply emits_ret.
Qed.

Lemma decisions_calls (data filters : pyval) :
  emits (D:=D) not_merge (decisions llm embed self data filters).
Proof.
  unfold decisions.
  apply emits_bind; [apply _search_calls; intros; exact I|]. intros out.
  apply emits_bind; [apply _extract_relations_calls|]. intros rels.
  apply emits_bind; [apply call_llm_emits; exact I|]. intros resp.
  apply emits_bind; [apply emits_lift|]. intros calls. apply emits_lift.
Qed.

Lemma _update_relationship_calls (source target relationship filters : pyval) :
  emits (D:=D) not_merge (_update_relationship self source target relationship filters).
Proof.
  unfold _update_relationship.
  apply emits_bind; [apply emits_emit; exact I|]. intros _.
  apply emits_bind; [apply emits_lift|]. intros rel.
  apply emits_bind; [apply emits_lift|]. intros u1.
  apply emits_bind; [apply graph_query_emits; intros; exact I|]. intros _.
  apply emits_bind; [apply emits_lift|]. intros u2.
  apply emits_bind; [apply graph_query_emits; intros; exact I|]. intros _.
  apply emits_bind; [apply emits_lift|]. intros u3.
  apply emits_bind; [apply graph_query_emits; intros; exact I|]. intros rows.
  destruct rows; [apply emits_raise | apply emits_ret].
Qed.

Lemma apply_decisions_calls (filters : pyval) (items : list pyval) :
  emits (D:=D) not_merge (apply_decisions self filters items).
Proof.
  unfold apply_decisions. apply emits_for_each. intros acc item. unfold apply_decision.
  apply emits_bind; [apply emits_lift|]. intros name.
  destruct (eq_str name "add_graph_memory").
  { apply emits_bind; [apply emits_lift|]. intros; apply emits_ret. }
  destruct (eq_str name "update_graph_memory"); [|apply emits_ret].
  apply emits_bind; [apply emits_lift|]. intros args.
  apply emits_bind; [apply emits_lift|]. intros src.
  apply emits_bind; [apply emits_lift|]. intros dst.
  apply emits_bind; [apply emits_lift|]. intros rel.
  apply emits_bind; [apply _update_relationship_calls|]. intros; apply emits_ret.
Qed.

Lemma not_merge_queries (tr : list event) :
  Forall not_merge tr ->
  forallb statement_normalized (queries_of tr) = true
  /\ flat_map triple_written (queries_of tr) = [].
Proof.
  induction 1 as [|ev tr Hev _ [IH1 IH2]]; simpl; [auto|].
  destruct ev; simpl; auto.
  destruct q; simpl in *; auto; contradiction.
Qed.

Lemma merge_statement_normalized (source_type rl destination_type source destination : string)
      (se de user_id : pyval) :
  is_normalized source = true -> is_normalized source_type = true ->
  is_normalized rl = true -> is_normalized destination = true ->
  is_normalized destination_type = true ->
  statement_normalized
    (MergeTriple source_type rl destination_type,
     merge_params (PStr source) (PStr destination) se de user_id) = true.
Proof.
  intros H1 H2 H3 H4 H5. unfold statement_normalized, normalized_param. simpl.
  rewrite H1, H2, H3, H4, H5. reflexivity.
Qed.

(** One iteration of the second loop: it sends at most one statement, whose
    labels and names are normalised, and when it returns it has appended the
    triple of exactly that statement. *)
Lemma write_addition_spec (filters : pyval) (acc : list pyval) (item : pyval)
      (w : world D) r w' :
  write_addition embed self filters acc item w = (r, w') ->
  exists tr, w_trace w' = (w_trace w ++ tr)%list
    /\ forallb statement_normalized (queries_of tr) = true
    /\ (forall acc', r = Ok acc' ->
          acc' = (acc ++ flat_map triple_written (queries_of tr))%list).
Proof.
  assert (Hstop : forall (w0 : world D) (e : exn),
             exists tr, w_trace w0 = (w_trace w0 ++ tr)%list
               /\ forallb statement_normalized (queries_of tr) = true
               /\ (forall acc', Err e = Ok acc' ->
                     acc' = (acc ++ flat_map triple_written (queries_of tr))%list)).
  { intros w0 e. exists []. rewrite app_nil_r. repeat split; auto. discriminate. }
  unfold write_addition. intros H.
  destruct (bind_inv _ _ _ H) as [(source & w1 & Hs & H1) | (e & Hs & ->)];
    apply lift_inv in Hs as [Hs ->]; [|apply Hstop]. clear H.
  destruct (bind_inv _ _ _ H1) as [(source_type & w1 & Hst & H2) | (e & Hst & ->)];
    apply lift_inv in Hst as [Hst ->]; [|apply Hstop]. clear H1.
  destruct (bind_inv _ _ _ H2) as [(rl & w1 & Hr & H3) | (e & Hr & ->)];
    apply lift_inv in Hr as [Hr ->]; [|apply Hstop]. clear H2.
  destruct (bind_inv _ _ _ H3) as [(destination & w1 & Hd & H4) | (e & Hd & ->)];
    apply lift_inv in Hd as [Hd ->]; [|apply Hstop]. clear H3.
  destruct (bind_inv _ _ _ H4) as [(destination_type & w1 & Hdt & H5) | (e & Hdt & ->)];
    apply lift_inv in Hdt as [Hdt ->]; [|apply Hstop]. clear H4.
  symmetry in Hs, Hst, Hr, Hd, Hdt.
  apply norm_field_normalized in Hs, Hst, Hr, Hd, Hdt.
  destruct (bind_inv _ _ _ H5) as [(se & w1 & E1 & H6) | (e & E1 & ->)];
    apply call_embed_inv in E1 as [_ ->].
  2:{ exists [EvEmbed (PStr source)]. simpl. repeat split; auto. discriminate. }
  clear H5.
  destruct (bind_inv _ _ _ H6) as [(de & w2 & E2 & H7) | (e & E2 & ->)];
    apply call_embed_inv in E2 as [_ ->].
  2:{ exists [EvEmbed (PStr source); EvEmbed (PStr destination)]. simpl.
      rewrite <- app_assoc. repeat split; auto. discriminate. }
  clear H6.
  destruct (bind_inv _ _ _ H7) as [(uid & w3 & Hu & H8) | (e & Hu & ->)];
    apply lift_inv in Hu as [Hu ->].
  2:{ exists [EvEmbed (PStr source); EvEmbed (PStr destination)]. simpl.
      rewrite <- app_assoc. repeat split; auto. discriminate. }
  clear H7.
  pose proof (@merge_statement_normalized source_type rl destination_type source
                destination se de uid Hs Hst Hr Hd Hdt) as Hnorm.
  destruct (bind_inv _ _ _ H8) as [(rows & w4 & G & H9) | (e & G & ->)];
    destruct (graph_query_queries _ _ _ _ G) as (tg & Eg & Qg); simpl in Eg.
  - destruct Qg as [Qg|[_ [e He]]]; [|discriminate].
    inversion H9; subst.
    exists ([EvEmbed (PStr source); EvEmbed (PStr destination)] ++ tg)%list.
    rewrite Eg. repeat rewrite <- app_assoc. split; [reflexivity|].
    rewrite queries_of_app, Qg. simpl. rewrite Hnorm. split; [reflexivity|].
    intros acc' Hacc. inversion Hacc. reflexivity.
  - exists ([EvEmbed (PStr source); EvEmbed (PStr destination)] ++ tg)%list.
    rewrite Eg. repeat rewrite <- app_assoc. split; [reflexivity|].
    rewrite queries_of_app. simpl.
    split; [|discriminate].
    destruct Qg as [->|[-> _]]; simpl; [rewrite Hnorm|]; reflexivity.
Qed.

Lemma write_additions_spec (filters : pyval) (items : list pyval) :
  forall (acc : list pyval) (w : world D) r w',
    for_each items (write_addition embed self filters) acc w = (r, w') ->
    exists tr, w_trace w' = (w_trace w ++ tr)%list
      /\ forallb statement_normalized (queries_of tr) = true
      /\ (forall out, r = Ok out ->
            out = (acc ++ flat_map triple_written (queries_of tr))%list).
Proof.
  induction items as [|item items IH]; intros acc w r w' H; simpl in H.
  - inversion H; subst. exists []. simpl. rewrite !app_nil_r. repeat split; auto.
    intros out Hout; inversion Hout; reflexivity.
  - destruct (bind_inv _ _ _ H) as [(acc1 & w1 & H1 & H2) | (e & H1 & ->)];
      destruct (write_addition_spec _ _ _ _ H1) as (t1 & E1 & N1 & R1).
    + destruct (IH _ _ _ _ H2) as (t2 & E2 & N2 & R2).
      exists (t1 ++ t2)%list. rewrite E2, E1, app_assoc. split; [reflexivity|].
      rewrite queries_of_app, forallb_app, N1, N2. split; [reflexivity|].
      intros out Hout. rewrite (R2 _ Hout), (R1 _ eq_refl).
      rewrite flat_map_app, app_assoc. reflexivity.
    + exists t1. split; [assumption|]. split; [assumption|]. intros out Hout; discriminate.
Qed.

End WriteFacts.

(** C2. Every statement [add] sends through its addition path has lowercase,
    space-free node labels, relationship label and node names; and when [add]
    returns, the returned list is, in order, the (source name, relationship
    label, destination name) of exactly those statements.  Lowercase is
    [is_lowercase]: the text is what [str.lower] makes of it, over all of
    Unicode. *)
Theorem add_writes_normalized (D : Driver)
        (llm : llm_request -> result pyval) (embed : pyval -> result pyval)
        (self : MemoryGraph) (data filters : pyval) (w : world D) r w' :
  add llm embed self data filters w = (r, w') ->
  exists tr, w_trace w' = (w_trace w ++ tr)%list
    /\ forallb statement_normalized (queries_of tr) = true
    /\ (forall ret, r = Ok ret -> ret = flat_map triple_written (queries_of tr)).
Proof.
  unfold add. intros H.
  destruct (bind_inv _ _ _ H) as [(items & w1 & H1 & H2) | (e & H1 & ->)];
    destruct (decisions_calls _ _ _ _ _ _ H1) as (t1 & E1 & F1);
    destruct (not_merge_queries F1) as [N1 T1].
  2:{ exists t1. repeat split; auto. discriminate. }
  destruct (bind_inv _ _ _ H2) as [(tba & w2 & H3 & H4) | (e & H3 & ->)];
    destruct (apply_decisions_calls _ _ _ _ H3) as (t2 & E2 & F2);
    destruct (not_merge_queries F2) as [N2 T2].
  2:{ exists (t1 ++ t2)%list. rewrite E2, E1, app_assoc. split; [reflexivity|].
      rewrite queries_of_app, forallb_app, N1, N2. split; [reflexivity|discriminate]. }
  destruct (bind_inv _ _ _ H4) as [(out & w3 & H5 & H6) | (e & H5 & ->)];
    destruct (write_additions_spec _ _ _ _ _ _ H5) as (t3 & E3 & N3 & R3).
  2:{ exists (t1 ++ t2 ++ t3)%list. rewrite E3, E2, E1. rewrite !app_assoc.
      split; [reflexivity|].
      rewrite !queries_of_app, !forallb_app, N1, N2, N3. split; [reflexivity|discriminate]. }
  unfold bind, log, emit, ret in H6. inversion H6; subst. simpl.
  exists (t1 ++ t2 ++ t3 ++ [EvLog (LogAdded (List.length tba))])%list.
  rewrite E3, E2, E1. rewrite !app_assoc. split; [reflexivity|].
  rewrite !queries_of_app, !forallb_app, N1, N2, N3. simpl. split; [reflexivity|].
  intros ret Hret. inversion Hret; subst.
  rewrite (R3 _ eq_refl). rewrite !flat_map_app, T1, T2. simpl.
  rewrite app_nil_r. reflexivity.
Qed.

Lemma add_writes_normalized_witness :
  let llm := Sample.scripted Sample.entities_alice_acme Sample.no_relations
               Sample.mixed_updates in
  let w := Sample.start (RefStore.neo4j Sample.no_similar) RefStore.empty_graph in
  let run := add llm Sample.embed_const (Sample.config "neo4j") (PStr "hi") Sample.u1 w in
  map fst (filter (fun qp => is_merge (fst qp)) (queries_of (w_trace (snd run))))
  = [MergeTriple "person" "works_at" "organization"; MergeTriple "person" "knows" "person"]
  /\ exists tr, w_trace (snd run) = (w_trace w ++ tr)%list
       /\ forallb statement_normalized (queries_of tr) = true
       /\ (forall ret, fst run = Ok ret -> ret = flat_map triple_written (queries_of tr)).
Proof.
  intros llm w run. split; [reflexivity|].
  apply (@add_writes_normalized (RefStore.neo4j Sample.no_similar) llm Sample.embed_const
           (Sample.config "neo4j") (PStr "hi") Sample.u1 w (fst run) (snd run)).
  apply surjective_pairing.
Defined.

(* ----------------------------------------------------------------- *)
(** ** [add]: a failed update *)

Lemma update_tag_is_not_addition (name : pyval) :
  eq_str name "update_graph_memory" = true -> eq_str name "add_graph_memory" = false.
Proof.
  destruct name; simpl; try discriminate.
  intros H. apply String.eqb_eq in H. subst. reflexivity.
Qed.

(** An update whose edge-creation statement returns no row raises, in the
    world that statement left. *)
Lemma update_without_row_raises (D : Driver) (self : MemoryGraph)
      (source target filters user_id : pyval) (rel : string)
      (w : world D) r1 w1 r2 w2 w3 :
  getkey filters "user_id" = Ok user_id ->
  let ps := update_params source target user_id in
  graph_query self CheckAndCreate ps
    (extend w (w_store w) [EvLog (LogUpdating source (PStr rel) target)]) = (Ok r1, w1) ->
  graph_query self DeleteRel ps w1 = (Ok r2, w2) ->
  graph_query self (CreateRel (normalize rel)) ps w2 = (Ok [], w3) ->
  _update_relationship self source target (PStr rel) filters w
  = (Err (FailedUpdate source target), w3).
Proof.
  intros Hu ps G1 G2 G3. unfold _update_relationship.
  rewrite bind_log. cbn [py_normalize lift]. rewrite bind_ret, Hu.
  cbn [lift]. rewrite bind_ret. fold ps.
  rewrite (bind_ok _ _ _ G1), bind_ret, (bind_ok _ _ _ G2), bind_ret, (bind_ok _ _ _ G3).
  reflexivity.
Qed.

(** C3. When the edge-creation statement of an update decision returns no
    row, [add] raises the update failure, and the world it leaves is the one
    that statement left: the store is the one the statement returned, and the
    trace is the calls made earlier in this [add] (retrieval and the decisions
    processed before) followed by the node merge, the edge deletion and the
    edge creation of this update; nothing is sent afterwards, nothing undone. *)
Theorem failed_update_aborts_add (D : Driver)
        (llm : llm_request -> result pyval) (embed : pyval -> result pyval)
        (self : MemoryGraph) (data filters : pyval) (w : world D)
        (pre post : list pyval) (item : pyval) (w0 : world D)
        (to_be_added : list pyval) (w1 : world D)
        (name args source destination user_id : pyval) (rel : string)
        (r2 : list pyval) (w2 : world D) (r3 : list pyval) (w3 w4 : world D) :
  decisions llm embed self data filters w = (Ok (pre ++ item :: post)%list, w0) ->
  apply_decisions self filters pre w0 = (Ok to_be_added, w1) ->
  getkey item "name" = Ok name ->
  eq_str name "update_graph_memory" = true ->
  getkey item "arguments" = Ok args ->
  getkey args "source" = Ok source ->
  getkey args "destination" = Ok destination ->
  getkey args "relationship" = Ok (PStr rel) ->
  getkey filters "user_id" = Ok user_id ->
  let ps := update_params source destination user_id in
  graph_query self CheckAndCreate ps
    (extend w1 (w_store w1) [EvLog (LogUpdating source (PStr rel) destination)])
  = (Ok r2, w2) ->
  graph_query self DeleteRel ps w2 = (Ok r3, w3) ->
  graph_query self (CreateRel (normalize rel)) ps w3 = (Ok [], w4) ->
  add llm embed self data filters w = (Err (FailedUpdate source destination), w4)
  /\ exists earlier last,
       w_trace w1 = (w_trace w ++ earlier)%list
       /\ w_trace w4 = (w_trace w ++ earlier ++ last)%list
       /\ queries_of last
          = [(CheckAndCreate, ps); (DeleteRel, ps); (CreateRel (normalize rel), ps)].
Proof.
  intros Hd Hpre Hn Hupd Ha Hs Hdst Hr Hu ps G1 G2 G3.
  split.
  2:{ destruct (decisions_calls _ _ _ _ _ _ Hd) as (t0 & E0 & _).
      destruct (apply_decisions_calls _ _ _ _ Hpre) as (t1 & E1 & _).
      destruct (graph_query_calls _ _ _ _ G1) as (g1 & X1 & _ & Q1).
      destruct (graph_query_calls _ _ _ _ G2) as (g2 & X2 & _ & Q2).
      destruct (graph_query_calls _ _ _ _ G3) as (g3 & X3 & _ & Q3).
      simpl in X1.
      exists (t0 ++ t1)%list,
             (EvLog (LogUpdating source (PStr rel) destination) :: g1 ++ g2 ++ g3)%list.
      split; [rewrite E1, E0, app_assoc; reflexivity|]. split.
      - rewrite X3, X2, X1, E1, E0. repeat rewrite <- app_assoc. reflexivity.
      - change (queries_of (EvLog (LogUpdating source (PStr rel) destination)
                              :: g1 ++ g2 ++ g3))
          with (queries_of (g1 ++ g2 ++ g3)).
        rewrite !queries_of_app, (Q1 _ eq_refl), (Q2 _ eq_refl), (Q3 _ eq_refl).
        reflexivity. }
  pose proof (update_without_row_raises self source destination filters rel w1 Hu G1 G2 G3)
    as Hfail.
  unfold add. rewrite (bind_ok _ _ _ Hd).
  apply bind_err. unfold apply_decisions. rewrite for_each_app.
  unfold apply_decisions in Hpre. rewrite (bind_ok _ _ _ Hpre).
  simpl. apply bind_err. unfold apply_decision.
  rewrite Hn. cbn [lift]. rewrite bind_ret.
  rewrite (update_tag_is_not_addition _ Hupd), Hupd.
  rewrite Ha. cbn [lift]. rewrite bind_ret.
  rewrite Hs. cbn [lift]. rewrite bind_ret.
  rewrite Hdst. cbn [lift]. rewrite bind_ret.
  rewrite Hr. cbn [lift]. rewrite bind_ret.
  apply bind_err. exact Hfail.
Qed.

Lemma failed_update_aborts_add_witness :
  let llm := Sample.scripted Sample.no_relations Sample.no_relations Sample.two_updates in
  let self := Sample.config "neo4j" in
  let run := add llm Sample.embed_const self (PStr "hi") Sample.u1
               (Sample.start Sample.flaky []) in
  let ps1 := update_params (PStr "Alice Smith") (PStr "New York") (PStr "u1") in
  let ps2 := update_params (PStr "Bob Jones") (PStr "Paris") (PStr "u1") in
  fst run = Err (FailedUpdate (PStr "Bob Jones") (PStr "Paris"))
  /\ w_store (snd run)
     = [(CheckAndCreate, ps1); (DeleteRel, ps1); (CreateRel "lives_in", ps1);
        (CheckAndCreate, ps2); (DeleteRel, ps2); (CreateRel "lives_in", ps2)].
Proof.
  intros llm self run ps1 ps2.
  pose (w := Sample.start Sample.flaky []).
  pose (w0 := snd (decisions llm Sample.embed_const self (PStr "hi") Sample.u1 w)).
  pose (w1 := snd (apply_decisions self Sample.u1 Sample.decisions_before_bob w0)).
  pose (w2 := snd (graph_query self CheckAndCreate ps2
                     (extend w1 (w_store w1)
                        [EvLog (LogUpdating (PStr "Bob Jones") (PStr "Lives In")
                                  (PStr "Paris"))]))).
  pose (w3 := snd (graph_query self DeleteRel ps2 w2)).
  pose (w4 := snd (graph_query self (CreateRel (normalize "Lives In")) ps2 w3)).
  assert (H : run = (Err (FailedUpdate (PStr "Bob Jones") (PStr "Paris")), w4)).
  { refine (proj1 (@failed_update_aborts_add Sample.flaky llm Sample.embed_const self (PStr "hi")
             Sample.u1 w Sample.decisions_before_bob [] Sample.update_bob w0
             [Sample.relation "u1" "Person" "Works At" "Acme Corp" "Organization"] w1
             (PStr "update_graph_memory")
             (PDict [("source", PStr "Bob Jones"); ("destination", PStr "Paris");
                     ("relationship", PStr "Lives In")])
             (PStr "Bob Jones") (PStr "Paris") (PStr "u1") "Lives In" [] w2 [] w3 w4
             _ _ _ _ _ _ _ _ _ _ _ _)); reflexivity. }
  rewrite H. split; reflexivity.
Defined.

(* ================================================================= *)
(** * Further properties of the methods *)

(* ----------------------------------------------------------------- *)
(** ** Filters without [user_id] *)

(** X1. When [filters] has no usable [user_id] (the lookup raises [e]), each
    public operation raises [e] at once: no collaborator has been called and
    the store is as it was. *)
Theorem missing_user_id_raises_first (D : Driver) (R : Reranker)
        (llm : llm_request -> result pyval) (embed : pyval -> result pyval)
        (self : MemoryGraph) (data filters limit : pyval) (w : world D) (e : exn) :
  getkey filters "user_id" = Err e ->
  add llm embed self data filters w = (Err e, w)
  /\ search R llm embed self data filters limit w = (Err e, w)
  /\ get_all self filters limit w = (Err e, w)
  /\ delete_all self filters w = (Err e, w).
Proof.
  intros H.
  assert (Hs : forall lim, _search llm embed self data filters lim w = (Err e, w)).
  { intros lim. unfold _search. rewrite H. reflexivity. }
  repeat split.
  - unfold add, decisions. rewrite (bind_err _ _ _ (bind_err _ _ _ (Hs default_limit))).
    reflexivity.
  - unfold search. rewrite (bind_err _ _ _ (Hs limit)). reflexivity.
  - unfold get_all. rewrite H. reflexivity.
  - unfold delete_all. rewrite H. reflexivity.
Qed.

Lemma missing_user_id_raises_first_witness :
  let w := Sample.start (RefStore.neo4j Sample.no_similar) Sample.two_edges in
  let llm := Sample.scripted Sample.entities_alice_acme Sample.no_relations
               Sample.mixed_updates in
  add llm Sample.embed_const (Sample.config "neo4j") (PStr "hi") (PDict []) w
  = (Err (KeyError (PStr "user_id")), w)
  /\ delete_all (Sample.config "neo4j") (PDict [("agent_id", PStr "a1")]) w
     = (Err (KeyError (PStr "user_id")), w).
Proof.
  intros w llm. split.
  - exact (proj1 (@missing_user_id_raises_first (RefStore.neo4j Sample.no_similar)
                    Sample.in_order llm Sample.embed_const (Sample.config "neo4j")
                    (PStr "hi") (PDict []) default_limit w (KeyError (PStr "user_id"))
                    eq_refl)).
  - exact (proj2 (proj2 (proj2
             (@missing_user_id_raises_first (RefStore.neo4j Sample.no_similar)
                Sample.in_order llm Sample.embed_const (Sample.config "neo4j")
                (PStr "hi") (PDict [("agent_id", PStr "a1")]) default_limit w
                (KeyError (PStr "user_id")) eq_refl)))).
Defined.

(* ----------------------------------------------------------------- *)
(** ** [_extract_relations] *)

(** X2. A relation-extraction response without tool calls is not an error:
    [_extract_relations] returns the empty list, having made one LLM request
    and written one log record, the store untouched. *)
Theorem extract_relations_without_tool_calls (D : Driver)
        (llm : llm_request -> result pyval) (self : MemoryGraph)
        (data filters : pyval) (m : pydict) (w : world D)
        (uid : string) (resp calls : pyval) :
  getkey filters "user_id" = Ok (PStr uid) ->
  llm (relations_request self uid m data) = Ok resp ->
  getkey resp "tool_calls" = Ok calls ->
  truthy calls = false ->
  _extract_relations llm self data filters m w
  = (Ok (PList []),
     extend w (w_store w)
       [EvLLM (relations_request self uid m data); EvLog (LogExtracted (PList []))]).
Proof.
  intros Hu Hllm Hc Ht. unfold _extract_relations, relations_request in *.
  rewrite Hu. cbn [lift as_str]. rewrite !bind_ret.
  unfold call_llm, bind, emit, lift, log, ret, extend. simpl.
  rewrite Hllm. simpl. rewrite Hc. simpl. rewrite Ht. simpl.
  rewrite <- app_assoc. reflexivity.
Qed.

Lemma extract_relations_without_tool_calls_witness :
  _extract_relations (Sample.scripted Sample.entities_alice_acme Sample.no_relations
                        Sample.mixed_updates)
    (Sample.config "neo4j") (PStr "hi") Sample.u1 [(PStr "Acme", PStr "organization")]
    (Sample.start Sample.journal [])
  = (Ok (PList []),
     Sample.after Sample.journal []
       [EvLLM (ExtractRelationsPlain true "u1" [PStr "Acme"] (PStr "hi"));
        EvLog (LogExtracted (PList []))]).
Proof.
  exact (@extract_relations_without_tool_calls Sample.journal
           (Sample.scripted Sample.entities_alice_acme Sample.no_relations
              Sample.mixed_updates)
           (Sample.config "neo4j") (PStr "hi") Sample.u1
           [(PStr "Acme", PStr "organization")] (Sample.start Sample.journal [])
           "u1" Sample.no_relations (PList []) eq_refl eq_refl eq_refl eq_refl).
Defined.

(* ----------------------------------------------------------------- *)
(** ** The entity-type map *)

Lemma dict_set_forall_keys (Q : pyval -> bool) (k v : pyval) (d : pydict) :
  forallb (fun kv => Q (fst kv)) d = true -> Q k = true ->
  forallb (fun kv => Q (fst kv)) (dict_set k v d) = true.
Proof.
  intros Hd Hk. induction d as [|[k' v'] d IH]; simpl in *.
  - rewrite Hk. reflexivity.
  - apply andb_true_iff in Hd as [H1 H2].
    destruct (key_eqb k k'); simpl; rewrite H1; auto.
Qed.

Lemma dict_set_keeps_distinct (k v : pyval) (d : pydict) :
  keys_distinct d = true -> keys_distinct (dict_set k v d) = true.
Proof.
  induction d as [|[k' v'] d IH]; simpl; [reflexivity|].
  intros H. apply andb_true_iff in H as [H1 H2].
  destruct (key_eqb k k') eqn:E; simpl.
  - rewrite H1, H2. reflexivity.
  - rewrite (IH H2), andb_true_r.
    apply (dict_set_forall_keys (fun x => negb (key_eqb x k'))); [assumption|].
    rewrite E. reflexivity.
Qed.

Lemma dict_set_length (k v : pyval) (d : pydict) :
  (List.length (dict_set k v d) <= S (List.length d))%nat.
Proof.
  induction d as [|[k' v'] d IH]; simpl; [lia|].
  destruct (key_eqb k k'); simpl; lia.
Qed.

Lemma record_entity_keeps (m m' : pydict) (item : pyval) :
  record_entity m item = Ok m' ->
  (keys_distinct m = true -> keys_distinct m' = true)
  /\ (List.length m' <= S (List.length m))%nat.
Proof.
  unfold record_entity, setitem.
  destruct (getkey item "entity_type") as [ty|]; [|discriminate].
  destruct (getkey item "entity") as [name|]; [|discriminate].
  destruct (hashable name); [|discriminate].
  intros H; inversion H; subst. split.
  - apply dict_set_keeps_distinct.
  - apply dict_set_length.
Qed.

Lemma record_entities_keeps (items : list pyval) :
  forall m, keys_distinct m = true ->
    keys_distinct (fst (record_entities items m)) = true
    /\ (List.length (fst (record_entities items m)) <= List.length m + List.length items)%nat.
Proof.
  induction items as [|item items IH]; intros m Hm; simpl.
  - split; [assumption|lia].
  - destruct (record_entity m item) as [m'|e] eqn:E; simpl.
    + destruct (record_entity_keeps _ _ E) as [Hk Hl].
      destruct (IH m' (Hk Hm)) as [H1 H2]. split; [assumption|lia].
    + split; [assumption|lia].
Qed.

(** X3. Whatever the entity-extraction response, the keys of the entity-type
    map are pairwise different (an entity named twice is kept once), and the
    map has no more entries than the response lists entities; so retrieval
    embeds and queries each entity name at most once. *)
Theorem entity_type_map_keys_distinct (resp : pyval) :
  keys_distinct (fst (extract_entity_type_map resp)) = true
  /\ forall items, entity_items resp = Ok items ->
       (List.length (dict_keys (fst (extract_entity_type_map resp))) <= List.length items)%nat.
Proof.
  unfold extract_entity_type_map, dict_keys.
  destruct (entity_items resp) as [items|e]; simpl.
  - destruct (record_entities_keeps items [] eq_refl) as [H1 H2]. split; [assumption|].
    intros items' H; inversion H; subst. rewrite length_map. simpl in H2. exact H2.
  - split; [reflexivity|discriminate].
Qed.

Lemma entity_type_map_keys_distinct_witness :
  fst (extract_entity_type_map Sample.entities_duplicate)
  = [(PStr "u1", PStr "user"); (PStr "Acme", PStr "organization")]
  /\ keys_distinct (fst (extract_entity_type_map Sample.entities_duplicate)) = true
  /\ (List.length (dict_keys (fst (extract_entity_type_map Sample.entities_duplicate)))
      <= 3)%nat.
Proof.
  split; [reflexivity|]. split.
  - exact (proj1 (entity_type_map_keys_distinct Sample.entities_duplicate)).
  - exact (proj2 (entity_type_map_keys_distinct Sample.entities_duplicate)
             [Sample.entity "u1" "person"; Sample.entity "Acme" "organization";
              Sample.entity "u1" "user"] eq_refl).
Defined.

(* ----------------------------------------------------------------- *)
(** ** Normalisation *)

Lemma str_map_length (f : ascii -> ascii) (s : string) :
  String.length (str_map f s) = String.length s.
Proof.
  induction s as [|c s IH]; simpl; [reflexivity|]. now rewrite IH.
Qed.

Lemma bytes_length (s : string) : List.length (bytes s) = String.length s.
Proof.
  induction s as [|c s IH]; simpl; [reflexivity|]. now rewrite IH.
Qed.

Lemma normalize_ascii (s : string) : is_ascii s = true -> is_ascii (normalize s) = true.
Proof.
  intros H. rewrite normalize_pointwise by exact H.
  unfold is_ascii in *.
  induction s as [|c s IH]; [reflexivity|].
  cbn [str_map str_forall] in *. apply andb_prop in H. destruct H as [Hc Hs].
  rewrite IH by exact Hs. rewrite andb_true_r. revert Hc.
  destruct c as [[] [] [] [] [] [] [] []]; intros Hc;
    try (vm_compute in Hc; discriminate Hc); reflexivity.
Qed.

(** X4. The normalisation applied to names and labels is idempotent: a name
    that [add] returned is normalised to itself when it comes back in a later
    decision.  On ASCII text it keeps the length, in bytes and in characters;
    beyond ASCII a lowercase form may be longer or shorter. *)
Theorem normalize_idempotent (s : string) :
  normalize (normalize s) = normalize s
  /\ (is_ascii s = true ->
      String.length (normalize s) = String.length s
      /\ List.length (codepoints (normalize s)) = List.length (codepoints s)).
Proof.
  split.
  - pose proof (normalize_is_normalized s) as H.
    unfold is_normalized in H. apply andb_prop in H. destruct H as [Hl Hs].
    unfold is_lowercase in Hl. apply String.eqb_eq in Hl.
    unfold normalize at 1. rewrite Hl. apply replace_space_fixed, Hs.
  - intros H.
    assert (Hlen : String.length (normalize s) = String.length s)
      by (rewrite normalize_pointwise by exact H; apply str_map_length).
    split; [exact Hlen|].
    rewrite !ascii_codepoints by (exact H || apply normalize_ascii, H).
    rewrite !bytes_length. exact Hlen.
Qed.

Lemma normalize_idempotent_witness :
  is_ascii "Alice Smith" = true
  /\ normalize "Alice Smith" = "alice_smith"
  /\ normalize (normalize "Alice Smith") = normalize "Alice Smith"
  /\ String.length (normalize "Alice Smith") = String.length "Alice Smith"
  /\ List.length (codepoints (normalize "Alice Smith")) = List.length (codepoints "Alice Smith").
Proof.
  split; [reflexivity|]. split; [reflexivity|].
  destruct (normalize_idempotent "Alice Smith") as [H1 H2].
  split; [exact H1|]. exact (H2 eq_refl).
Defined.

(** U+0130 has a lowercase form of two code points, U+212A one of a single byte. *)
Example normalize_changes_length :
  codepoints (normalize (text [304]%N)) = [105; 775]%N
  /\ String.length (text [8490]%N) = 3%nat
  /\ normalize (text [8490]%N) = "k".
Proof. repeat split; vm_compute; reflexivity. Qed.

(* ----------------------------------------------------------------- *)
(** ** The statements of [_search] and [search] *)

Lemma queries_of_Forall (P : event -> Prop) (Q : cypher * params -> Prop) (tr : list event) :
  (forall q ps, P (EvQuery q ps) -> Q (q, ps)) ->
  Forall P tr -> Forall Q (queries_of tr).
Proof.
  intros HPQ. induction 1 as [|ev tr Hev _ IH]; simpl; [constructor|].
  destruct ev; simpl; auto.
Qed.

Section RetrievalFacts.

Variable D : Driver.
Variable R : Reranker.
Variable llm : llm_request -> result pyval.
Variable embed : pyval -> result pyval.
Variable self : MemoryGraph.

Lemma call_index_emits (P : event -> Prop) (corpus : list (list pyval)) :
  P (EvIndex corpus) -> emits (D:=D) P (call_index R corpus).
Proof.
  intros HP. unfold call_index. apply emits_bind; [apply emits_emit; exact HP|].
  intros _; apply emits_lift.
Qed.

Lemma get_top_n_emits (P : event -> Prop) idx (query : list string) documents n :
  P (EvRank query) -> emits (D:=D) P (get_top_n R idx query documents n).
Proof.
  intros HP. unfold get_top_n, call_ranking.
  apply emits_bind; [|intros; apply emits_lift].
  apply emits_bind; [apply emits_emit; exact HP|]. intros _; apply emits_lift.
Qed.

Lemma _search_statements (query filters limit user_id : pyval) :
  getkey filters "user_id" = Ok user_id ->
  emits (D:=D)
        (fun ev => match ev with
                   | EvQuery q ps => similarity_statement self user_id limit (q, ps)
                   | _ => True
                   end)
        (_search llm embed self query filters limit).
Proof.
  intros Hu. unfold _search.
  apply emits_bind; [apply emits_lift|]; intros uid0.
  apply emits_bind; [apply call_llm_emits; exact I|].
  intros resp. destruct (extract_entity_type_map resp) as [m failure].
  apply emits_bind.
  { destruct failure; [apply emits_emit; exact I | apply emits_ret]. }
  intros _. apply emits_bind; [apply emits_emit; exact I|].
  intros _. apply emits_bind; [|intros; apply emits_ret].
  unfold retrieve. apply emits_for_each. intros acc node. unfold retrieve_node.
  apply emits_bind.
  { unfold call_embed. apply emits_bind; [apply emits_emit; exact I|].
    intros _; apply emits_lift. }
  intros emb. apply emits_bind_lift. intros q Hq.
  apply emits_bind_lift. intros uid Huid.
  apply emits_bind; [|intros; apply emits_ret].
  apply graph_query_emits; [|intros; exact I].
  split; [exact Hq|]. exists emb. rewrite Hu in Huid. inversion Huid. reflexivity.
Qed.

(** One statement per entity, in the order of the keys. *)
Lemma retrieve_statements (filters limit user_id : pyval) (keys : list pyval) :
  getkey filters "user_id" = Ok user_id ->
  forall (acc : list pyval) (w : world D) rows w',
    for_each keys (retrieve_node embed self filters limit) acc w = (Ok rows, w') ->
    exists tr, w_trace w' = (w_trace w ++ tr)%list
      /\ Forall2 (fun node qp =>
                    similarity_query self = Ok (fst qp)
                    /\ exists e, embed node = Ok e
                                 /\ snd qp = similarity_params self e user_id limit)
                 keys (queries_of tr).
Proof.
  intros Hu. induction keys as [|node keys IH]; intros acc w rows w' H; simpl in H.
  - inversion H; subst. exists []. rewrite app_nil_r. split; [reflexivity|constructor].
  - destruct (bind_inv _ _ _ H) as [(acc1 & w1 & H1 & H2) | (e & _ & He)]; [|discriminate].
    destruct (IH _ _ _ _ H2) as (t2 & E2 & F2).
    unfold retrieve_node in H1.
    destruct (bind_inv _ _ _ H1) as [(emb & w2 & X1 & H3) | (e & _ & He)]; [|discriminate].
    apply call_embed_inv in X1 as [Hemb ->].
    destruct (bind_inv _ _ _ H3) as [(q & w3 & X2 & H4) | (e & _ & He)]; [|discriminate].
    apply lift_inv in X2 as [Hq ->].
    rewrite Hu in H4. cbn [lift] in H4. rewrite bind_ret in H4.
    destruct (bind_inv _ _ _ H4) as [(ans & w4 & G & H5) | (e & _ & He)]; [|discriminate].
    inversion H5; subst.
    destruct (graph_query_calls _ _ _ _ G) as (tg & Eg & _ & Qg). simpl in Eg.
    exists (EvEmbed node :: tg ++ t2)%list. split.
    + rewrite E2, Eg. repeat rewrite <- app_assoc. reflexivity.
    + change (queries_of (EvEmbed node :: tg ++ t2)) with (queries_of (tg ++ t2)).
      rewrite queries_of_app, (Qg _ eq_refl). simpl. constructor; [|assumption].
      simpl. split; [congruence|]. exists emb. split; [congruence|reflexivity].
Qed.

End RetrievalFacts.

(** X5. [search] only ever sends the similarity statement of the configured
    provider, each time with the caller's [user_id] and [limit] and the fixed
    threshold: it sends no statement that writes, whatever its outcome. *)
Theorem search_sends_similarity_only (D : Driver) (R : Reranker)
        (llm : llm_request -> result pyval) (embed : pyval -> result pyval)
        (self : MemoryGraph) (query filters limit user_id : pyval) (w : world D) r w' :
  getkey filters "user_id" = Ok user_id ->
  search R llm embed self query filters limit w = (r, w') ->
  exists tr, w_trace w' = (w_trace w ++ tr)%list
    /\ Forall (similarity_statement self user_id limit) (queries_of tr).
Proof.
  intros Hu H.
  assert (He : emits (D:=D)
                 (fun ev => match ev with
                            | EvQuery q ps => similarity_statement self user_id limit (q, ps)
                            | _ => True
                            end)
                 (search R llm embed self query filters limit)).
  { unfold search. apply emits_bind; [apply _search_statements; exact Hu|].
    intros out. destruct (fst out); [apply emits_ret|].
    apply emits_bind; [apply emits_lift|]. intros docs.
    apply emits_bind; [apply call_index_emits; exact I|]. intros idx.
    apply emits_bind; [apply emits_lift|]. intros toks.
    apply emits_bind; [apply get_top_n_emits; exact I|]. intros top.
    apply emits_bind; [apply emits_lift|]. intros res.
    apply emits_bind; [apply emits_emit; exact I|]. intros _; apply emits_ret. }
  destruct (He _ _ _ H) as (tr & E & F). exists tr. split; [assumption|].
  eapply queries_of_Forall; [|exact F]. intros q ps HP; exact HP.
Qed.

Lemma search_sends_similarity_only_witness :
  let llm := Sample.scripted Sample.entities_alice_acme Sample.no_relations
               Sample.no_relations in
  let w := Sample.start (Sample.canned Sample.four_rows) tt in
  let run := search Sample.in_order llm Sample.embed_const (Sample.config "falkordb")
               (PStr "who knows bob") Sample.u1 (PInt 7) w in
  map fst (queries_of (w_trace (snd run))) = [SimilarityFalkor; SimilarityFalkor]
  /\ exists tr, w_trace (snd run) = (w_trace w ++ tr)%list
       /\ Forall (similarity_statement (Sample.config "falkordb") (PStr "u1") (PInt 7))
                 (queries_of tr).
Proof.
  intros llm w run. split; [reflexivity|].
  apply (@search_sends_similarity_only (Sample.canned Sample.four_rows) Sample.in_order llm
           Sample.embed_const (Sample.config "falkordb") (PStr "who knows bob") Sample.u1
           (PInt 7) (PStr "u1") w (fst run) (snd run) eq_refl).
  apply surjective_pairing.
Defined.

(** X6. When [_search] returns, it has sent exactly one similarity statement
    per key of the entity-type map it returns, in key order, each with the
    embedding of that key; and that map is the one extracted from the LLM's
    response. *)
Theorem search_one_statement_per_entity (D : Driver)
        (llm : llm_request -> result pyval) (embed : pyval -> result pyval)
        (self : MemoryGraph) (query filters limit user_id : pyval) (w : world D)
        (rows : list pyval) (m : pydict) (w' : world D) :
  getkey filters "user_id" = Ok user_id ->
  _search llm embed self query filters limit w = (Ok (rows, m), w') ->
  (exists resp, llm (ExtractEntities (structured self) user_id query) = Ok resp
                /\ m = fst (extract_entity_type_map resp))
  /\ exists tr, w_trace w' = (w_trace w ++ tr)%list
       /\ Forall2 (fun node qp =>
                     similarity_query self = Ok (fst qp)
                     /\ exists e, embed node = Ok e
                                  /\ snd qp = similarity_params self e user_id limit)
                  (dict_keys m) (queries_of tr).
Proof.
  intros Hu H.
  destruct (llm (ExtractEntities (structured self) user_id query)) as [resp|e] eqn:Hllm.
  2:{ unfold _search in H. rewrite Hu in H. cbn [lift] in H. rewrite bind_ret in H.
      unfold call_llm, bind, emit, lift, raise in H. simpl in H. rewrite Hllm in H.
      discriminate. }
  destruct (extract_entity_type_map resp) as [m0 failure] eqn:Hext.
  rewrite (search_reaches_retrieval _ _ _ _ _ _ _ Hu Hllm Hext) in H.
  destruct (bind_inv _ _ _ H) as [(rr & w1 & Hr & H1) | (e & _ & He)]; [|discriminate].
  inversion H1; subst.
  split; [exists resp; rewrite Hext; auto|].
  unfold retrieve in Hr. eapply retrieve_statements in Hr; [|exact Hu].
  destruct Hr as (t & E & F). simpl in E.
  eexists. split; [rewrite E, <- app_assoc; reflexivity|].
  rewrite queries_of_app.
  replace (queries_of (EvLLM (ExtractEntities (structured self) user_id query)
                         :: match failure with
                            | Some e => [EvLog (LogSearchToolError e)]
                            | None => []
                            end ++ [EvLog (LogEntityTypeMap m)])) with (@nil (cypher * params)).
  - exact F.
  - destruct failure; reflexivity.
Qed.

Lemma search_one_statement_per_entity_witness :
  let llm := Sample.scripted Sample.entities_alice_acme Sample.no_relations
               Sample.no_relations in
  let w := Sample.start (Sample.canned Sample.four_rows) tt in
  let run := _search llm Sample.embed_const (Sample.config "falkordb")
               (PStr "who knows bob") Sample.u1 (PInt 7) w in
  dict_keys (snd match fst run with Ok out => out | Err _ => ([], []) end)
  = [PStr "u1"; PStr "Acme"]
  /\ exists tr, w_trace (snd run) = (w_trace w ++ tr)%list
       /\ Forall2 (fun node qp =>
                     similarity_query (Sample.config "falkordb") = Ok (fst qp)
                     /\ exists e, Sample.embed_const node = Ok e
                                  /\ snd qp = similarity_params (Sample.config "falkordb") e
                                                (PStr "u1") (PInt 7))
                  [PStr "u1"; PStr "Acme"] (queries_of tr).
Proof.
  intros llm w run. split; [reflexivity|].
  refine (proj2 (@search_one_statement_per_entity (Sample.canned Sample.four_rows) llm
                   Sample.embed_const (Sample.config "falkordb") (PStr "who knows bob")
                   Sample.u1 (PInt 7) (PStr "u1") w
                   (Sample.four_rows ++ Sample.four_rows)%list
                   [(PStr "u1", PStr "person"); (PStr "Acme", PStr "organization")]
                   (snd run) eq_refl _)).
  assert (Hf : fst run = Ok ((Sample.four_rows ++ Sample.four_rows)%list,
                             [(PStr "u1", PStr "person");
                              (PStr "Acme", PStr "organization")])) by reflexivity.
  change (run = (Ok ((Sample.four_rows ++ Sample.four_rows)%list,
                     [(PStr "u1", PStr "person"); (PStr "Acme", PStr "organization")]),
                 snd run)).
  rewrite <- Hf. apply surjective_pairing.
Defined.

(* ----------------------------------------------------------------- *)
(** ** Where results come from *)

Lemma map_result_Forall2 {A B} (f : A -> result B) (l : list A) (l' : list B) :
  map_result f l = Ok l' -> Forall2 (fun x y => f x = Ok y) l l'.
Proof.
  revert l'. induction l as [|x l IH]; intros l'; simpl.
  - intros H; inversion H; constructor.
  - destruct (f x) as [y|] eqn:E; [|discriminate].
    destruct (map_result f l) as [ys|]; [|discriminate].
    intros H; inversion H; subst. constructor; auto.
Qed.

Lemma Forall2_In_right {A B} (P : A -> B -> Prop) (l : list A) (l' : list B) (y : B) :
  Forall2 P l l' -> In y l' -> exists x, In x l /\ P x y.
Proof.
  induction 1 as [|x y0 l l' Hxy _ IH]; simpl; [contradiction|].
  intros [->|Hin].
  - exists x; auto.
  - destruct (IH Hin) as (x' & Hx' & HP). exists x'; auto.
Qed.

Lemma candidate_tokens_inv (row : pyval) (d : list pyval) :
  candidate_tokens row = Ok d ->
  exists a b c, getidx row 0 = Ok a /\ getidx row 2 = Ok b /\ getidx row 4 = Ok c
                /\ d = [a; b; c].
Proof.
  unfold candidate_tokens.
  destruct (getidx row 0) as [a|]; [|discriminate].
  destruct (getidx row 2) as [b|]; [|discriminate].
  destruct (getidx row 4) as [c|]; [|discriminate].
  intros H; inversion H. exists a, b, c. auto.
Qed.

Lemma triple_of_row_inv (row t : pyval) :
  triple_of_row row = Ok t ->
  exists a b c, getidx row 0 = Ok a /\ getidx row 1 = Ok b /\ getidx row 2 = Ok c
                /\ t = triple a b c.
Proof.
  unfold triple_of_row.
  destruct (getidx row 0) as [a|]; [|discriminate].
  destruct (getidx row 1) as [b|]; [|discriminate].
  destruct (getidx row 2) as [c|]; [|discriminate].
  intros H; inversion H. exists a, b, c. auto.
Qed.

(** X7. Every triple [search] returns is made of columns 0, 2 and 4 of one of
    the candidate rows that retrieval produced: ranking selects and reorders,
    it never alters or invents a triple. *)
Theorem search_results_are_candidates (D : Driver) (R : Reranker)
        (llm : llm_request -> result pyval) (embed : pyval -> result pyval)
        (self : MemoryGraph) (query filters limit : pyval) (w : world D) res w' :
  search R llm embed self query filters limit w = (Ok res, w') ->
  exists rows m w1,
    _search llm embed self query filters limit w = (Ok (rows, m), w1)
    /\ Forall (fun t => exists row a b c,
                   In row rows
                   /\ getidx row 0 = Ok a /\ getidx row 2 = Ok b /\ getidx row 4 = Ok c
                   /\ t = triple a b c) res.
Proof.
  unfold search. intros H.
  destruct (bind_inv _ _ _ H) as [([rows m] & w1 & Hs & H2) | (e & _ & He)]; [|discriminate].
  exists rows, m, w1. split; [assumption|]. simpl in H2.
  destruct rows as [|r0 rows0] eqn:Hrows.
  { inversion H2; subst. constructor. }
  rewrite <- Hrows in *. clear Hrows.
  destruct (bind_inv _ _ _ H2) as [(docs & w2 & Hd & H3) | (e & _ & He)]; [|discriminate].
  apply lift_inv in Hd as [Hd _]. symmetry in Hd. apply map_result_Forall2 in Hd.
  destruct (bind_inv _ _ _ H3) as [(idx & w3 & _ & H4) | (e & _ & He)]; [|discriminate].
  destruct (bind_inv _ _ _ H4) as [(toks & w4 & _ & H5) | (e & _ & He)]; [|discriminate].
  destruct (bind_inv _ _ _ H5) as [(top & w5 & Htop & H6) | (e & _ & He)]; [|discriminate].
  destruct (bind_inv _ _ _ H6) as [(out & w6 & Hout & H7) | (e & _ & He)]; [|discriminate].
  unfold bind, log, emit, ret in H7. inversion H7; subst.
  apply lift_inv in Hout as [Hout _]. symmetry in Hout. apply map_result_Forall2 in Hout.
  unfold get_top_n in Htop.
  destruct (bind_inv _ _ _ Htop) as [(order & w7 & _ & H8) | (e & _ & He)]; [|discriminate].
  apply lift_inv in H8 as [H8 _]. symmetry in H8. apply map_result_Forall2 in H8.
  apply Forall_forall. intros t Ht.
  destruct (@Forall2_In_right _ _ _ _ _ _ Hout Ht) as (d & Hdin & Hdt).
  destruct (@Forall2_In_right _ _ _ _ _ _ H8 Hdin) as (i & _ & Hi).
  unfold document_at in Hi. destruct (nth_error docs i) as [d'|] eqn:Hn; [|discriminate].
  inversion Hi; subst d'. apply nth_error_In in Hn.
  destruct (@Forall2_In_right _ _ _ _ _ _ Hd Hn) as (row & Hrow & Hc).
  destruct (candidate_tokens_inv _ Hc) as (a & b & c & Ha & Hb & Hcc & ->).
  simpl in Hdt. inversion Hdt. exists row, a, b, c. auto.
Qed.

Lemma search_results_are_candidates_witness :
  let llm := Sample.scripted Sample.entities_alice_acme Sample.no_relations
               Sample.no_relations in
  let w := Sample.start (Sample.canned Sample.four_rows) tt in
  exists rows m w1,
    _search llm Sample.embed_const (Sample.config "falkordb") (PStr "who knows bob")
      Sample.u1 default_limit w = (Ok (rows, m), w1)
    /\ Forall (fun t => exists row a b c,
                   In row rows
                   /\ getidx row 0 = Ok a /\ getidx row 2 = Ok b /\ getidx row 4 = Ok c
                   /\ t = triple a b c)
              (map (fun name => triple (PStr "u1") (PStr "knows") (PStr name))
                   ["alice"; "bob"; "carol"; "dave"; "alice"]).
Proof.
  intros llm w.
  pose (run := search Sample.in_order llm Sample.embed_const (Sample.config "falkordb")
                 (PStr "who knows bob") Sample.u1 default_limit w).
  apply (@search_results_are_candidates (Sample.canned Sample.four_rows) Sample.in_order
           llm Sample.embed_const (Sample.config "falkordb") (PStr "who knows bob")
           Sample.u1 default_limit w _ (snd run)).
  assert (Hf : fst run = Ok (map (fun name => triple (PStr "u1") (PStr "knows") (PStr name))
                                 ["alice"; "bob"; "carol"; "dave"; "alice"]))
    by reflexivity.
  change (run = (Ok (map (fun name => triple (PStr "u1") (PStr "knows") (PStr name))
                         ["alice"; "bob"; "carol"; "dave"; "alice"]), snd run)).
  rewrite <- Hf. apply surjective_pairing.
Defined.

(** X8. When [get_all] returns, it returns one triple per row the store
    answered with, in the same order, made of columns 0, 1 and 2 of that row:
    nothing is dropped, reordered or added. *)
Theorem get_all_one_triple_per_row (D : Driver) (self : MemoryGraph)
        (filters limit user_id : pyval) (w : world D) res w' :
  getkey filters "user_id" = Ok user_id ->
  get_all self filters limit w = (Ok res, w') ->
  exists rows w1,
    graph_query self GetAll [("user_id", user_id)] w = (Ok rows, w1)
    /\ Forall2 (fun row t => exists a b c,
                    getidx row 0 = Ok a /\ getidx row 1 = Ok b /\ getidx row 2 = Ok c
                    /\ t = triple a b c) rows res.
Proof.
  intros Hu H. unfold get_all in H. rewrite Hu in H. cbn [lift] in H.
  rewrite bind_ret in H.
  destruct (bind_inv _ _ _ H) as [(rows & w1 & G & H1) | (e & _ & He)]; [|discriminate].
  destruct (bind_inv _ _ _ H1) as [(fin & w2 & Hf & H2) | (e & _ & He)]; [|discriminate].
  apply lift_inv in Hf as [Hf _]. symmetry in Hf. apply map_result_Forall2 in Hf.
  unfold bind, log, emit, ret in H2. inversion H2; subst.
  exists rows, w1. split; [assumption|].
  eapply Forall2_impl; [|exact Hf]. intros row t Ht. apply triple_of_row_inv; assumption.
Qed.

Lemma get_all_one_triple_per_row_witness :
  let w := Sample.start (Sample.canned Sample.three_rows) tt in
  exists rows w1,
    graph_query (Sample.config "falkordb") GetAll [("user_id", PStr "u1")] w = (Ok rows, w1)
    /\ Forall2 (fun row t => exists a b c,
                    getidx row 0 = Ok a /\ getidx row 1 = Ok b /\ getidx row 2 = Ok c
                    /\ t = triple a b c)
               rows
               (map (fun name => triple (PStr "alice") (PStr "knows") (PStr name))
                    ["bob"; "carol"; "dave"]).
Proof.
  intros w.
  pose (run := get_all (Sample.config "falkordb") Sample.u1 default_limit w).
  apply (@get_all_one_triple_per_row (Sample.canned Sample.three_rows)
           (Sample.config "falkordb") Sample.u1 default_limit (PStr "u1") w _ (snd run)
           eq_refl).
  assert (Hf : fst run = Ok (map (fun name => triple (PStr "alice") (PStr "knows") (PStr name))
                                 ["bob"; "carol"; "dave"])) by reflexivity.
  change (run = (Ok (map (fun name => triple (PStr "alice") (PStr "knows") (PStr name))
                         ["bob"; "carol"; "dave"]), snd run)).
  rewrite <- Hf. apply surjective_pairing.
Defined.

(* ----------------------------------------------------------------- *)
(** ** [add]: the order of its calls *)

Section AddOrder.

Variable D : Driver.
Variable llm : llm_request -> result pyval.
Variable embed : pyval -> result pyval.
Variable self : MemoryGraph.

Lemma call_embed_emits (P : event -> Prop) (text : pyval) :
  P (EvEmbed text) -> emits (D:=D) P (call_embed embed text).
Proof.
  intros HP. unfold call_embed. apply emits_bind; [apply emits_emit; exact HP|].
  intros _; apply emits_lift.
Qed.

(** The first loop calls the graph store (for updates) and the logger only. *)
Lemma apply_decisions_emits (P : event -> Prop) (filters : pyval) (items : list pyval) :
  (forall q ps, is_merge q = false -> P (EvQuery q ps)) ->
  (forall n, P (EvSelect n)) -> (forall r, P (EvLog r)) ->
  emits (D:=D) P (apply_decisions self filters items).
Proof.
  intros HQ HS HL.
  unfold apply_decisions. apply emits_for_each. intros acc item. unfold apply_decision.
  apply emits_bind; [apply emits_lift|]. intros name.
  destruct (eq_str name "add_graph_memory").
  { apply emits_bind; [apply emits_lift|]. intros; apply emits_ret. }
  destruct (eq_str name "update_graph_memory"); [|apply emits_ret].
  apply emits_bind; [apply emits_lift|]. intros args.
  apply emits_bind; [apply emits_lift|]. intros src.
  apply emits_bind; [apply emits_lift|]. intros dst.
  apply emits_bind; [apply emits_lift|]. intros rel.
  apply emits_bind; [|intros; apply emits_ret].
  unfold _update_relationship.
  apply emits_bind; [apply emits_emit; apply HL|]. intros _.
  apply emits_bind; [apply emits_lift|]. intros rel'.
  apply emits_bind; [apply emits_lift|]. intros u1.
  apply emits_bind; [apply graph_query_emits; auto|]. intros _.
  apply emits_bind; [apply emits_lift|]. intros u2.
  apply emits_bind; [apply graph_query_emits; auto|]. intros _.
  apply emits_bind; [apply emits_lift|]. intros u3.
  apply emits_bind; [apply graph_query_emits; auto|]. intros rows.
  destruct rows; [apply emits_raise | apply emits_ret].
Qed.

(** The second loop calls the embedder and the graph store, the latter with
    statements of the addition path only. *)
Lemma write_additions_emits (P : event -> Prop) (filters : pyval) (items : list pyval) :
  (forall q ps, is_merge q = true -> P (EvQuery q ps)) ->
  (forall n, P (EvSelect n)) -> (forall t, P (EvEmbed t)) ->
  emits (D:=D) P (write_additions embed self filters items).
Proof.
  intros HQ HS HE.
  unfold write_additions. apply emits_for_each. intros acc item. unfold write_addition.
  apply emits_bind; [apply emits_lift|]. intros s1.
  apply emits_bind; [apply emits_lift|]. intros s2.
  apply emits_bind; [apply emits_lift|]. intros s3.
  apply emits_bind; [apply emits_lift|]. intros s4.
  apply emits_bind; [apply emits_lift|]. intros s5.
  apply emits_bind; [apply call_embed_emits; apply HE|]. intros e1.
  apply emits_bind; [apply call_embed_emits; apply HE|]. intros e2.
  apply emits_bind; [apply emits_lift|]. intros uid.
  apply emits_bind; [|intros; apply emits_ret].
  apply graph_query_emits; auto.
Qed.

End AddOrder.

(** X9. Additions are buffered: in every run of [add] the calls split into a
    first part without any statement of the addition path (retrieval,
    extraction, reconciliation and all the updates) and a second part whose
    only statements are those of the addition path.  No update is applied
    after an addition has been written. *)
Theorem add_writes_additions_last (D : Driver)
        (llm : llm_request -> result pyval) (embed : pyval -> result pyval)
        (self : MemoryGraph) (data filters : pyval) (w : world D) r w' :
  add llm embed self data filters w = (r, w') ->
  exists before after,
    w_trace w' = (w_trace w ++ before ++ after)%list
    /\ Forall not_merge before
    /\ Forall merge_or_no_statement after.
Proof.
  unfold add. intros H.
  destruct (bind_inv _ _ _ H) as [(items & w1 & H1 & H2) | (e & H1 & ->)];
    destruct (decisions_calls _ _ _ _ _ _ H1) as (t1 & E1 & F1).
  2:{ exists t1, []. rewrite app_nil_r. auto. }
  destruct (bind_inv _ _ _ H2) as [(tba & w2 & H3 & H4) | (e & H3 & ->)];
    destruct (apply_decisions_calls _ _ _ _ H3) as (t2 & E2 & F2).
  2:{ exists (t1 ++ t2)%list, []. rewrite app_nil_r, E2, E1, app_assoc.
      split; [reflexivity|]. split; [apply Forall_app; auto|constructor]. }
  assert (Hw : emits (D:=D) merge_or_no_statement (write_additions embed self filters tba)).
  { apply write_additions_emits; simpl; auto. }
  destruct (bind_inv _ _ _ H4) as [(out & w3 & H5 & H6) | (e & H5 & ->)];
    destruct (Hw _ _ _ H5) as (t3 & E3 & F3).
  2:{ exists (t1 ++ t2)%list, t3. rewrite E3, E2, E1, !app_assoc.
      split; [reflexivity|]. split; [apply Forall_app; auto|assumption]. }
  unfold bind, log, emit, ret in H6. inversion H6; subst. simpl.
  exists (t1 ++ t2)%list, (t3 ++ [EvLog (LogAdded (List.length tba))])%list.
  rewrite E3, E2, E1, !app_assoc. split; [reflexivity|].
  split; [apply Forall_app; auto|]. apply Forall_app. split; [assumption|].
  constructor; [exact I|constructor].
Qed.

Lemma add_writes_additions_last_witness :
  let llm := Sample.scripted Sample.entities_alice_acme Sample.no_relations
               Sample.mixed_updates in
  let w := Sample.start (RefStore.neo4j Sample.no_similar) RefStore.empty_graph in
  let run := add llm Sample.embed_const (Sample.config "neo4j") (PStr "hi") Sample.u1 w in
  map fst (queries_of (w_trace (snd run)))
  = [SimilarityNeo4j; SimilarityNeo4j; CheckAndCreate; DeleteRel; CreateRel "lives_in";
     MergeTriple "person" "works_at" "organization"; MergeTriple "person" "knows" "person"]
  /\ exists before after,
       w_trace (snd run) = (w_trace w ++ before ++ after)%list
       /\ Forall not_merge before
       /\ Forall merge_or_no_statement after.
Proof.
  intros llm w run. split; [reflexivity|].
  apply (@add_writes_additions_last (RefStore.neo4j Sample.no_similar) llm
           Sample.embed_const (Sample.config "neo4j") (PStr "hi") Sample.u1 w
           (fst run) (snd run)).
  apply surjective_pairing.
Defined.

(** X10. When processing the decisions raises (a failed update, a malformed
    decision), [add] raises the same exception in the same world, and it has
    sent no statement of the addition path: the additions decided before the
    failure are lost, not written. *)
Theorem failed_decision_writes_no_addition (D : Driver)
        (llm : llm_request -> result pyval) (embed : pyval -> result pyval)
        (self : MemoryGraph) (data filters : pyval) (w : world D)
        (items : list pyval) (w0 : world D) (e : exn) (w1 : world D) :
  decisions llm embed self data filters w = (Ok items, w0) ->
  apply_decisions self filters items w0 = (Err e, w1) ->
  add llm embed self data filters w = (Err e, w1)
  /\ exists tr, w_trace w1 = (w_trace w ++ tr)%list
       /\ filter (fun qp => is_merge (fst qp)) (queries_of tr) = [].
Proof.
  intros Hd Ha. split.
  - unfold add. rewrite (bind_ok _ _ _ Hd). apply bind_err. exact Ha.
  - destruct (decisions_calls _ _ _ _ _ _ Hd) as (t1 & E1 & F1).
    destruct (apply_decisions_calls _ _ _ _ Ha) as (t2 & E2 & F2).
    exists (t1 ++ t2)%list. rewrite E2, E1, app_assoc. split; [reflexivity|].
    assert (F : Forall not_merge (t1 ++ t2)) by (apply Forall_app; auto).
    clear - F. induction F as [|ev tr Hev _ IH]; simpl; [reflexivity|].
    destruct ev; simpl; auto. destruct q; simpl in *; auto; contradiction.
Qed.

Lemma failed_decision_writes_no_addition_witness :
  let llm := Sample.scripted Sample.no_relations Sample.no_relations Sample.two_updates in
  let self := Sample.config "neo4j" in
  let w := Sample.start Sample.flaky [] in
  let run := add llm Sample.embed_const self (PStr "hi") Sample.u1 w in
  filter is_addition (Sample.decisions_before_bob ++ [Sample.update_bob])
  = [Sample.tool_call "add_graph_memory"
       (Sample.relation "u1" "Person" "Works At" "Acme Corp" "Organization")]
  /\ fst run = Err (FailedUpdate (PStr "Bob Jones") (PStr "Paris"))
  /\ filter (fun qp => is_merge (fst qp)) (w_store (snd run)) = [].
Proof.
  intros llm self w run. split; [reflexivity|].
  pose (d := decisions llm Sample.embed_const self (PStr "hi") Sample.u1 w).
  pose (a := apply_decisions self Sample.u1
               (Sample.decisions_before_bob ++ [Sample.update_bob])%list (snd d)).
  assert (H : run = (Err (FailedUpdate (PStr "Bob Jones") (PStr "Paris")), snd a)).
  { refine (proj1 (@failed_decision_writes_no_addition Sample.flaky llm Sample.embed_const
                     self (PStr "hi") Sample.u1 w
                     (Sample.decisions_before_bob ++ [Sample.update_bob])%list (snd d)
                     (FailedUpdate (PStr "Bob Jones") (PStr "Paris")) (snd a) _ _));
      reflexivity. }
  rewrite H. split; reflexivity.
Defined.

(* ----------------------------------------------------------------- *)
(** ** How often the LLM is asked *)

Lemma llm_requests_of_app (t1 t2 : list event) :
  llm_requests_of (t1 ++ t2) = (llm_requests_of t1 ++ llm_requests_of t2)%list.
Proof. unfold llm_requests_of. apply flat_map_app. Qed.

Lemma no_llm_requests (tr : list event) : Forall not_llm tr -> llm_requests_of tr = [].
Proof.
  induction 1 as [|ev tr Hev _ IH]; simpl; [reflexivity|].
  destruct ev; simpl in *; auto; contradiction.
Qed.

Section LlmRequests.

Variable D : Driver.
Variable R : Reranker.
Variable llm : llm_request -> result pyval.
Variable embed : pyval -> result pyval.
Variable self : MemoryGraph.

Lemma retrieve_emits_no_llm (filters limit : pyval) (m : pydict) :
  emits (D:=D) not_llm (retrieve embed self filters limit m).
Proof.
  unfold retrieve. apply emits_for_each. intros acc node. unfold retrieve_node.
  apply emits_bind; [apply call_embed_emits; exact I|]. intros emb.
  apply emits_bind; [apply emits_lift|]. intros q.
  apply emits_bind; [apply emits_lift|]. intros uid.
  apply emits_bind; [|intros; apply emits_ret].
  apply graph_query_emits; intros; exact I.
Qed.

Lemma call_llm_inv (req : llm_request) (w : world D) r w' :
  call_llm llm req w = (r, w') -> r = llm req /\ w' = extend w (w_store w) [EvLLM req].
Proof.
  unfold call_llm, bind, emit, lift, extend. simpl.
  destruct (llm req); intros H; inversion H; auto.
Qed.

(** [_search] asks the LLM once, whatever happens next. *)
Lemma _search_llm_requests (query filters limit user_id : pyval) (w : world D) r w' :
  getkey filters "user_id" = Ok user_id ->
  _search llm embed self query filters limit w = (r, w') ->
  exists tr, w_trace w' = (w_trace w ++ tr)%list
    /\ llm_requests_of tr = [ExtractEntities (structured self) user_id query].
Proof.
  intros Hu H.
  destruct (llm (ExtractEntities (structured self) user_id query)) as [resp|e] eqn:Hllm.
  - destruct (extract_entity_type_map resp) as [m failure] eqn:Hext.
    rewrite (search_reaches_retrieval _ _ _ _ _ _ _ Hu Hllm Hext) in H.
    assert (Hw : exists w1, retrieve embed self filters limit m
                   (extend w (w_store w)
                      (EvLLM (ExtractEntities (structured self) user_id query)
                       :: match failure with
                          | Some e => [EvLog (LogSearchToolError e)]
                          | None => []
                          end ++ [EvLog (LogEntityTypeMap m)])) = (w1, w')).
    { destruct (bind_inv _ _ _ H) as [(rr & w1 & Hr & H1) | (e & Hr & _)].
      - inversion H1; subst. eauto.
      - eauto. }
    destruct Hw as (r1 & Hr).
    destruct (retrieve_emits_no_llm filters limit m _ Hr) as (t & E & F). simpl in E.
    eexists. split; [rewrite E, <- app_assoc; reflexivity|].
    rewrite llm_requests_of_app, (no_llm_requests F), app_nil_r.
    destruct failure; reflexivity.
  - unfold _search in H. rewrite Hu in H. cbn [lift] in H. rewrite bind_ret in H.
    unfold call_llm, bind, emit, lift, raise in H. simpl in H. rewrite Hllm in H.
    inversion H; subst; simpl. exists [EvLLM (ExtractEntities (structured self) user_id query)].
    auto.
Qed.

(** When [_extract_relations] returns, it has asked the LLM once. *)
Lemma _extract_relations_llm_requests (data filters : pyval) (uid : string) (m : pydict)
      (w : world D) rels w' :
  getkey filters "user_id" = Ok (PStr uid) ->
  _extract_relations llm self data filters m w = (Ok rels, w') ->
  exists tr, w_trace w' = (w_trace w ++ tr)%list
    /\ llm_requests_of tr = [relations_request self uid m data].
Proof.
  intros Hu H. unfold _extract_relations in H. rewrite Hu in H.
  cbn [lift] in H. rewrite bind_ret in H. cbn [lift as_str] in H. rewrite bind_ret in H.
  fold (relations_request self uid m data) in H.
  destruct (bind_inv _ _ _ H) as [(resp & w1 & Hl & H1) | (e & _ & He)]; [|discriminate].
  apply call_llm_inv in Hl as [_ ->].
  match type of H1 with
  | ?c _ = _ => assert (Hc : emits (D:=D) not_llm c)
  end.
  { apply emits_bind; [apply emits_lift|]. intros calls.
    apply emits_bind.
    { destruct (truthy calls); [|apply emits_ret].
      apply emits_bind; [apply emits_lift|]; intros call.
      apply emits_bind; [apply emits_lift|]; intros args. apply emits_lift. }
    intros v. apply emits_bind; [apply emits_emit; exact I|]. intros _; apply emits_ret. }
  destruct (Hc _ _ _ H1) as (t & E & F). simpl in E.
  eexists. split; [rewrite E, <- app_assoc; reflexivity|].
  rewrite llm_requests_of_app, (no_llm_requests F). reflexivity.
Qed.

End LlmRequests.

(** X11. [search] asks the LLM exactly once (entity extraction), whether it
    then returns or raises; ranking and retrieval ask nothing. *)
Theorem search_asks_llm_once (D : Driver) (R : Reranker)
        (llm : llm_request -> result pyval) (embed : pyval -> result pyval)
        (self : MemoryGraph) (query filters limit user_id : pyval) (w : world D) r w' :
  getkey filters "user_id" = Ok user_id ->
  search R llm embed self query filters limit w = (r, w') ->
  exists tr, w_trace w' = (w_trace w ++ tr)%list
    /\ llm_requests_of tr = [ExtractEntities (structured self) user_id query].
Proof.
  intros Hu H. unfold search in H.
  destruct (bind_inv _ _ _ H) as [(out & w1 & Hs & H1) | (e & Hs & _)];
    destruct (_search_llm_requests _ _ _ _ _ _ _ Hu Hs) as (t1 & E1 & L1).
  2:{ exists t1; auto. }
  match type of H1 with
  | ?c _ = _ => assert (Hc : emits (D:=D) not_llm c)
  end.
  { destruct (fst out); [apply emits_ret|].
    apply emits_bind; [apply emits_lift|]. intros docs.
    apply emits_bind; [apply call_index_emits; exact I|]. intros idx.
    apply emits_bind; [apply emits_lift|]. intros toks.
    apply emits_bind; [apply get_top_n_emits; exact I|]. intros top.
    apply emits_bind; [apply emits_lift|]. intros res.
    apply emits_bind; [apply emits_emit; exact I|]. intros _; apply emits_ret. }
  destruct (Hc _ _ _ H1) as (t2 & E2 & F2).
  exists (t1 ++ t2)%list. rewrite E2, E1, app_assoc. split; [reflexivity|].
  rewrite llm_requests_of_app, L1, (no_llm_requests F2). reflexivity.
Qed.

Lemma search_asks_llm_once_witness :
  let llm := Sample.scripted Sample.entities_alice_acme Sample.no_relations
               Sample.no_relations in
  let w := Sample.start (Sample.canned Sample.four_rows) tt in
  let run := search Sample.in_order llm Sample.embed_const (Sample.config "falkordb")
               (PStr "who knows bob") Sample.u1 default_limit w in
  llm_requests_of (w_trace (snd run)) = [ExtractEntities true (PStr "u1") (PStr "who knows bob")]
  /\ exists tr, w_trace (snd run) = (w_trace w ++ tr)%list
       /\ llm_requests_of tr
          = [ExtractEntities (structured (Sample.config "falkordb")) (PStr "u1")
               (PStr "who knows bob")].
Proof.
  intros llm w run. split; [reflexivity|].
  apply (@search_asks_llm_once (Sample.canned Sample.four_rows) Sample.in_order llm
           Sample.embed_const (Sample.config "falkordb") (PStr "who knows bob") Sample.u1
           default_limit (PStr "u1") w (fst run) (snd run) eq_refl).
  apply surjective_pairing.
Defined.

(** X12. When [add] returns, it has asked the LLM exactly three times, in
    this order: entity extraction, relation extraction, reconciliation
    (which receives the candidates retrieved and the relations extracted).
    Applying the decisions asks nothing more. *)
Theorem add_asks_llm_three_times (D : Driver)
        (llm : llm_request -> result pyval) (embed : pyval -> result pyval)
        (self : MemoryGraph) (data filters : pyval) (uid : string)
        (w : world D) res w' :
  getkey filters "user_id" = Ok (PStr uid) ->
  add llm embed self data filters w = (Ok res, w') ->
  exists rows m rels tr,
    w_trace w' = (w_trace w ++ tr)%list
    /\ llm_requests_of tr
       = [ExtractEntities (structured self) (PStr uid) data;
          relations_request self uid m data;
          UpdateMemory (structured self) rows rels].
Proof.
  intros Hu H. unfold add in H.
  destruct (bind_inv _ _ _ H) as [(items & w1 & Hd & H1) | (e & _ & He)]; [|discriminate].
  destruct (bind_inv _ _ _ H1) as [(tba & w2 & Ha & H2) | (e & _ & He)]; [|discriminate].
  destruct (bind_inv _ _ _ H2) as [(out & w3 & Hw & H3) | (e & _ & He)]; [|discriminate].
  unfold bind, log, emit, ret in H3. inversion H3; subst. simpl.
  unfold decisions in Hd.
  destruct (bind_inv _ _ _ Hd) as [([rows m] & v1 & Hs & Hd1) | (e & _ & He)]; [|discriminate].
  destruct (@_search_llm_requests D llm embed self _ _ _ _ _ _ _ Hu Hs) as (t1 & E1 & L1).
  simpl in Hd1.
  destruct (bind_inv _ _ _ Hd1) as [(rels & v2 & Hx & Hd2) | (e & _ & He)]; [|discriminate].
  destruct (@_extract_relations_llm_requests D llm self _ _ _ _ _ _ _ Hu Hx)
    as (t2 & E2 & L2).
  destruct (bind_inv _ _ _ Hd2) as [(resp & v3 & Hl & Hd3) | (e & _ & He)]; [|discriminate].
  apply call_llm_inv in Hl as [_ ->].
  destruct (bind_inv _ _ _ Hd3) as [(calls & v4 & Hc & Hd4) | (e & _ & He)]; [|discriminate].
  apply lift_inv in Hc as [_ ->]. apply lift_inv in Hd4 as [_ ->].
  assert (Ea : emits (D:=D) not_llm (apply_decisions self filters items))
    by (apply apply_decisions_emits; intros; exact I).
  assert (Ew : emits (D:=D) not_llm (write_additions embed self filters tba))
    by (apply write_additions_emits; intros; exact I).
  destruct (Ea _ _ _ Ha) as (t3 & E3 & F3). simpl in E3.
  destruct (Ew _ _ _ Hw) as (t4 & E4 & F4).
  exists rows, m, rels.
  eexists. split.
  - rewrite E4, E3, E2, E1. repeat rewrite <- app_assoc. reflexivity.
  - rewrite !llm_requests_of_app, L1, L2, (no_llm_requests F3), (no_llm_requests F4).
    reflexivity.
Qed.

Lemma add_asks_llm_three_times_witness :
  let llm := Sample.scripted Sample.entities_alice_acme Sample.no_relations
               Sample.mixed_updates in
  let w := Sample.start (RefStore.neo4j Sample.no_similar) RefStore.empty_graph in
  let run := add llm Sample.embed_const (Sample.config "neo4j") (PStr "hi") Sample.u1 w in
  List.length (llm_requests_of (w_trace (snd run))) = 3%nat
  /\ exists rows m rels tr,
       w_trace (snd run) = (w_trace w ++ tr)%list
       /\ llm_requests_of tr
          = [ExtractEntities (structured (Sample.config "neo4j")) (PStr "u1") (PStr "hi");
             relations_request (Sample.config "neo4j") "u1" m (PStr "hi");
             UpdateMemory (structured (Sample.config "neo4j")) rows rels].
Proof.
  intros llm w run. split; [reflexivity|].
  assert (Hf : fst run = Ok [triple (PStr "u1") (PStr "works_at") (PStr "acme_corp");
                             triple (PStr "bob") (PStr "knows") (PStr "u1")])
    by reflexivity.
  apply (@add_asks_llm_three_times (RefStore.neo4j Sample.no_similar) llm
           Sample.embed_const (Sample.config "neo4j") (PStr "hi") Sample.u1 "u1" w
           [triple (PStr "u1") (PStr "works_at") (PStr "acme_corp");
            triple (PStr "bob") (PStr "knows") (PStr "u1")] (snd run) eq_refl).
  change (run = (Ok [triple (PStr "u1") (PStr "works_at") (PStr "acme_corp");
                     triple (PStr "bob") (PStr "knows") (PStr "u1")], snd run)).
  rewrite <- Hf. apply surjective_pairing.
Defined.

(* ----------------------------------------------------------------- *)
(** ** One graph per user under [falkordb] *)

Section KeepsFacts.

Variable D : Driver.
Variable Rel : store D -> store D -> Prop.
Hypothesis Rel_refl : forall st, Rel st st.
Hypothesis Rel_trans : forall a b c, Rel a b -> Rel b c -> Rel a c.

Lemma keeps_ret {A} (a : A) : keeps Rel (ret (D:=D) a).
Proof. intros w r w' H; inversion H; subst; apply Rel_refl. Qed.

Lemma keeps_raise {A} (e : exn) : keeps Rel (@raise D A e).
Proof. intros w r w' H; inversion H; subst; apply Rel_refl. Qed.

Lemma keeps_lift {A} (x : result A) : keeps Rel (@lift D A x).
Proof. destruct x; [apply keeps_ret | apply keeps_raise]. Qed.

Lemma keeps_emit (e : event) : keeps Rel (@emit D e).
Proof. intros w r w' H; inversion H; subst; simpl; apply Rel_refl. Qed.

Lemma keeps_bind {A B} (c : M D A) (k : A -> M D B) :
  keeps Rel c -> (forall a, keeps Rel (k a)) -> keeps Rel (bind c k).
Proof.
  intros Hc Hk w r w' H.
  destruct (bind_inv _ _ _ H) as [(a & w1 & H1 & H2) | (e & H1 & _)].
  - eapply Rel_trans; [eapply Hc; eauto | eapply Hk; eauto].
  - eapply Hc; eauto.
Qed.

Lemma keeps_bind_lift {A B} (x : result A) (k : A -> M D B) :
  (forall a, x = Ok a -> keeps Rel (k a)) -> keeps Rel (bind (lift x) k).
Proof.
  intros Hk. destruct x as [a|e]; simpl.
  - intros w r w' H. rewrite bind_ret in H. eapply Hk; eauto.
  - intros w r w' H. inversion H; subst. apply Rel_refl.
Qed.

Lemma keeps_for_each {A S} (l : list A) (body : S -> A -> M D S) :
  (forall s x, keeps Rel (body s x)) -> forall s, keeps Rel (for_each l body s).
Proof.
  intros Hb. induction l as [|x l IH]; intros s; simpl.
  - apply keeps_ret.
  - apply keeps_bind; auto.
Qed.

End KeepsFacts.

Section Tenancy.

Import RefStore.

Variable similarity_rows : pgraph -> params -> list row.
Variable R : Reranker.
Variable llm : llm_request -> result pyval.
Variable embed : pyval -> result pyval.
Variable self : MemoryGraph.
Variable u : string.

Hypothesis provider_falkordb : provider self = "falkordb".

#[local] Abbreviation FD := (falkordb similarity_rows).

Lemma assoc_put_graph_other (name k : string) (g : pgraph) (gs : list (string * pgraph)) :
  name <> k -> assoc name (put_graph k g gs) = assoc name gs.
Proof.
  intros Hn. induction gs as [|[k' g'] gs IH]; simpl.
  - apply String.eqb_neq in Hn. rewrite Hn. reflexivity.
  - destruct (String.eqb k k') eqn:E; simpl.
    + apply String.eqb_eq in E. subst k'.
      apply String.eqb_neq in Hn. rewrite Hn. reflexivity.
    + rewrite IH. reflexivity.
Qed.

Lemma same_elsewhere_refl (st : multi) : same_elsewhere u st st.
Proof. intros name _; reflexivity. Qed.

Lemma same_elsewhere_trans (a b c : multi) :
  same_elsewhere u a b -> same_elsewhere u b c -> same_elsewhere u a c.
Proof. intros H1 H2 name Hn. rewrite (H2 name Hn). apply H1; assumption. Qed.

(** The driver runs a statement on the selected graph and on no other. *)
Lemma run_query_keeps (q : cypher) (ps : params) (st : multi) r st' :
  run_query FD q ps st = (r, st') -> same_elsewhere (selected st) st st'.
Proof.
  simpl. destruct (exec similarity_rows q ps (graph_named (selected st) st)) as [res g'].
  intros H; inversion H; subst. intros name Hn. unfold graph_named. simpl.
  rewrite assoc_put_graph_other by assumption. reflexivity.
Qed.

(** A statement sent for user [u] runs on the graph named [u]. *)
Lemma graph_query_keeps (q : cypher) (ps : params) :
  assoc "user_id" ps = Some (PStr u) ->
  keeps (D:=FD) (same_elsewhere u) (graph_query self q ps).
Proof.
  intros Hps w r w' H.
  unfold graph_query in H. rewrite provider_falkordb in H.
  change (String.eqb "falkordb" "falkordb") with true in H.
  change (String.eqb "falkordb" "neo4j") with false in H. cbv iota in H.
  unfold param_lookup in H. rewrite Hps in H. cbn [lift] in H.
  destruct (bind_inv _ _ _ H) as [(x & w1 & Hsel & H1) | (e & Hsel & _)];
    rewrite bind_ret in Hsel; unfold call_select in Hsel; simpl in Hsel; [|discriminate].
  assert (Hw1 : w_store w1 = {| graphs := graphs (w_store w); selected := u |})
    by (inversion Hsel; reflexivity).
  clear Hsel H.
  assert (Hq : exists r', call_query q ps w1 = (r', w')).
  { destruct (bind_inv _ _ _ H1) as [(rows & w2 & Hq & H2) | (e & Hq & _)].
    - inversion H2; subst. eauto.
    - eauto. }
  destruct Hq as (r' & Hq). unfold call_query in Hq.
  destruct (run_query FD q ps (w_store w1)) as [r0 st'] eqn:Er.
  inversion Hq; subst. simpl.
  apply run_query_keeps in Er. rewrite Hw1 in Er. simpl in Er.
  intros name Hn. rewrite (Er name Hn). reflexivity.
Qed.

#[local] Abbreviation keeps_u := (keeps (D:=FD) (same_elsewhere u)).

Ltac kbind := apply (@keeps_bind FD (same_elsewhere u) same_elsewhere_trans).
Ltac kret := apply (@keeps_ret FD (same_elsewhere u) same_elsewhere_refl).
Ltac klift := apply (@keeps_lift FD (same_elsewhere u) same_elsewhere_refl).
Ltac kemit := apply (@keeps_emit FD (same_elsewhere u) same_elsewhere_refl).
Ltac kraise := apply (@keeps_raise FD (same_elsewhere u) same_elsewhere_refl).
Ltac kbind_lift := apply (@keeps_bind_lift FD (same_elsewhere u) same_elsewhere_refl).
Ltac kfor := apply (@keeps_for_each FD (same_elsewhere u) same_elsewhere_refl
                      same_elsewhere_trans).

Variable filters : pyval.
Hypothesis filters_user : getkey filters "user_id" = Ok (PStr u).

Lemma call_llm_keeps (req : llm_request) : keeps_u (call_llm llm req).
Proof. unfold call_llm. kbind; [kemit|]. intros _; klift. Qed.

Lemma call_embed_keeps (text : pyval) : keeps_u (call_embed embed text).
Proof. unfold call_embed. kbind; [kemit|]. intros _; klift. Qed.

Lemma _search_keeps (query limit : pyval) :
  keeps_u (_search llm embed self query filters limit).
Proof.
  unfold _search. kbind; [klift|]. intros uid0.
  kbind; [apply call_llm_keeps|]. intros resp.
  destruct (extract_entity_type_map resp) as [m failure].
  kbind. { destruct failure; [kemit|kret]. }
  intros _. kbind; [kemit|]. intros _. kbind; [|intros; kret].
  unfold retrieve. kfor.
  intros acc node. unfold retrieve_node.
  kbind; [apply call_embed_keeps|]. intros emb.
  kbind; [klift|]. intros q. kbind_lift. intros uid Huid.
  kbind; [|intros; kret].
  apply graph_query_keeps. simpl. congruence.
Qed.

Lemma _extract_relations_keeps (data : pyval) (m : pydict) :
  keeps_u (_extract_relations llm self data filters m).
Proof.
  unfold _extract_relations. kbind; [klift|]. intros uid0.
  kbind; [klift|]. intros uid. kbind; [apply call_llm_keeps|]. intros resp.
  kbind; [klift|]. intros calls.
  kbind.
  { destruct (truthy calls); [|kret].
    kbind; [klift|]. intros call. kbind; [klift|]. intros args. klift. }
  intros v. kbind; [kemit|]. intros _; kret.
Qed.

Lemma _update_relationship_keeps (source target relationship : pyval) :
  keeps_u (_update_relationship self source target relationship filters).
Proof.
  unfold _update_relationship. kbind; [kemit|]. intros _.
  kbind; [klift|]. intros rel.
  kbind_lift. intros u1 H1. kbind; [apply graph_query_keeps; simpl; congruence|]. intros _.
  kbind_lift. intros u2 H2. kbind; [apply graph_query_keeps; simpl; congruence|]. intros _.
  kbind_lift. intros u3 H3. kbind; [apply graph_query_keeps; simpl; congruence|].
  intros rows. destruct rows; [kraise | kret].
Qed.

Lemma add_keeps (data : pyval) : keeps_u (add llm embed self data filters).
Proof.
  unfold add. kbind.
  { unfold decisions. kbind; [apply _search_keeps|]. intros out.
    kbind; [apply _extract_relations_keeps|]. intros rels.
    kbind; [apply call_llm_keeps|]. intros resp.
    kbind; [klift|]. intros calls. klift. }
  intros items. kbind.
  { unfold apply_decisions. kfor.
    intros acc item. unfold apply_decision.
    kbind; [klift|]. intros name.
    destruct (eq_str name "add_graph_memory").
    { kbind; [klift|]. intros; kret. }
    destruct (eq_str name "update_graph_memory"); [|kret].
    kbind; [klift|]. intros args. kbind; [klift|]. intros src.
    kbind; [klift|]. intros dst. kbind; [klift|]. intros rel.
    kbind; [apply _update_relationship_keeps|]. intros; kret. }
  intros tba. kbind.
  { unfold write_additions. kfor.
    intros acc item. unfold write_addition.
    kbind; [klift|]. intros s1. kbind; [klift|]. intros s2. kbind; [klift|]. intros s3.
    kbind; [klift|]. intros s4. kbind; [klift|]. intros s5.
    kbind; [apply call_embed_keeps|]. intros e1.
    kbind; [apply call_embed_keeps|]. intros e2.
    kbind_lift. intros uid Huid. kbind; [|intros; kret].
    apply graph_query_keeps. simpl. congruence. }
  intros out. kbind; [kemit|]. intros _; kret.
Qed.

Lemma search_keeps (query limit : pyval) :
  keeps_u (search R llm embed self query filters limit).
Proof.
  unfold search. kbind; [apply _search_keeps|]. intros out.
  destruct (fst out); [kret|].
  kbind; [klift|]. intros docs.
  kbind. { unfold call_index. kbind; [kemit|]. intros _; klift. }
  intros idx. kbind; [klift|]. intros toks.
  kbind. { unfold get_top_n, call_ranking. kbind; [|intros; klift].
           kbind; [kemit|]. intros _; klift. }
  intros top. kbind; [klift|]. intros res. kbind; [kemit|]. intros _; kret.
Qed.

Lemma get_all_keeps (limit : pyval) : keeps_u (get_all self filters limit).
Proof.
  unfold get_all. kbind_lift. intros uid Huid.
  kbind; [apply graph_query_keeps; simpl; congruence|]. intros rows.
  kbind; [klift|]. intros fin. kbind; [kemit|]. intros _; kret.
Qed.

Lemma delete_all_keeps : keeps_u (delete_all self filters).
Proof.
  unfold delete_all. kbind_lift. intros uid Huid.
  kbind; [apply graph_query_keeps; simpl; congruence|]. intros _; kret.
Qed.

End Tenancy.

(** X13. Under the provider [falkordb], on the multi-graph reference store,
    the four public operations called for user [u] leave every graph with
    another name exactly as it was, whether they return or raise: all they
    send runs on the graph named [u]. *)
Theorem falkordb_other_graphs_untouched
        (similarity_rows : RefStore.pgraph -> params -> list RefStore.row)
        (R : Reranker) (llm : llm_request -> result pyval) (embed : pyval -> result pyval)
        (self : MemoryGraph) (u : string) (data filters limit : pyval)
        (w : world (RefStore.falkordb similarity_rows)) :
  provider self = "falkordb" ->
  getkey filters "user_id" = Ok (PStr u) ->
  same_elsewhere u (w_store w) (w_store (snd (add llm embed self data filters w)))
  /\ same_elsewhere u (w_store w) (w_store (snd (search R llm embed self data filters limit w)))
  /\ same_elsewhere u (w_store w) (w_store (snd (get_all self filters limit w)))
  /\ same_elsewhere u (w_store w) (w_store (snd (delete_all self filters w))).
Proof.
  intros Hp Hu. repeat split.
  - eapply (@add_keeps similarity_rows llm embed self u Hp filters Hu data).
    apply surjective_pairing.
  - eapply (@search_keeps similarity_rows R llm embed self u Hp filters Hu data limit).
    apply surjective_pairing.
  - eapply (@get_all_keeps similarity_rows self u Hp filters Hu limit).
    apply surjective_pairing.
  - eapply (@delete_all_keeps similarity_rows self u Hp filters Hu).
    apply surjective_pairing.
Qed.

Lemma falkordb_other_graphs_untouched_witness :
  let D := RefStore.falkordb Sample.no_similar in
  let w := Sample.start D Sample.two_tenants in
  let w' := snd (delete_all (Sample.config "falkordb") Sample.u1 w) in
  RefStore.graph_named "u2" (w_store w') = Sample.two_edges
  /\ RefStore.graph_named "u1" (w_store w')
     = RefStore.detach_delete (PStr "u1") Sample.two_edges.
Proof.
  intros D w w'. split; [|reflexivity].
  refine (proj2 (proj2 (proj2
            (@falkordb_other_graphs_untouched Sample.no_similar Sample.in_order
               (Sample.scripted Sample.no_relations Sample.no_relations Sample.no_relations)
               Sample.embed_const (Sample.config "falkordb") "u1" (PStr "hi") Sample.u1
               default_limit w eq_refl eq_refl))) "u2" _).
  discriminate.
Defined.

(* ----------------------------------------------------------------- *)
(** ** [add]: the embeddings it stores *)

Section StoredEmbeddings.

Variable D : Driver.
Variable llm : llm_request -> result pyval.
Variable embed : pyval -> result pyval.
Variable self : MemoryGraph.

Lemma emits_bind_embed {B} (P : event -> Prop) (text : pyval) (k : pyval -> M D B) :
  P (EvEmbed text) ->
  (forall a, embed text = Ok a -> emits P (k a)) ->
  emits P (bind (call_embed embed text) k).
Proof.
  intros HP Hk w r w' H.
  destruct (bind_inv _ _ _ H) as [(a & w1 & H1 & H2) | (e & H1 & _)];
    apply call_embed_inv in H1 as [Ha ->].
  - destruct (Hk a (eq_sym Ha) _ _ _ H2) as (t & E & F). simpl in E.
    exists (EvEmbed text :: t). split; [rewrite E, <- app_assoc; reflexivity|].
    constructor; assumption.
  - exists [EvEmbed text]. split; [reflexivity|]. constructor; auto.
Qed.

Lemma write_additions_embeddings (filters : pyval) (items : list pyval) :
  emits (D:=D)
        (fun ev => match ev with
                   | EvQuery q ps => embeddings_match embed (q, ps)
                   | _ => True
                   end)
        (write_additions embed self filters items).
Proof.
  unfold write_additions. apply emits_for_each. intros acc item. unfold write_addition.
  apply emits_bind; [apply emits_lift|]. intros s1.
  apply emits_bind; [apply emits_lift|]. intros s2.
  apply emits_bind; [apply emits_lift|]. intros s3.
  apply emits_bind; [apply emits_lift|]. intros s4.
  apply emits_bind; [apply emits_lift|]. intros s5.
  apply emits_bind_embed; [exact I|]. intros e1 He1.
  apply emits_bind_embed; [exact I|]. intros e2 He2.
  apply emits_bind; [apply emits_lift|]. intros uid.
  apply emits_bind; [|intros; apply emits_ret].
  apply graph_query_emits; [|intros; exact I].
  split; assumption.
Qed.

End StoredEmbeddings.

(** X14. Whatever [add] writes on its addition path, the embedding stored with
    a node is the embedder's output for the node's normalised name, as sent
    in the same statement: source and destination alike. *)
Theorem add_stores_embedding_of_written_name (D : Driver)
        (llm : llm_request -> result pyval) (embed : pyval -> result pyval)
        (self : MemoryGraph) (data filters : pyval) (w : world D) r w' :
  add llm embed self data filters w = (r, w') ->
  exists tr, w_trace w' = (w_trace w ++ tr)%list
    /\ Forall (embeddings_match embed) (queries_of tr).
Proof.
  intros H.
  assert (Hweak : forall ev, not_merge ev ->
            match ev with
            | EvQuery q ps => embeddings_match embed (q, ps)
            | _ => True
            end).
  { intros [] Hn; auto. destruct q; simpl in *; auto; contradiction. }
  assert (He : emits (D:=D)
                 (fun ev => match ev with
                            | EvQuery q ps => embeddings_match embed (q, ps)
                            | _ => True
                            end)
                 (add llm embed self data filters)).
  { unfold add.
    apply emits_bind; [eapply emits_weaken; [exact Hweak | apply decisions_calls]|].
    intros items.
    apply emits_bind; [eapply emits_weaken; [exact Hweak | apply apply_decisions_calls]|].
    intros tba.
    apply emits_bind; [apply write_additions_embeddings|]. intros out.
    apply emits_bind; [apply emits_emit; exact I|]. intros _; apply emits_ret. }
  destruct (He _ _ _ H) as (tr & E & F). exists tr. split; [assumption|].
  eapply queries_of_Forall; [|exact F]. intros q ps HP; exact HP.
Qed.

Lemma add_stores_embedding_of_written_name_witness :
  let llm := Sample.scripted Sample.entities_alice_acme Sample.no_relations
               Sample.mixed_updates in
  let w := Sample.start (RefStore.neo4j Sample.no_similar) RefStore.empty_graph in
  let run := add llm Sample.embed_const (Sample.config "neo4j") (PStr "hi") Sample.u1 w in
  List.length (filter (fun qp => is_merge (fst qp)) (queries_of (w_trace (snd run)))) = 2%nat
  /\ exists tr, w_trace (snd run) = (w_trace w ++ tr)%list
       /\ Forall (embeddings_match Sample.embed_const) (queries_of tr).
Proof.
  intros llm w run. split; [reflexivity|].
  apply (@add_stores_embedding_of_written_name (RefStore.neo4j Sample.no_similar) llm
           Sample.embed_const (Sample.config "neo4j") (PStr "hi") Sample.u1 w
           (fst run) (snd run)).
  apply surjective_pairing.
Defined.

(* ----------------------------------------------------------------- *)
(** ** [add]: decisions that are ignored *)

Lemma apply_decision_ignored (D : Driver) (self : MemoryGraph) (filters : pyval)
      (acc : list pyval) (item : pyval) (w : world D) :
  is_ignored item = true ->
  apply_decision self filters acc item w = (Ok acc, w).
Proof.
  unfold is_ignored, apply_decision.
  destruct (getkey item "name") as [name|]; [|discriminate].
  intros H. apply andb_true_iff in H as [H1 H2].
  apply negb_true_iff in H1, H2. cbn [lift]. rewrite bind_ret, H1, H2. reflexivity.
Qed.

(** X15. Decisions tagged [noop], or with any tag other than
    [add_graph_memory] and [update_graph_memory], have no effect at all:
    processing a list of decisions gives the same buffer of additions, the
    same calls and the same store as processing the list without them,
    whatever their arguments (or lack of arguments). *)
Theorem ignored_decisions_have_no_effect (D : Driver) (self : MemoryGraph)
        (filters : pyval) (items : list pyval) (w : world D) :
  apply_decisions self filters items w
  = apply_decisions self filters (filter (fun item => negb (is_ignored item)) items) w.
Proof.
  unfold apply_decisions. generalize (@nil pyval) as acc. revert w.
  induction items as [|item items IH]; intros w acc; simpl; [reflexivity|].
  destruct (is_ignored item) eqn:E; simpl.
  - rewrite (bind_ok _ _ _ (apply_decision_ignored self filters acc item w E)).
    apply IH.
  - unfold bind. destruct (apply_decision self filters acc item w) as [[acc'|e] w1];
      [apply IH | reflexivity].
Qed.

Example ignored_decisions_sample :
  filter (fun item => negb (is_ignored item)) Sample.decisions_with_noise
  = [Sample.tool_call "add_graph_memory"
       (Sample.relation "u1" "Person" "Works At" "Acme Corp" "Organization");
     Sample.tool_call "update_graph_memory"
       (PDict [("source", PStr "Alice Smith"); ("destination", PStr "New York");
               ("relationship", PStr "Lives In")])].
Proof. reflexivity. Qed.

(* ----------------------------------------------------------------- *)
(** ** [add]: a failed addition *)

(** X16. When writing an addition raises (malformed arguments, a failing
    embedder or store), [add] raises the same exception and returns nothing,
    yet the additions before it have been written: one statement each, whose
    triples are exactly those [add] had collected so far. *)
Theorem failed_addition_keeps_earlier_writes (D : Driver)
        (llm : llm_request -> result pyval) (embed : pyval -> result pyval)
        (self : MemoryGraph) (data filters : pyval) (w : world D)
        (items : list pyval) (w0 : world D)
        (pre post : list pyval) (bad : pyval) (w1 : world D)
        (written : list pyval) (w2 : world D) (e : exn) (w3 : world D) :
  decisions llm embed self data filters w = (Ok items, w0) ->
  apply_decisions self filters items w0 = (Ok (pre ++ bad :: post)%list, w1) ->
  write_additions embed self filters pre w1 = (Ok written, w2) ->
  write_addition embed self filters written bad w2 = (Err e, w3) ->
  add llm embed self data filters w = (Err e, w3)
  /\ List.length written = List.length pre
  /\ exists tr, w_trace w2 = (w_trace w1 ++ tr)%list
       /\ flat_map triple_written (queries_of tr) = written.
Proof.
  intros Hd Ha Hw Hbad. split; [|split].
  - unfold add. rewrite (bind_ok _ _ _ Hd), (bind_ok _ _ _ Ha).
    apply bind_err. unfold write_additions. rewrite for_each_app.
    unfold write_additions in Hw. rewrite (bind_ok _ _ _ Hw). simpl.
    apply bind_err. exact Hbad.
  - destruct (write_additions_ok _ _ _ _ _ _ Hw) as (ts & -> & F). simpl.
    symmetry. eapply Forall2_length; exact F.
  - destruct (write_additions_spec _ _ _ _ _ _ Hw) as (tr & E & _ & Hout).
    exists tr. split; [assumption|]. rewrite (Hout _ eq_refl). reflexivity.
Qed.

Lemma failed_addition_keeps_earlier_writes_witness :
  let llm := Sample.scripted Sample.no_relations Sample.no_relations Sample.good_then_bad in
  let self := Sample.config "falkordb" in
  let run := add llm Sample.embed_const self (PStr "hi") Sample.u1
               (Sample.start Sample.journal []) in
  fst run = Err (KeyError (PStr "destination"))
  /\ map fst (w_store (snd run)) = [MergeTriple "person" "works_at" "organization"].
Proof.
  intros llm self run.
  pose (w := Sample.start Sample.journal []).
  pose (d := decisions llm Sample.embed_const self (PStr "hi") Sample.u1 w).
  pose (good := Sample.relation "u1" "Person" "Works At" "Acme Corp" "Organization").
  pose (bad := PDict [("source", PStr "Bob"); ("source_type", PStr "person");
                      ("relationship", PStr "knows")]).
  pose (a := apply_decisions self Sample.u1
               [Sample.tool_call "add_graph_memory" good;
                Sample.tool_call "add_graph_memory" bad] (snd d)).
  pose (p := write_additions Sample.embed_const self Sample.u1 [good] (snd a)).
  assert (H : run = (Err (KeyError (PStr "destination")), snd p)).
  { refine (proj1 (@failed_addition_keeps_earlier_writes Sample.journal llm
                     Sample.embed_const self (PStr "hi") Sample.u1 w
                     [Sample.tool_call "add_graph_memory" good;
                      Sample.tool_call "add_graph_memory" bad] (snd d)
                     [good] [] bad (snd a)
                     [triple (PStr "u1") (PStr "works_at") (PStr "acme_corp")] (snd p)
                     (KeyError (PStr "destination")) (snd p) _ _ _ _));
      reflexivity. }
  rewrite H. split; reflexivity.
Defined.

(* ----------------------------------------------------------------- *)
(** ** [_search]: a parse failure, then retrieval *)

Section ParseFailure.

Variable D : Driver.
Variable llm : llm_request -> result pyval.
Variable embed : pyval -> result pyval.
Variable self : MemoryGraph.

(** When the retrieval loop raises, the exception comes from one of its
    steps at some entity: the embedder, the provider branch or [graph_query]. *)
Lemma retrieve_failure (filters limit user_id : pyval) (keys : list pyval) :
  getkey filters "user_id" = Ok user_id ->
  forall (acc : list pyval) (w : world D) e w',
    for_each keys (retrieve_node embed self filters limit) acc w = (Err e, w') ->
    exists node, In node keys
      /\ (embed node = Err e
          \/ similarity_query self = Err e
          \/ exists q v w1, graph_query self q (similarity_params self v user_id limit) w1
                            = (Err e, w')).
Proof.
  intros Hu. induction keys as [|node keys IH]; intros acc w e w' H; simpl in H.
  - discriminate.
  - destruct (bind_inv _ _ _ H) as [(acc1 & w1 & H1 & H2) | (e0 & H1 & He)].
    + destruct (IH _ _ _ _ H2) as (n & Hin & Hn). exists n. split; [right; exact Hin|exact Hn].
    + inversion He; subst e0. exists node. split; [left; reflexivity|].
      unfold retrieve_node in H1.
      destruct (bind_inv _ _ _ H1) as [(emb & w2 & X1 & H3) | (e1 & X1 & He1)];
        apply call_embed_inv in X1 as [Hemb Hw].
      2:{ left. congruence. }
      destruct (bind_inv _ _ _ H3) as [(q & w3 & X2 & H4) | (e1 & X2 & He1)];
        apply lift_inv in X2 as [Hq Hw3].
      2:{ right; left. congruence. }
      rewrite Hu in H4. cbn [lift] in H4. rewrite bind_ret in H4.
      destruct (bind_inv _ _ _ H4) as [(ans & w4 & G & H5) | (e1 & G & He1)].
      * inversion H5.
      * right; right. exists q, emb, w3. inversion He1; subst. exact G.
Qed.

(** The retrieval loop returns when the provider is supported, the embedder
    answers for every entity and [graph_query] answers the similarity
    statement. *)
Lemma retrieve_returns (filters limit user_id : pyval) (q : cypher) (keys : list pyval) :
  getkey filters "user_id" = Ok user_id ->
  similarity_query self = Ok q ->
  (forall node, In node keys -> exists v, embed node = Ok v) ->
  (forall v (w0 : world D), exists rows w1,
      graph_query self q (similarity_params self v user_id limit) w0 = (Ok rows, w1)) ->
  forall (acc : list pyval) (w : world D),
  exists rows w',
    for_each keys (retrieve_node embed self filters limit) acc w = (Ok rows, w').
Proof.
  intros Hu Hq Hemb Hg. induction keys as [|node keys IH]; intros acc w; simpl.
  - eexists; eexists; reflexivity.
  - destruct (Hemb node (or_introl eq_refl)) as (v & Hv).
    destruct (Hg v (extend w (w_store w) [EvEmbed node])) as (rows & w1 & G).
    destruct (IH (fun n Hn => Hemb n (or_intror Hn)) (acc ++ rows)%list w1) as (out & w' & Hr).
    exists out, w'.
    assert (Hstep : retrieve_node embed self filters limit acc node w
                    = (Ok (acc ++ rows)%list, w1)).
    { unfold retrieve_node, call_embed.
      unfold bind at 1 2, emit, lift at 1. simpl. rewrite Hv. simpl.
      rewrite Hq. cbn [lift]. rewrite bind_ret. rewrite Hu. cbn [lift]. rewrite bind_ret.
      fold (similarity_params self v user_id limit).
      unfold extend in G. rewrite (bind_ok _ _ _ G). reflexivity. }
    rewrite (bind_ok _ _ _ Hstep). exact Hr.
Qed.

End ParseFailure.

(** C8 as stated fails: the response lists a well-formed entity and then one
    without its type, the provider is unsupported; parsing fails, the partial
    map holds the first entity, and [_search] raises on it. *)
Lemma parse_failure_then_search_raises :
  let llm := Sample.scripted Sample.entities_broken Sample.no_relations Sample.no_relations in
  extract_entity_type_map Sample.entities_broken
  = ([(PStr "Alice", PStr "person")], Some (KeyError (PStr "entity_type")))
  /\ fst (_search llm Sample.embed_const (Sample.config "memgraph") (PStr "Alice and Bob")
            Sample.u1 default_limit (Sample.start Sample.journal []))
     = Err (ValueError unsupported_provider_msg).
Proof. split; reflexivity. Qed.

(** C8, amended. When parsing the entity-extraction response fails with [e],
    the parse error is not raised: it is logged, and the entity-type map holds
    exactly the entries recorded before the failing one (none when the failure
    precedes the loop).  [_search] then runs retrieval over that map: whenever
    it returns, it returns that map and has sent one similarity statement per
    entry, in order, with the entry's embedding; it returns when the map is
    empty, and whenever the provider is supported and the embedder and
    [graph_query] answer; when it raises, the exception was raised by a
    retrieval step at one of the entries. *)
Theorem parse_failure_logged_then_retrieval (D : Driver)
        (llm : llm_request -> result pyval) (embed : pyval -> result pyval)
        (self : MemoryGraph) (query filters limit : pyval) (w : world D)
        (user_id resp : pyval) (m : pydict) (e : exn) :
  getkey filters "user_id" = Ok user_id ->
  llm (ExtractEntities (structured self) user_id query) = Ok resp ->
  extract_entity_type_map resp = (m, Some e) ->
  let logged := [EvLLM (ExtractEntities (structured self) user_id query);
                 EvLog (LogSearchToolError e);
                 EvLog (LogEntityTypeMap m)] in
  ((entity_items resp = Err e /\ m = [])
   \/ (exists done item rest,
          entity_items resp = Ok (done ++ item :: rest)%list
          /\ record_all done [] = Ok m
          /\ record_entity m item = Err e))
  /\ (forall r w', _search llm embed self query filters limit w = (r, w') ->
        exists tr,
          w_trace w' = (w_trace w ++ logged ++ tr)%list
          /\ (forall rows m', r = Ok (rows, m') ->
                m' = m
                /\ Forall2 (fun node qp =>
                              similarity_query self = Ok (fst qp)
                              /\ exists v, embed node = Ok v
                                           /\ snd qp = similarity_params self v user_id limit)
                           (dict_keys m) (queries_of tr))
          /\ (forall e', r = Err e' ->
                exists node, In node (dict_keys m)
                  /\ (embed node = Err e'
                      \/ similarity_query self = Err e'
                      \/ exists q v w1,
                           graph_query self q (similarity_params self v user_id limit) w1
                           = (Err e', w'))))
  /\ (m = [] ->
      _search llm embed self query filters limit w
      = (Ok ([], []), extend w (w_store w) logged))
  /\ (forall q,
        similarity_query self = Ok q ->
        (forall node, In node (dict_keys m) -> exists v, embed node = Ok v) ->
        (forall v (w0 : world D), exists rows w1,
            graph_query self q (similarity_params self v user_id limit) w0 = (Ok rows, w1)) ->
        exists rows w', _search llm embed self query filters limit w = (Ok (rows, m), w')).
Proof.
  intros Hu Hllm Hext logged.
  pose proof (search_reaches_retrieval llm embed self query filters limit w Hu Hllm Hext)
    as Hrun.
  cbn beta iota in Hrun.
  change (EvLLM (ExtractEntities (structured self) user_id query)
          :: ([EvLog (LogSearchToolError e)] ++ [EvLog (LogEntityTypeMap m)])%list)
    with logged in Hrun.
  split; [|split; [|split]].
  - unfold extract_entity_type_map in Hext.
    destruct (entity_items resp) as [items|e0] eqn:Ei.
    + right. pose proof (record_entities_spec items []) as Hs.
      rewrite Hext in Hs. destruct Hs as (done & item & rest & -> & Hall & Hit).
      exists done, item, rest; auto.
    + left. inversion Hext; auto.
  - intros r w' H. rewrite Hrun in H.
    destruct (bind_inv _ _ _ H) as [(rr & w1 & Hr & H1) | (e0 & Hr & He)].
    + inversion H1; subst. unfold retrieve in Hr.
      pose proof Hr as Hr'. eapply retrieve_statements in Hr'; [|exact Hu].
      destruct Hr' as (t & E & F). simpl in E.
      exists t. split; [rewrite E, <- app_assoc; reflexivity|]. split.
      * intros rows m' Hok. inversion Hok; subst. split; [reflexivity|exact F].
      * intros e' He'. discriminate.
    + subst r. unfold retrieve in Hr.
      assert (Ht : emits (D:=D) (fun _ => True) (retrieve embed self filters limit m)).
      { unfold retrieve. apply emits_for_each. intros acc node. unfold retrieve_node.
        apply emits_bind; [apply call_embed_emits; exact I|]. intros emb.
        apply emits_bind; [apply emits_lift|]. intros q.
        apply emits_bind; [apply emits_lift|]. intros uid.
        apply emits_bind; [|intros; apply emits_ret].
        apply graph_query_emits; intros; exact I. }
      destruct (Ht _ _ _ Hr) as (t & E & _). simpl in E.
      exists t. split; [rewrite E, <- app_assoc; reflexivity|]. split.
      * intros rows m' Hok. discriminate.
      * intros e' He'. inversion He'; subst e'.
        eapply retrieve_failure; [exact Hu|exact Hr].
  - intros ->. rewrite Hrun. reflexivity.
  - intros q Hq Hemb Hg.
    destruct (@retrieve_returns D embed self filters limit user_id q (dict_keys m)
                Hu Hq Hemb Hg [] (extend w (w_store w) logged)) as (rows & w' & Hr).
    exists rows, w'. rewrite Hrun. unfold retrieve. rewrite (bind_ok _ _ _ Hr). reflexivity.
Qed.

Lemma parse_failure_logged_then_retrieval_witness :
  let llm := Sample.scripted Sample.entities_broken Sample.no_relations Sample.no_relations in
  let self := Sample.config "falkordb" in
  let w := Sample.start (Sample.canned Sample.four_rows) tt in
  let run := _search llm Sample.embed_const self (PStr "Alice and Bob") Sample.u1
               default_limit w in
  fst run = Ok (Sample.four_rows, [(PStr "Alice", PStr "person")])
  /\ w_trace (snd run)
     = [EvLLM (ExtractEntities true (PStr "u1") (PStr "Alice and Bob"));
        EvLog (LogSearchToolError (KeyError (PStr "entity_type")));
        EvLog (LogEntityTypeMap [(PStr "Alice", PStr "person")]);
        EvEmbed (PStr "Alice");
        EvSelect (PStr "u1");
        EvQuery SimilarityFalkor
          (similarity_params self (PList [PFloat 1%Q; PFloat 0%Q]) (PStr "u1") default_limit)]
  /\ exists rows w',
       _search llm Sample.embed_const self (PStr "Alice and Bob") Sample.u1 default_limit w
       = (Ok (rows, [(PStr "Alice", PStr "person")]), w').
Proof.
  intros llm self w run. split; [reflexivity|]. split; [reflexivity|].
  refine (proj2 (proj2 (proj2
    (@parse_failure_logged_then_retrieval (Sample.canned Sample.four_rows) llm
       Sample.embed_const self (PStr "Alice and Bob") Sample.u1 default_limit w
       (PStr "u1") Sample.entities_broken
       [(PStr "Alice", PStr "person")] (KeyError (PStr "entity_type"))
       eq_refl eq_refl eq_refl))) SimilarityFalkor eq_refl _ _).
  - intros node _. eexists. reflexivity.
  - intros v w0. eexists. eexists. reflexivity.
Defined.
